(** * Chart-data synthesis pipeline: a shallow embedding

    The embedded program is the Python back end made of
    [chart_processor.py] (type normalisation, IQR outlier filter,
    Chart.js payload construction), the ranking part of [ai_agent.py],
    the cell sanitiser of [csv_processor.py] and the cleaning of the
    model's output in [custom_llama_cpp.py].

    Conventions of the embedding.
    - A pandas [DataFrame] is an ordered list of named, typed columns.
      A column is an [object] column of arbitrary Python scalars (text,
      integers, floats), an [int64] column or a [float64] column.  Column
      names are distinct and all columns have one length; the theorems
      say so where they need it ([List.NoDup (columns d)],
      [same_length d]).
    - Python [float]/[float64] numbers are idealised as exact rationals
      (kept in reduced form) plus one [NaN]; [int64] cells are integers
      of [Z].  Infinities, the rounding of binary64 and the wrap-around
      of [astype(int)] beyond int64 are outside the model.  The model
      and the code therefore compute the same numbers only where
      binary64 and int64 are exact, and the theorems are stated
      accordingly: a theorem that fixes a computed number (a cell after
      [astype(int)], a quantile, a bound, a mean) assumes cells on which
      the computation is exact ([exact_number], [exact_cell],
      [small_int], [exact_mean], [plain_pair]); a theorem about the
      dataset the normaliser or the filters leave refers to it through
      the call itself ([convert_to_numeric], [filtered]); the other
      theorems state what holds whatever the rounding (which exception,
      which keys, the order and the origin of the labels).
    - The caller's frame lives in a heap of frames.  [df[col] = s] writes
      to the frame a reference points to; [dataframe[mask]] allocates a
      new frame.  Exceptions are values of [exn]; a raised exception keeps
      the heap as it was at the raise.
    - [print] calls are dropped.

    pandas and Python behaviour the embedding relies on.
    - [pd.to_numeric(s, errors='coerce')] turns a cell that does not
      parse into NaN and gives [int64] when every cell is an integer,
      [float64] otherwise.
    - [Series.quantile] interpolates linearly between order statistics,
      skips nulls, gives NaN when no cell is left (also on an empty
      column), and raises TypeError on an object column that holds text
      (the message depends on the operation that fails first; the
      theorems only rely on the class of the exception).
    - Comparing a column with a float is elementwise; NaN compares False;
      text against a float is a TypeError.
    - [int(x)] truncates a float toward zero and refuses NaN; [x == int(x)]
      compares by value.
    - [sorted] is stable; [groupby(key).agg(...)] lists the distinct
      non-null keys in ascending order, raises KeyError on an unknown key
      and has nothing to concatenate for an empty aggregation.
    - [DataFrame.applymap] copies an empty frame and otherwise infers
      each column from the objects the function returned.
    - Strings are sequences of code points below 256; [str.strip] removes
      the whitespace among them; [str.split] refuses the empty
      separator. *)

From Stdlib Require Import ZArith QArith Qround String Ascii List Bool Lia.
From Stdlib Require Import Sorting.Sorted Sorting.Permutation.
From stdpp Require Import base list.
Import ListNotations.

Local Open Scope string_scope.
Local Open Scope Z_scope.
Local Open Scope list_scope.

(** ** Python scalars *)

Inductive pyfloat : Type :=
| Fin (q : Q)
| NaN.

(** A Python number: what [int()], [float()] and a numeric column yield. *)
Inductive num : Type :=
| NInt (z : Z)
| NFloat (f : pyfloat).

(** A Python scalar as it can sit in an [object] column. *)
Inductive value : Type :=
| VStr (s : string)
| VInt (z : Z)
| VFloat (f : pyfloat).

Inductive exn : Type :=
| ValueError (msg : string)
| KeyError (key : string)
| TypeError (msg : string)
| IndexError (msg : string)
| StopIteration.

Inductive outcome (A : Type) : Type :=
| Return (a : A)
| Raise (e : exn).
Arguments Return {A} a.
Arguments Raise {A} e.

#[global] Instance outcome_ret : MRet outcome := fun A a => Return a.
#[global] Instance outcome_bind : MBind outcome := fun A B f m =>
  match m with
  | Return a => f a
  | Raise e => Raise e
  end.

Definition is_Return {A} (o : outcome A) : bool :=
  match o with Return _ => true | Raise _ => false end.

(** ** Float arithmetic (exact, NaN-propagating) *)

Definition fadd (a b : pyfloat) : pyfloat :=
  match a, b with
  | Fin x, Fin y => Fin (Qred (x + y))
  | _, _ => NaN
  end.

Definition fsub (a b : pyfloat) : pyfloat :=
  match a, b with
  | Fin x, Fin y => Fin (Qred (x - y))
  | _, _ => NaN
  end.

Definition fmul (a b : pyfloat) : pyfloat :=
  match a, b with
  | Fin x, Fin y => Fin (Qred (x * y))
  | _, _ => NaN
  end.

(** [a <= b] on floats; any comparison with NaN is False. *)
Definition fle (a b : pyfloat) : bool :=
  match a, b with
  | Fin x, Fin y => Qle_bool x y
  | _, _ => false
  end.

Definition float_of_Z (z : Z) : pyfloat := Fin (inject_Z z).

Definition num_to_float (n : num) : pyfloat :=
  match n with
  | NInt z => float_of_Z z
  | NFloat f => f
  end.

(** Truncation toward zero, Python's [int(x)] on a finite float. *)
Definition Qtrunc (q : Q) : Z := Z.quot (Qnum q) (Zpos (Qden q)).

(** [x == int(x)] for a finite float [x]. *)
Definition Q_is_integral (q : Q) : bool := Qeq_bool q (inject_Z (Qtrunc q)).

(** [a < b] and [a == b] on Python numbers (mixed int/float compare by
    value; NaN compares False). *)
Definition num_ltb (a b : num) : bool :=
  match num_to_float a, num_to_float b with
  | Fin x, Fin y => negb (Qle_bool y x)
  | _, _ => false
  end.

Definition num_eqb (a b : num) : bool :=
  match num_to_float a, num_to_float b with
  | Fin x, Fin y => Qeq_bool x y
  | _, _ => false
  end.

(** ** pandas columns and frames *)

Inductive Series : Type :=
| Object (cells : list value)
| Int64 (cells : list Z)
| Float64 (cells : list pyfloat).

Definition DataFrame : Type := list (string * Series).

Definition series_len (s : Series) : nat :=
  match s with
  | Object l => length l
  | Int64 l => length l
  | Float64 l => length l
  end.

(** [s.tolist()]: the cells as Python scalars. *)
Definition tolist (s : Series) : list value :=
  match s with
  | Object l => l
  | Int64 l => map VInt l
  | Float64 l => map VFloat l
  end.

(** [pd.api.types.is_integer_dtype], [is_numeric_dtype]. *)
Definition is_integer_dtype (s : Series) : bool :=
  match s with Int64 _ => true | _ => false end.

Definition is_numeric_dtype (s : Series) : bool :=
  match s with Object _ => false | _ => true end.

(** [df.columns] *)
Definition columns (df : DataFrame) : list string := map fst df.

(** Lookup in an ordered dictionary (first binding). *)
Fixpoint assoc {V} (k : string) (d : list (string * V)) : option V :=
  match d with
  | [] => None
  | (k', v) :: d' => if String.eqb k k' then Some v else assoc k d'
  end.

(** [d[k] = v] on an ordered dictionary: an existing key keeps its place. *)
Fixpoint dict_set {V} (k : string) (v : V) (d : list (string * V))
  : list (string * V) :=
  match d with
  | [] => [(k, v)]
  | (k', v') :: d' =>
      if String.eqb k k' then (k, v) :: d' else (k', v') :: dict_set k v d'
  end.

(** [df[col]] on a frame value. *)
Definition frame_get (df : DataFrame) (col : string) : outcome Series :=
  match assoc col df with
  | Some s => Return s
  | None => Raise (KeyError col)
  end.

(** Boolean-mask selection of the positions of a list. *)
Fixpoint select {A} (mask : list bool) (l : list A) : list A :=
  match mask, l with
  | b :: mask', x :: l' => if b then x :: select mask' l' else select mask' l'
  | _, _ => []
  end.

Definition series_select (mask : list bool) (s : Series) : Series :=
  match s with
  | Object l => Object (select mask l)
  | Int64 l => Int64 (select mask l)
  | Float64 l => Float64 (select mask l)
  end.

(** [dataframe[mask]] as a value: every column keeps the masked rows. *)
Definition frame_select (mask : list bool) (df : DataFrame) : DataFrame :=
  map (fun '(c, s) => (c, series_select mask s)) df.

(** ** The heap of frames and the monad of pandas code *)

Abbreviation ref := nat (only parsing).
Abbreviation heap := (list DataFrame) (only parsing).

Definition Py (A : Type) : Type := heap -> outcome A * heap.

#[global] Instance Py_ret : MRet Py := fun A a h => (Return a, h).
#[global] Instance Py_bind : MBind Py := fun A B f m h =>
  match m h with
  | (Return a, h') => f a h'
  | (Raise e, h') => (Raise e, h')
  end.

Definition lift {A} (o : outcome A) : Py A := fun h => (o, h).

Definition raise {A} (e : exn) : Py A := lift (Raise e).

(** [try: body except Exception: handler] *)
Definition try_except {A} (body : Py A) (handler : exn -> Py A) : Py A :=
  fun h =>
    match body h with
    | (Return a, h') => (Return a, h')
    | (Raise e, h') => handler e h'
    end.

(** Reading the frame behind a reference.  A dangling reference cannot be
    built by the code below; it reads as the empty frame. *)
Definition deref (r : ref) : Py DataFrame :=
  fun h => (Return (default ([] : DataFrame) (h !! r : option DataFrame)), h).

Definition get_columns (r : ref) : Py (list string) :=
  df ← deref r; mret (columns df).

(** [df[col]] *)
Definition getitem (r : ref) (col : string) : Py Series :=
  df ← deref r; lift (frame_get df col).

(** [df[col] = s]: in place, on the frame [r] points to. *)
Definition setitem (r : ref) (col : string) (s : Series) : Py unit :=
  fun h => (Return tt, alter (dict_set col s) r h).

(** A fresh frame object. *)
Definition alloc (df : DataFrame) : Py ref :=
  fun h => (Return (length h), h ++ [df]).

(** [for x in xs: body x] *)
Fixpoint for_each {A} (xs : list A) (body : A -> Py unit) : Py unit :=
  match xs with
  | [] => mret tt
  | x :: xs' => body x;; for_each xs' body
  end.

(** ** pandas primitives used by the pipeline

    The literal grammars of pandas' numeric parser and of Python's
    [int(str)] and [float(str)] are library code; the development is
    parametric in them, so every general theorem holds for whatever
    strings the real parsers accept. *)

Section Pipeline.

(** [pd.to_numeric] on one string cell: the parsed number, or [None] when
    the cell does not parse (coerced to NaN by [errors='coerce']). *)
Variable numeric_of_str : string -> option num.
(** Python's [int(s)] and [float(s)] on a string. *)
Variable int_of_str : string -> option Z.
Variable float_of_str : string -> option pyfloat.

(** One cell under [pd.to_numeric(..., errors='coerce')]. *)
Definition coerce_cell (v : value) : num :=
  match v with
  | VInt z => NInt z
  | VFloat f => NFloat f
  | VStr s => match numeric_of_str s with
              | Some n => n
              | None => NFloat NaN
              end
  end.

Definition num_is_int (n : num) : bool :=
  match n with NInt _ => true | NFloat _ => false end.

Definition num_int_part (n : num) : Z :=
  match n with NInt z => z | NFloat _ => 0 end.

(** [pd.to_numeric(s, errors='coerce')]: a numeric column is returned as
    it is; an object column becomes [int64] when every cell is an
    integer (also when it has no cell), else [float64]. *)
Definition to_numeric (s : Series) : Series :=
  match s with
  | Object l =>
      let ns := map coerce_cell l in
      if forallb num_is_int ns then Int64 (map num_int_part ns)
      else Float64 (map num_to_float ns)
  | _ => s
  end.

Definition float_isnull (f : pyfloat) : bool :=
  match f with NaN => true | Fin _ => false end.

Definition value_isnull (v : value) : bool :=
  match v with VFloat NaN => true | _ => false end.

(** [s.isnull().any()] *)
Definition isnull_any (s : Series) : bool :=
  match s with
  | Object l => existsb value_isnull l
  | Int64 _ => false
  | Float64 l => existsb float_isnull l
  end.

(** Python's [int(v)]. *)
Definition py_int (v : value) : outcome Z :=
  match v with
  | VInt z => Return z
  | VFloat (Fin q) => Return (Qtrunc q)
  | VFloat NaN => Raise (ValueError "cannot convert float NaN to integer")
  | VStr s => match int_of_str s with
              | Some z => Return z
              | None => Raise (ValueError "invalid literal for int() with base 10")
              end
  end.

(** Python's [float(v)]. *)
Definition py_float (v : value) : outcome pyfloat :=
  match v with
  | VInt z => Return (float_of_Z z)
  | VFloat f => Return f
  | VStr s => match float_of_str s with
              | Some f => Return f
              | None => Raise (ValueError "could not convert string to float")
              end
  end.

(** [x == y] between a scalar and a Python int. *)
Definition value_eq_int (v : value) (z : Z) : bool :=
  match v with
  | VInt z' => Z.eqb z' z
  | VFloat (Fin q) => Qeq_bool q (inject_Z z)
  | VFloat NaN => false
  | VStr _ => false
  end.

(** [all(x == int(x) for x in s if pd.notnull(x))]; [int(x)] may raise. *)
Fixpoint all_integral (xs : list value) : outcome bool :=
  match xs with
  | [] => Return true
  | x :: xs' =>
      if value_isnull x then all_integral xs'
      else
        i ← py_int x;
        if value_eq_int x i then all_integral xs' else Return false
  end.

(** [s.astype(int)] on a numeric column without nulls; a null cell (or a
    non-numeric column) is refused, as pandas does. *)
Fixpoint floats_to_ints (l : list pyfloat) : outcome (list Z) :=
  match l with
  | [] => Return []
  | Fin q :: l' => zs ← floats_to_ints l'; Return (Qtrunc q :: zs)
  | NaN :: _ => Raise (ValueError "Cannot convert non-finite values (NA or inf) to integer")
  end.

Fixpoint values_to_ints (l : list value) : outcome (list Z) :=
  match l with
  | [] => Return []
  | v :: l' => z ← py_int v; zs ← values_to_ints l'; Return (z :: zs)
  end.

Definition astype_int (s : Series) : outcome Series :=
  match s with
  | Int64 l => Return (Int64 l)
  | Float64 l => zs ← floats_to_ints l; Return (Int64 zs)
  | Object l => zs ← values_to_ints l; Return (Int64 zs)
  end.

(** *** Quantiles *)

Fixpoint insert_Q (x : Q) (l : list Q) : list Q :=
  match l with
  | [] => [x]
  | y :: l' => if Qle_bool x y then x :: l else y :: insert_Q x l'
  end.

Definition sort_Q (l : list Q) : list Q := foldr insert_Q [] l.

(** Linear interpolation between the two order statistics around the
    virtual index [(n - 1) * q]. *)
Definition linear_quantile (sorted : list Q) (q : Q) : pyfloat :=
  match sorted with
  | [] => NaN
  | x0 :: _ =>
      let n := length sorted in
      let h := (inject_Z (Z.of_nat (n - 1)) * q)%Q in
      let i := Z.to_nat (Qfloor h) in
      let g := (h - inject_Z (Qfloor h))%Q in
      let a := nth i sorted x0 in
      let b := nth (Nat.min (i + 1) (n - 1)) sorted x0 in
      Fin (Qred (a + (b - a) * g))
  end.

Definition finite_part (l : list pyfloat) : list Q :=
  omap (fun f => match f with Fin q => Some q | NaN => None end) l.

Definition value_is_str (v : value) : bool :=
  match v with VStr _ => true | _ => false end.

Definition value_to_float (v : value) : pyfloat :=
  match v with
  | VInt z => float_of_Z z
  | VFloat f => f
  | VStr _ => NaN
  end.

(** [s.quantile(q)]: nulls are skipped, no cell left gives NaN; an object
    column with a string among its non-null cells cannot be interpolated
    (TypeError). *)
Definition quantile (s : Series) (q : Q) : outcome pyfloat :=
  match s with
  | Int64 l => Return (linear_quantile (sort_Q (map inject_Z l)) q)
  | Float64 l => Return (linear_quantile (sort_Q (finite_part l)) q)
  | Object l =>
      if existsb value_is_str l
      then Raise (TypeError "unsupported operand type(s) for -: 'str' and 'str'")
      else Return (linear_quantile (sort_Q (finite_part (map value_to_float l))) q)
  end.

(** *** Comparisons of a column with a float scalar *)

(** One cell of an object column against the scalar [b] with the operator
    [op]: a null cell or a null scalar gives False, a string against a
    float is a TypeError. *)
Definition object_compare (op : pyfloat -> pyfloat -> bool) (b : pyfloat)
    (v : value) : outcome bool :=
  if value_isnull v then Return false
  else if float_isnull b then Return false
  else match v with
       | VStr _ => Raise (TypeError "comparison not supported between instances of 'str' and 'float'")
       | _ => Return (op (value_to_float v) b)
       end.

Fixpoint object_compare_all (op : pyfloat -> pyfloat -> bool) (b : pyfloat)
    (l : list value) : outcome (list bool) :=
  match l with
  | [] => Return []
  | v :: l' =>
      x ← object_compare op b v;
      xs ← object_compare_all op b l';
      Return (x :: xs)
  end.

Definition series_compare (op : pyfloat -> pyfloat -> bool) (s : Series)
    (b : pyfloat) : outcome (list bool) :=
  match s with
  | Int64 l => Return (map (fun z => op (float_of_Z z) b) l)
  | Float64 l => Return (map (fun f => op f b) l)
  | Object l => object_compare_all op b l
  end.

(** [s >= b] and [s <= b] *)
Definition series_ge (s : Series) (b : pyfloat) : outcome (list bool) :=
  series_compare (fun x y => fle y x) s b.

Definition series_le (s : Series) (b : pyfloat) : outcome (list bool) :=
  series_compare fle s b.

(** [m1 & m2] on boolean columns of one frame *)
Definition mask_and (m1 m2 : list bool) : list bool :=
  zip_with andb m1 m2.

(** ** [chart_processor.py] *)

(** [convert_to_numeric(df)], the body of the loop for one column. *)
Definition convert_column (df : ref) (col : string) : Py unit :=
  try_except
    (c ← getitem df col;
     let s := to_numeric c in
     if isnull_any s then mret tt
     else
       integral ← lift (all_integral (tolist s));
       if (integral : bool) then
         s' ← lift (astype_int s);
         setitem df col s'
       else mret tt)
    (fun _ => mret tt).

Definition convert_to_numeric (df : ref) : Py unit :=
  cols ← get_columns df;
  for_each cols (convert_column df).

Definition remove_outliers_iqr (dataframe : ref) (column_name : string)
  : Py ref :=
  c1 ← getitem dataframe column_name;
  Q1 ← lift (quantile c1 (1 # 4));
  c3 ← getitem dataframe column_name;
  Q3 ← lift (quantile c3 (3 # 4));
  let IQR := fsub Q3 Q1 in
  let lower_bound := fsub Q1 (fmul (Fin (3 # 2)) IQR) in
  let upper_bound := fadd Q3 (fmul (Fin (3 # 2)) IQR) in
  cl ← getitem dataframe column_name;
  ge ← lift (series_ge cl lower_bound);
  cu ← getitem dataframe column_name;
  le ← lift (series_le cu upper_bound);
  d ← deref dataframe;
  alloc (frame_select (mask_and ge le) d).

(** *** The Chart.js payload *)

Record AxisTitle : Type := { display : bool; text : string }.
Record Axis : Type := { beginAtZero : option bool; title : AxisTitle }.
(** The dictionary [{"y": ..., "x": ...}]. *)
Record Scales : Type := { y_axis : Axis; x_axis : Axis }.
(** The dictionary [options]; its only key is ["scales"], [None] when the
    key has been popped. *)
Record Options : Type := { scales : option Scales }.

(** One entry of [data]: an ordered dictionary from column name to number. *)
Definition record : Type := list (string * num).

Record ChartData : Type := {
  chartType : string;
  data : list record;
  labelsKey : string;
  valuesKey : string;
  options : Options
}.

Definition set_data (d : list record) (c : ChartData) : ChartData :=
  {| chartType := chartType c; data := d; labelsKey := labelsKey c;
     valuesKey := valuesKey c; options := options c |}.

Definition set_labelsKey (k : string) (c : ChartData) : ChartData :=
  {| chartType := chartType c; data := data c; labelsKey := k;
     valuesKey := valuesKey c; options := options c |}.

Definition set_valuesKey (k : string) (c : ChartData) : ChartData :=
  {| chartType := chartType c; data := data c; labelsKey := labelsKey c;
     valuesKey := k; options := options c |}.

Definition set_options (o : Options) (c : ChartData) : ChartData :=
  {| chartType := chartType c; data := data c; labelsKey := labelsKey c;
     valuesKey := valuesKey c; options := o |}.

(** The literal of lines 21-32. *)
Definition initial_chart_data (chart_type : string) : ChartData :=
  {| chartType := chart_type;
     data := [];
     labelsKey := "";
     valuesKey := "Value";
     options :=
       {| scales := Some
            {| y_axis := {| beginAtZero := Some true;
                            title := {| display := true; text := "Value" |} |};
               x_axis := {| beginAtZero := None;
                            title := {| display := true; text := "Category" |} |} |} |} |}.

(** [chart_data["options"]["scales"]["x"]["title"]["text"] = t] *)
Definition set_x_title (t : string) (c : ChartData) : outcome ChartData :=
  match scales (options c) with
  | None => Raise (KeyError "scales")
  | Some sc =>
      let xa := x_axis sc in
      Return (set_options
        {| scales := Some
             {| y_axis := y_axis sc;
                x_axis := {| beginAtZero := beginAtZero xa;
                             title := {| display := display (title xa);
                                         text := t |} |} |} |} c)
  end.

(** [str.lower()] on ASCII letters. *)
Definition ascii_lower (c : ascii) : ascii :=
  let n := nat_of_ascii c in
  if ((65 <=? n) && (n <=? 90))%nat then ascii_of_nat (n + 32) else c.

Fixpoint lower (s : string) : string :=
  match s with
  | EmptyString => EmptyString
  | String c s' => String (ascii_lower c) (lower s')
  end.

Definition str_in (s : string) (l : list string) : bool :=
  existsb (String.eqb s) l.

(** [int(val) if is_integer_dtype(col) else float(val)] *)
Definition coerce_by_dtype (col : Series) (val : value) : outcome num :=
  if is_integer_dtype col then z ← py_int val; Return (NInt z)
  else f ← py_float val; Return (NFloat f).

(** The loop of lines 57-61 over the rows of [df[[labels_col, values_col]]].
    A row is the pair of the two cells; with twice the same name, the row
    holds two entries under it and [row[name]] is no scalar. *)
Fixpoint pie_rows (labels_col values_col : string) (cl cv : Series)
    (rows : list (value * value)) (acc : list record) : outcome (list record) :=
  match rows with
  | [] => Return acc
  | (a, b) :: rows' =>
      if String.eqb labels_col values_col
      then Raise (TypeError (if is_integer_dtype cl
                             then "cannot convert the series to <class 'int'>"
                             else "cannot convert the series to <class 'float'>"))
      else
        x ← coerce_by_dtype cl a;
        y ← coerce_by_dtype cv b;
        pie_rows labels_col values_col cl cv rows'
          (acc ++ [dict_set values_col y (dict_set labels_col x [])])
  end.

(** [data[i][k] = v] *)
Definition set_entry (d : list record) (i : nat) (k : string) (v : num)
  : outcome (list record) :=
  match d !! i with
  | Some r => Return (<[i := dict_set k v r]> d)
  | None => Raise (IndexError "list index out of range")
  end.

(** [for i, val in enumerate(col.tolist()): data[i][k] = int(val) if ... else float(val)] *)
Fixpoint fill_values (k : string) (col : Series) (vals : list value) (i : nat)
    (d : list record) : outcome (list record) :=
  match vals with
  | [] => Return d
  | val :: vals' =>
      v ← coerce_by_dtype col val;
      d' ← set_entry d i k v;
      fill_values k col vals' (S i) d'
  end.

(** [[{labels_col: int(val)} for val in vals]] *)
Fixpoint label_entries (labels_col : string) (vals : list value)
  : outcome (list record) :=
  match vals with
  | [] => Return []
  | val :: vals' =>
      z ← py_int val;
      rest ← label_entries labels_col vals';
      Return ([(labels_col, NInt z)] :: rest)
  end.

(** The loop of lines 99-108 over the trailing columns. *)
Fixpoint first_numeric_column (df : ref) (value_columns : list string)
    (c : ChartData) : Py ChartData :=
  match value_columns with
  | [] => raise (ValueError "No numeric column found to represent 'value' in the selected columns.")
  | col :: rest =>
      s ← getitem df col;
      if is_numeric_dtype s then
        let c := set_valuesKey col c in
        s' ← getitem df col;
        d ← lift (fill_values col s' (tolist s') 0 (data c));
        mret (set_data d c)
      else first_numeric_column df rest c
  end.

(** *** Sorting, grouping and averaging (lines 112-127) *)

(** [list(item.values())[0]] *)
Definition first_value (item : record) : outcome num :=
  match item with
  | [] => Raise (IndexError "list index out of range")
  | (_, v) :: _ => Return v
  end.

Fixpoint keyed (d : list record) : outcome (list (num * record)) :=
  match d with
  | [] => Return []
  | item :: d' =>
      k ← first_value item;
      rest ← keyed d';
      Return ((k, item) :: rest)
  end.

Fixpoint insert_by_key (x : num * record) (l : list (num * record))
  : list (num * record) :=
  match l with
  | [] => [x]
  | y :: l' => if num_ltb (fst y) (fst x) then y :: insert_by_key x l' else x :: l
  end.

(** [sorted(d, key=lambda item: list(item.values())[0])]: stable. *)
Definition sorted_by_first_value (d : list record) : outcome (list record) :=
  ks ← keyed d;
  Return (map snd (foldr insert_by_key [] ks)).

(** A column of the frame built from the entries: numbers only. *)
Inductive NumColumn : Type :=
| IntCol (cells : list Z)
| FloatCol (cells : list pyfloat).

Definition NumFrame : Type := list (string * NumColumn).

Definition add_key (acc : list string) (k : string) : list string :=
  if str_in k acc then acc else acc ++ [k].

Definition record_keys (d : list record) : list string :=
  fold_left (fun acc r => fold_left add_key (map fst r) acc) d [].

Definition option_is_int (o : option num) : bool :=
  match o with Some (NInt _) => true | _ => false end.

Definition option_int_part (o : option num) : Z :=
  match o with Some (NInt z) => z | _ => 0 end.

Definition option_to_float (o : option num) : pyfloat :=
  match o with Some n => num_to_float n | None => NaN end.

(** [pd.DataFrame(d)] for a list of dictionaries: one column per key in
    order of first appearance; integers only give [int64], anything else
    (a float, a missing key) gives [float64]. *)
Definition frame_of_records (d : list record) : NumFrame :=
  map (fun k =>
         let cells := map (assoc k) d in
         (k, if forallb option_is_int cells
             then IntCol (map option_int_part cells)
             else FloatCol (map option_to_float cells)))
      (record_keys d).

(** [list.remove(x)]: the first occurrence; the caller checks membership. *)
Fixpoint list_remove (x : string) (l : list string) : list string :=
  match l with
  | [] => []
  | y :: l' => if String.eqb x y then l' else y :: list_remove x l'
  end.

Definition column_nums (c : NumColumn) : list num :=
  match c with
  | IntCol l => map NInt l
  | FloatCol l => map NFloat l
  end.

Definition num_notnull (n : num) : bool :=
  match n with NFloat NaN => false | _ => true end.

Fixpoint insert_group (k : num) (l : list num) : list num :=
  match l with
  | [] => [k]
  | g :: l' =>
      if num_ltb k g then k :: l
      else if num_eqb k g then l
      else g :: insert_group k l'
  end.

(** The group keys: the distinct non-null keys in ascending order. *)
Definition group_keys (ks : list num) : list num :=
  foldr insert_group [] (List.filter num_notnull ks).

(** The mean of the non-null cells, NaN when there is none. *)
Definition mean (xs : list num) : pyfloat :=
  let qs := finite_part (map num_to_float xs) in
  match qs with
  | [] => NaN
  | _ => Fin (Qred (fold_right Qplus 0%Q qs / inject_Z (Z.of_nat (length qs))))
  end.

Definition group_mean (ks : list num) (xs : list num) (g : num) : num :=
  NFloat (mean (select (map (fun k => num_eqb k g) ks) xs)).

(** [df.groupby(key).agg({col: ['mean'] for col in cols})], with the column
    index flattened and [reset_index()] applied: the key column first,
    then one column of means per aggregated column, one row per group.
    An unknown key is a KeyError; an empty aggregation dictionary leaves
    nothing to concatenate. *)
Definition groupby_mean (df : NumFrame) (key : string) (cols : list string)
  : outcome (list (string * list num)) :=
  match assoc key df with
  | None => Raise (KeyError key)
  | Some kc =>
      match cols with
      | [] => Raise (ValueError "No objects to concatenate")
      | _ =>
          let ks := column_nums kc in
          let gs := group_keys ks in
          Return ((key, gs) ::
                  omap (fun c =>
                          match assoc c df with
                          | Some xc => Some (c, map (group_mean ks (column_nums xc)) gs)
                          | None => None
                          end) cols)
      end
  end.

(** [frame.to_dict(orient='records')] *)
Definition to_dict_records (f : list (string * list num)) : list record :=
  match f with
  | [] => []
  | (_, c0) :: _ =>
      map (fun i =>
             fold_left (fun r (col : string * list num) =>
                          match snd col !! i with
                          | Some v => dict_set (fst col) v r
                          | None => r
                          end) f [])
          (seq 0 (length c0))
  end.

Definition numerical_columns (f : NumFrame) : list string := map fst f.

(** Lines 110-128. *)
Definition finish_chart (column_names : list string) (labels_col : string)
    (chart_data : ChartData) : outcome ChartData :=
  chart_data ← set_x_title labels_col chart_data;
  d ← sorted_by_first_value (data chart_data);
  let chart_data := set_data d chart_data in
  let df_grouped := frame_of_records (data chart_data) in
  let numerical_cols := numerical_columns df_grouped in
  match column_names with
  | [] => Raise (IndexError "list index out of range")
  | aggregate_by_col :: _ =>
      let numerical_cols :=
        if str_in aggregate_by_col numerical_cols
        then list_remove aggregate_by_col numerical_cols
        else numerical_cols in
      grouped_df ← groupby_mean df_grouped aggregate_by_col numerical_cols;
      Return (set_data (to_dict_records grouped_df) chart_data)
  end.

Fixpoint remove_outliers_all (df : ref) (cols : list string) : Py ref :=
  match cols with
  | [] => mret df
  | col :: rest =>
      df' ← remove_outliers_iqr df col;
      remove_outliers_all df' rest
  end.

Definition create_chartjs_data (df : ref) (column_names : list string)
    (chart_type : string) : Py ChartData :=
  let chart_data := initial_chart_data chart_type in
  convert_to_numeric df;;
  df ← remove_outliers_all df column_names;
  match column_names with
  | [] => raise (ValueError "column_names cannot be empty.")
  | labels_col :: value_columns =>
      frame ← deref df;
      let missing_columns :=
        List.filter (fun col => negb (str_in col (columns frame))) column_names in
      match missing_columns with
      | _ :: _ =>
          raise (ValueError ("Columns not found in DataFrame: "
                             ++ String.concat ", " missing_columns)%string)
      | [] =>
          chart_data ←
            (if str_in (lower chart_type) ["pie"; "doughnut"] then
               match value_columns with
               | [values_col] =>
                   let chart_data := set_labelsKey labels_col chart_data in
                   let chart_data := set_valuesKey values_col chart_data in
                   cl ← getitem df labels_col;
                   cv ← getitem df values_col;
                   d ← lift (pie_rows labels_col values_col cl cv
                               (zip (tolist cl) (tolist cv)) (data chart_data));
                   let chart_data := set_data d chart_data in
                   mret (set_options {| scales := None |} chart_data)
               | _ =>
                   raise (ValueError ("For '" ++ chart_type ++
                     "' charts, 'column_names' must contain exactly two columns: [labels_column, values_column].")%string)
               end
             else
               let chart_data := set_labelsKey labels_col chart_data in
               cl ← getitem df labels_col;
               d ← lift (label_entries labels_col (tolist cl));
               let chart_data := set_data d chart_data in
               match value_columns with
               | [] => mret chart_data
               | [value_col] =>
                   let chart_data := set_valuesKey value_col chart_data in
                   cv ← getitem df value_col;
                   d ← lift (fill_values value_col cv (tolist cv) 0 (data chart_data));
                   mret (set_data d chart_data)
               | _ => first_numeric_column df value_columns chart_data
               end);
          lift (finish_chart column_names labels_col chart_data)
      end
  end.

(** ** [ai_agent.py] *)

(** [s.find(key)]: the first offset at which [key] starts in [s], -1 when
    there is none. *)
Fixpoint find_from (key s : string) (i : Z) : Z :=
  if String.prefix key s then i
  else match s with
       | EmptyString => -1
       | String _ s' => find_from key s' (i + 1)
       end.

Definition find (s key : string) : Z := find_from key s 0.

(** An insertion-ordered dictionary from names to offsets. *)
Definition offsets : Type := list (string * Z).

(** [find_substrings_in_response]: every key of the dictionary is
    reassigned, in place, the offset of its first occurrence. *)
Definition find_substrings_in_response (response_str : string)
    (stringsToFind : offsets) : offsets :=
  fold_left (fun d item => dict_set (fst item) (find response_str (fst item)) d)
            stringsToFind stringsToFind.

(** [{k: v for k, v in d.items() if v != -1}] *)
Definition filter_found (d : offsets) : offsets :=
  List.filter (fun item => negb (snd item =? -1)) d.

Fixpoint insert_by_offset (x : string * Z) (l : offsets) : offsets :=
  match l with
  | [] => [x]
  | y :: l' => if snd y <? snd x then y :: insert_by_offset x l' else x :: l
  end.

(** [dict(items)] *)
Definition dict_of_items (items : offsets) : offsets :=
  fold_left (fun d item => dict_set (fst item) (snd item) d) items [].

(** [dict(sorted(d.items(), key=lambda item: item[1]))]: stable. *)
Definition sorted_by_offset (d : offsets) : offsets :=
  dict_of_items (foldr insert_by_offset [] d).

(** [{name: -1 for name in names}] *)
Definition not_found_yet (names : list string) : offsets :=
  fold_left (fun d name => dict_set name (-1) d) names [].

(** Lines 72-77 for one candidate dictionary: search, drop the absent
    candidates, order by offset. *)
Definition ranking (llm_response_raw : string) (found : offsets) : offsets :=
  sorted_by_offset (filter_found (find_substrings_in_response llm_response_raw found)).

(** [next(iter(d))] *)
Definition first_key (d : offsets) : outcome string :=
  match d with
  | [] => Raise StopIteration
  | (k, _) :: _ => Return k
  end.

Definition found_chart_types : offsets := [("bar", -1); ("line", -1); ("pie", -1)].

(** [s.rfind(',')] *)
Fixpoint rfind_from (c : ascii) (s : string) (i last : Z) : Z :=
  match s with
  | EmptyString => last
  | String a s' => rfind_from c s' (i + 1) (if Ascii.eqb a c then i else last)
  end.

Definition shorten_response (s : string) : string :=
  let last_comma_index := rfind_from "," s 0 (-1) in
  if negb (last_comma_index =? -1)
  then String.substring 0 (Z.to_nat last_comma_index) s
  else s.

(** [str(e)] *)
Definition exn_str (e : exn) : string :=
  match e with
  | ValueError m => m
  | KeyError k => ("'" ++ k ++ "'")%string
  | TypeError m => m
  | IndexError m => m
  | StopIteration => ""
  end.

Record AgentResult : Type := {
  chart_data : option ChartData;
  summary : string;
  error : option string
}.

(** [process_data_and_plot], from the text the language model answered
    (the model itself is an outside collaborator). *)
Definition process_data_and_plot (df : ref) (llm_response_raw : string)
  : Py AgentResult :=
  try_except
    (cols ← get_columns df;
     let found_column_names := not_found_yet cols in
     let sorted_chart_types := ranking llm_response_raw found_chart_types in
     let sorted_column_names := ranking llm_response_raw found_column_names in
     choosen_chart_type ← lift (first_key sorted_chart_types);
     c ← create_chartjs_data df (map fst sorted_column_names) choosen_chart_type;
     mret {| chart_data := Some c;
             summary := shorten_response llm_response_raw;
             error := None |})
    (fun e =>
       mret {| chart_data := None;
               summary := ("An unexpected error occurred: " ++ exn_str e)%string;
               error := Some "UNEXPECTED_ERROR" |}).

End Pipeline.

(** ** [csv_processor.py] *)

(** [s.startswith(prefixes)] for a tuple of prefixes. *)
Definition startswith (s : string) (prefixes : list string) : bool :=
  existsb (fun p => String.prefix p s) prefixes.

(** The inner function of [sanitize_for_csv_injection]; ["009"] is the
    tab character. *)
Definition sanitize_cell (cell : value) : value :=
  match cell with
  | VStr s =>
      if startswith s ["="; "+"; "-"; "@"] then VStr (String "009" s) else cell
  | _ => cell
  end.

Definition value_is_int (v : value) : bool :=
  match v with VInt _ => true | _ => false end.

Definition value_int_part (v : value) : Z :=
  match v with VInt z => z | _ => 0 end.

(** The column pandas makes of the objects a function returned: text
    among them keeps the column an object column; integers only give
    [int64]; numbers otherwise give [float64]. *)
Definition infer_objects (l : list value) : Series :=
  if existsb value_is_str l then Object l
  else if forallb value_is_int l then Int64 (map value_int_part l)
  else Float64 (map value_to_float l).

(** [df.empty] *)
Definition frame_empty (df : DataFrame) : bool :=
  match df with
  | [] => true
  | (_, s) :: _ => (series_len s =? 0)%nat
  end.

(** [df.applymap(f)]: a new frame with the same column names, each column
    inferred from the images of its cells; an empty frame is copied. *)
Definition applymap (f : value -> value) (df : DataFrame) : DataFrame :=
  if frame_empty df then df
  else map (fun cs => (fst cs, infer_objects (map f (tolist (snd cs))))) df.

Definition sanitize_for_csv_injection (data : ref) : Py ref :=
  d ← deref data;
  alloc (applymap sanitize_cell d).

(** ** [custom_llama_cpp.py] *)

(** Whitespace as [str.strip()] sees it, among the code points below 256:
    tab to carriage return, the four separators, the space, NEL and the
    no-break space. *)
Definition is_space (c : ascii) : bool :=
  let n := nat_of_ascii c in
  ((9 <=? n) && (n <=? 13) || (28 <=? n) && (n <=? 32)
   || (n =? 133) || (n =? 160))%nat.

Fixpoint lstrip (s : string) : string :=
  match s with
  | EmptyString => EmptyString
  | String c s' => if is_space c then lstrip s' else s
  end.

Fixpoint rstrip (s : string) : string :=
  match s with
  | EmptyString => EmptyString
  | String c s' =>
      match rstrip s' with
      | EmptyString => if is_space c then EmptyString else String c EmptyString
      | r => String c r
      end
  end.

(** [s.strip()] *)
Definition strip (s : string) : string := rstrip (lstrip s).

(** [s[n:]] *)
Definition str_from (n : nat) (s : string) : string :=
  String.substring n (String.length s - n) s.

(** The loop of lines 113-116: the first stop sequence that occurs in the
    output cuts it; [split] refuses the empty separator. *)
Fixpoint truncate_at_stop (stop : list string) (output : string)
  : outcome string :=
  match stop with
  | [] => Return output
  | s :: stop' =>
      if negb (find output s =? -1) then
        match s with
        | EmptyString => Raise (ValueError "empty separator")
        | _ => Return (strip (String.substring 0 (Z.to_nat (find output s)) output))
        end
      else truncate_at_stop stop' output
  end.

Inductive llm_exn : Type :=
| RuntimeError (msg : string)
| FileNotFoundError (msg : string).

(** [_call] from line 103 on, once [subprocess.run] has returned:
    [stdout] is the text the process wrote (the process is an outside
    collaborator).  An exception of the body is re-raised as a
    RuntimeError (lines 143-147). *)
Definition _call (prompt : string) (stop : option (list string))
    (stdout : string) : string + llm_exn :=
  let output := strip stdout in
  let output :=
    if String.prefix prompt output
    then strip (str_from (String.length prompt) output)
    else output in
  let truncated :=
    match stop with
    | Some stop => truncate_at_stop stop output
    | None => Return output
    end in
  match truncated with
  | Return output => inl output
  | Raise e => inr (RuntimeError ("An unexpected error occurred: " ++ exn_str e)%string)
  end.

(** ** A concrete literal grammar

    Plain decimal literals, [[+-]digits[.digits]]: enough to run the
    pipeline on the scenario data.  The general theorems do not depend
    on it. *)

Definition digit_of (c : ascii) : option Z :=
  let n := nat_of_ascii c in
  if ((48 <=? n) && (n <=? 57))%nat then Some (Z.of_nat (n - 48)) else None.

(** The digits of [s] appended to [acc]; the number of digits read. *)
Fixpoint parse_digits (s : string) (acc : Z) (len : nat) : option (Z * nat) :=
  match s with
  | EmptyString => Some (acc, len)
  | String c s' =>
      match digit_of c with
      | Some d => parse_digits s' (10 * acc + d) (S len)
      | None => None
      end
  end.

Definition split_sign (s : string) : bool * string :=
  match s with
  | String "-" s' => (true, s')
  | String "+" s' => (false, s')
  | _ => (false, s)
  end.

Definition apply_sign (neg : bool) (z : Z) : Z := if neg then - z else z.

Definition decimal_int (s : string) : option Z :=
  let '(neg, body) := split_sign s in
  match parse_digits body 0 0 with
  | Some (z, S _) => Some (apply_sign neg z)
  | _ => None
  end.

Fixpoint split_dot (s : string) : string * option string :=
  match s with
  | EmptyString => (EmptyString, None)
  | String "." s' => (EmptyString, Some s')
  | String c s' => let '(a, b) := split_dot s' in (String c a, b)
  end.

Definition decimal_float (s : string) : option pyfloat :=
  let '(neg, body) := split_sign s in
  let '(ip, fp) := split_dot body in
  match parse_digits ip 0 0, fp with
  | Some (z, S _), None => Some (Fin (inject_Z (apply_sign neg z)))
  | Some (z, S _), Some frac =>
      match parse_digits frac z 0 with
      | Some (m, k) =>
          Some (Fin (Qred (inject_Z (apply_sign neg m) / inject_Z (10 ^ Z.of_nat k))))
      | None => None
      end
  | _, _ => None
  end.

Definition decimal_num (s : string) : option num :=
  match decimal_int s with
  | Some z => Some (NInt z)
  | None => option_map NFloat (decimal_float s)
  end.

(** A call from outside: the caller's frame is the only object of the
    heap; the result comes with the caller's frame after the call. *)
Definition call_create_chartjs_data (d : DataFrame) (column_names : list string)
    (chart_type : string) : outcome ChartData * option DataFrame :=
  let '(r, h) :=
    create_chartjs_data decimal_num decimal_int decimal_float
      0%nat column_names chart_type [d] in
  (r, h !! 0%nat).

(** The other entry points, called the same way. *)
Definition call_convert_to_numeric (d : DataFrame) : outcome unit * option DataFrame :=
  let '(r, h) := convert_to_numeric decimal_num decimal_int 0%nat [d] in
  (r, h !! 0%nat).

Definition call_remove_outliers_iqr (d : DataFrame) (column_name : string)
  : outcome DataFrame :=
  let '(r, h) := remove_outliers_iqr 0%nat column_name [d] in
  r' ← r; Return (default [] (h !! (r' : nat))).

(** *** The datasets of the scenarios *)

(** Scenario 1 as the specification words it: text labels. *)
Definition sales_by_region : DataFrame :=
  [("region", Object [VStr "A"; VStr "A"; VStr "B"]);
   ("sales", Int64 [10; 30; 20])].

(** The same sales with integer region codes. *)
Definition sales_by_region_code : DataFrame :=
  [("region", Int64 [1; 1; 2]);
   ("sales", Int64 [10; 30; 20])].

(** The same, as it comes out of a CSV file read as text. *)
Definition sales_csv : DataFrame :=
  [("region", Object [VStr "1"; VStr "1"; VStr "2"]);
   ("sales", Object [VStr "10"; VStr "30"; VStr "20"])].

(** A text column whose cells all read as numbers, one with a
    fractional part. *)
Definition prices_csv : DataFrame :=
  [("price", Object [VStr "1.5"; VStr "2"])].

(** Scenario 4. *)
Definition one_outlier : DataFrame :=
  [("x", Int64 [1; 2; 3; 4; 100])].

Definition no_rows : DataFrame :=
  [("region", Object []); ("sales", Object [])].

(** Labels written with a decimal point, as a spreadsheet exports whole
    numbers. *)
Definition codes_csv : DataFrame :=
  [("code", Object [VStr "8.0"; VStr "8.0"; VStr "9.0"]);
   ("sales", Object [VStr "10"; VStr "30"; VStr "20"])].

(** ** Vocabulary of the properties *)

Section Vocabulary.

Variable numeric_of_str : string -> option num.
Variable int_of_str : string -> option Z.

(** The cells of a column as [pd.to_numeric] reads them. *)
Definition parsed (s : Series) : list num :=
  match s with
  | Object l => map (coerce_cell numeric_of_str) l
  | Int64 l => map NInt l
  | Float64 l => map NFloat l
  end.

(** A number without fractional part. *)
Definition num_is_whole (n : num) : bool :=
  match n with
  | NInt _ => true
  | NFloat (Fin q) => Q_is_integral q
  | NFloat NaN => false
  end.

Definition num_trunc (n : num) : Z :=
  match n with
  | NInt z => z
  | NFloat (Fin q) => Qtrunc q
  | NFloat NaN => 0
  end.

(** Every cell reads as a number. *)
Definition all_parse (s : Series) : bool := forallb num_notnull (parsed s).

(** Every cell reads as a number without fractional part. *)
Definition all_whole (s : Series) : bool := forallb num_is_whole (parsed s).

(** What the type normaliser does to one column: an integer column when
    every cell reads as a whole number, the column as it is otherwise. *)
Definition normalize_series (s : Series) : Series :=
  if all_parse s && all_whole s then Int64 (map num_trunc (parsed s)) else s.

Definition normalize_frame (d : DataFrame) : DataFrame :=
  map (fun cs => (fst cs, normalize_series (snd cs))) d.

(** The pure content of the loop body of [convert_to_numeric]. *)
Definition converted (s : Series) : Series :=
  let t := to_numeric numeric_of_str s in
  if isnull_any t then s
  else match all_integral int_of_str (tolist t) with
       | Return true =>
           match astype_int int_of_str t with
           | Return s' => s'
           | Raise _ => s
           end
       | _ => s
       end.

End Vocabulary.

(** [f] applied to the first column called [c]. *)
Fixpoint frame_update (c : string) (f : Series -> Series) (d : DataFrame)
  : DataFrame :=
  match d with
  | [] => []
  | (c', s) :: d' =>
      if String.eqb c c' then (c', f s) :: d' else (c', s) :: frame_update c f d'
  end.

(** The number of rows: the length of the columns. *)
Definition nrows (d : DataFrame) : nat :=
  match d with
  | [] => 0
  | (_, s) :: _ => series_len s
  end.

(** All columns have one length. *)
Definition same_length (d : DataFrame) : Prop :=
  Forall (fun cs => series_len (snd cs) = nrows d) d.

(** The rows of a frame, each an ordered dictionary from column name to
    cell. *)
Definition rows (d : DataFrame) : list (list (string * value)) :=
  foldr (fun cs acc => zip_with (fun v r => (fst cs, v) :: r) (tolist (snd cs)) acc)
        (replicate (nrows d) []) d.

(** [lo <= v <= hi] for the cell [v] of a numeric column. *)
Definition within (lo hi : pyfloat) (v : option value) : bool :=
  match v with
  | Some (VInt z) => fle lo (float_of_Z z) && fle (float_of_Z z) hi
  | Some (VFloat f) => fle lo f && fle f hi
  | _ => false
  end.

(** The non-null cells of a numeric column, as exact numbers. *)
Definition numeric_cells (s : Series) : list Q :=
  match s with
  | Int64 l => map inject_Z l
  | Float64 l => finite_part l
  | Object _ => []
  end.

(** The linear-interpolation percentile of a column, NaN when the column
    has no cell to interpolate. *)
Definition percentile (s : Series) (p : Q) : pyfloat :=
  linear_quantile (sort_Q (numeric_cells s)) p.

(** [key] occurs in [s] at offset [i]. *)
Definition occurs_at (key s : string) (i : nat) : Prop :=
  exists pre post : string,
    s = (pre ++ key ++ post)%string /\ String.length pre = i.

Definition occurs (key s : string) : Prop := exists i, occurs_at key s i.

(** The bounds [Q1 - 1.5 IQR] and [Q3 + 1.5 IQR] of a column. *)
Definition iqr_bounds (s : Series) : pyfloat * pyfloat :=
  let Q1 := percentile s (1 # 4) in
  let Q3 := percentile s (3 # 4) in
  let IQR := fsub Q3 Q1 in
  (fsub Q1 (fmul (Fin (3 # 2)) IQR), fadd Q3 (fmul (Fin (3 # 2)) IQR)).

(** A computation that only reads the frames of the heap and allocates
    new ones. *)
Definition grows {A} (m : Py A) : Prop :=
  forall h : heap, h `prefix_of` snd (m h).

(** A computation that raises whatever the heap. *)
Definition always_raises {A} (m : Py A) : Prop :=
  forall h : heap, exists e, fst (m h) = Raise e.

(** The rows the outlier filter keeps in a column: the pure content of
    [remove_outliers_iqr]. *)
Definition outlier_mask (s : Series) : outcome (list bool) :=
  Q1 ← quantile s (1 # 4);
  Q3 ← quantile s (3 # 4);
  let IQR := fsub Q3 Q1 in
  let lower_bound := fsub Q1 (fmul (Fin (3 # 2)) IQR) in
  let upper_bound := fadd Q3 (fmul (Fin (3 # 2)) IQR) in
  ge ← series_ge s lower_bound;
  le ← series_le s upper_bound;
  Return (mask_and ge le).

(** The exceptions the validation of [create_chartjs_data] raises. *)
Definition is_validation_error (e : exn) : Prop :=
  match e with ValueError _ => True | _ => False end.

(** Entries in ascending order of offset. *)
Definition le_offset (a b : string * Z) : Prop := snd a <= snd b.

(** [rk] ranks the candidates of [found] by first offset in [response]:
    it holds exactly the candidates that occur in the text, each once and
    with the offset of its first occurrence, in ascending order of offset;
    so its first entry has the smallest first offset of all candidates
    that occur. *)
Definition first_offset_ranked (response : string) (found rk : offsets) : Prop :=
  (forall k, In k (map fst rk) <-> In k (map fst found) /\ occurs k response)
  /\ (forall k o, In (k, o) rk ->
        o = find response k /\
        exists i : nat, o = Z.of_nat i /\ occurs_at k response i /\
                        forall j, occurs_at k response j -> (i <= j)%nat)
  /\ List.NoDup (map fst rk)
  /\ StronglySorted le_offset rk
  /\ (forall k0 o0 rest k,
        rk = (k0, o0) :: rest ->
        In k (map fst found) -> occurs k response ->
        o0 <= find response k).

(** Whatever a computation returns satisfies [P]. *)
Definition returns_only {A} (P : A -> Prop) (m : Py A) : Prop :=
  forall (h : heap) (a : A) (h' : heap), m h = (Return a, h') -> P a.

(** An entry with no other field than the label. *)
Definition only_label (l : string) (rec : record) : Prop :=
  map fst rec = [l].

(** Two readings of a cell that stand for the same number (or are the
    same reading, NaN included). *)
Definition same_number (a b : num) : Prop := a = b \/ num_eqb a b = true.

(** The lengths of the columns, in order. *)
Definition column_lengths (d : DataFrame) : list nat :=
  map (fun cs => series_len (snd cs)) d.

(** The dtypes of the columns, in order: [None] for object. *)
Definition dtype_of (s : Series) : option bool :=
  match s with
  | Object _ => None
  | Int64 _ => Some true
  | Float64 _ => Some false
  end.

Definition dtypes (d : DataFrame) : list (option bool) :=
  map (fun cs => dtype_of (snd cs)) d.

(** The column [c] exists in [d] and has a numeric dtype. *)
Definition numeric_in (d : DataFrame) (c : string) : Prop :=
  exists s, assoc c d = Some s /\ is_numeric_dtype s = true.

(** A numeric column whose cells all hold the number [q]. *)
Definition constant_column (s : Series) (q : Q) : Prop :=
  match s with
  | Int64 l => Forall (fun z => inject_Z z = q) l
  | Float64 l => Forall (fun f => f = Fin q) l
  | Object _ => False
  end.

(** An entry before aggregation: an integer label and one value. *)
Definition entry (l v : string) (p : Z * num) : record :=
  [(l, NInt (fst p)); (v, snd p)].

(** The values of the entries that bear the label [z], in their order. *)
Definition group_values (pairs : list (Z * num)) (z : Z) : list num :=
  map snd (List.filter (fun p => fst p =? z) pairs).

(** The entry of a group: the label and the mean of its values. *)
Definition group_entry (l v : string) (pairs : list (Z * num)) (z : Z) : record :=
  [(l, NInt z); (v, NFloat (mean (group_values pairs z)))].

(** The column [pd.DataFrame] builds from the values of a field that
    every entry has. *)
Definition value_column (xs : list num) : NumColumn :=
  if forallb num_is_int xs then IntCol (map num_int_part xs)
  else FloatCol (map num_to_float xs).

(** The title of the x axis, when the payload has its scales. *)
Definition x_title (c : ChartData) : option string :=
  option_map (fun sc => text (title (x_axis sc))) (scales (options c)).

(** The dataset the outlier filter keeps for one column: the pure content
    of [remove_outliers_iqr] where it returns, the dataset itself where it
    raises. *)
Definition kept_for (d : DataFrame) (c : string) : DataFrame :=
  match assoc c d with
  | Some s =>
      match outlier_mask s with
      | Return m => frame_select m d
      | Raise _ => d
      end
  | None => d
  end.

(** The dataset the payload is built from: the normalised dataset after
    the outlier filter of every selected column, in order. *)
Definition working_frame (numeric_of_str : string -> option num)
    (d : DataFrame) (cols : list string) : DataFrame :=
  fold_left kept_for cols (normalize_frame numeric_of_str d).

(** The cells of an integer column; the cells of a numeric column as
    Python numbers. *)
Definition integers (s : Series) : list Z :=
  match s with Int64 l => l | _ => [] end.

Definition numbers (s : Series) : list num :=
  match s with
  | Int64 l => map NInt l
  | Float64 l => map NFloat l
  | Object _ => []
  end.

(** The (label, value) pairs of the rows of a dataset. *)
Definition label_value_pairs (d : DataFrame) (l v : string) : list (Z * num) :=
  match assoc l d, assoc v d with
  | Some sl, Some sv => zip (integers sl) (numbers sv)
  | _, _ => []
  end.

(** [int(x)] on the cells of a float column: truncation toward zero. *)
Definition truncated (s : Series) : list Z :=
  match s with
  | Float64 l => map (fun f => match f with Fin q => Qtrunc q | NaN => 0 end) l
  | _ => []
  end.

(** The (label, value) pairs of the rows of a dataset whose label column
    is a float column. *)
Definition truncated_pairs (d : DataFrame) (l v : string) : list (Z * num) :=
  match assoc l d, assoc v d with
  | Some sl, Some sv => zip (truncated sl) (numbers sv)
  | _, _ => []
  end.

(** The column [c] exists in [d] with dtype float64; it holds no NaN. *)
Definition float_in (d : DataFrame) (c : string) : Prop :=
  exists fs, assoc c d = Some (Float64 fs).

Definition finite_in (d : DataFrame) (c : string) : Prop :=
  exists fs, assoc c d = Some (Float64 fs) /\ Forall (fun f => f <> NaN) fs.

(** The column [c] exists in [d] with dtype int64. *)
Definition integer_in (d : DataFrame) (c : string) : Prop :=
  exists ls, assoc c d = Some (Int64 ls).

(** The text cells of a column. *)
Definition text_cells (s : Series) : list string :=
  omap (fun v => match v with VStr t => Some t | _ => None end) (tolist s).

(** A text that a spreadsheet would read as a formula. *)
Definition formula_like (t : string) : Prop :=
  exists (c : ascii) (rest : string),
    t = String c rest /\ In c ["="%char; "+"%char; "-"%char; "@"%char].

(** What [sanitize_cell] makes of a text. *)
Definition sanitized (t : string) : string :=
  if startswith t ["="; "+"; "-"; "@"] then String "009" t else t.

(** A text without whitespace at either end. *)
Definition no_outer_space (t : string) : Prop :=
  (forall c rest, t = String c rest -> is_space c = false)
  /\ (forall pre c, t = (pre ++ String c "")%string -> is_space c = false).

(** A text with a character that is not whitespace. *)
Definition visible (t : string) : Prop :=
  exists pre c post, t = (pre ++ String c post)%string /\ is_space c = false.

(** A text of whitespace only. *)
Definition blank (t : string) : Prop :=
  Forall (fun c => is_space c = true) (list_ascii_of_string t).

(** A text that does not begin with whitespace. *)
Definition no_leading_space (t : string) : Prop :=
  forall c rest, t = String c rest -> is_space c = false.

(** What [_call] has after lines 103-109: the output of the process,
    stripped, without the echo of the prompt. *)
Definition echo_removed (prompt stdout : string) : string :=
  let output := strip stdout in
  if String.prefix prompt output
  then strip (str_from (String.length prompt) output)
  else output.

(** Numbers that int64 and binary64 both hold exactly: integers and
    floats of magnitude at most 2^53; a missing value passes. *)
Definition exact_number (n : num) : bool :=
  match n with
  | NInt z => Z.abs z <=? 2 ^ 53
  | NFloat (Fin q) =>
      Qle_bool (inject_Z (- 2 ^ 53)) q && Qle_bool q (inject_Z (2 ^ 53))
  | NFloat NaN => true
  end.

(** Integers on which the quantiles, the bounds and the comparisons of
    lines 166-173 come out without rounding in binary64: with cells of
    magnitude at most 2^40 every intermediate value is a multiple of 1/8
    below 2^43. *)
Definition small_int (z : Z) : bool := Z.abs z <=? 2 ^ 40.

(** Numbers on which lines 166-173 compute without rounding in
    binary64: binary fractions in lowest terms with denominator at most
    1024 and magnitude at most 2^30 (integers among them).  Every
    intermediate value, the quantiles, their difference, its product
    with 1.5 and the bounds, is then a multiple of 1/8192 below 2^35. *)
Definition exact_cell (q : Q) : bool :=
  (Qnum (Qred q) =? Qnum q)
  && (Qden (Qred q) =? Qden q)%positive
  && (Z.rem 1024 (Z.pos (Qden q)) =? 0)
  && (Z.abs (Qnum q) <=? 2 ^ 30 * Z.pos (Qden q)).

(** The linear-interpolation percentile of an ascending list of
    numbers, as the specification words it: at the position
    [h = (n - 1) p], between the cell at [floor h] and the cell at
    [ceiling h]. *)
Definition interpolated (sorted : list Q) (p : Q) : Q :=
  let n := length sorted in
  let h := (inject_Z (Z.of_nat (n - 1)) * p)%Q in
  let lower := nth (Z.to_nat (Qfloor h)) sorted 0%Q in
  let upper := nth (Z.to_nat (Qceiling h)) sorted 0%Q in
  (lower + (upper - lower) * (h - inject_Z (Qfloor h)))%Q.

(** The column [c] of [d] reads as whole numbers of small magnitude. *)
Definition small_whole_in (numeric_of_str : string -> option num)
    (d : DataFrame) (c : string) : Prop :=
  exists s, assoc c d = Some s
            /\ all_parse numeric_of_str s = true
            /\ all_whole numeric_of_str s = true
            /\ forallb (fun n => small_int (num_trunc n))
                       (parsed numeric_of_str s) = true.

(** A group whose mean binary64 computes without rounding: integer
    values whose absolute sum is at most 2^53, and a mean that is a
    binary fraction [j / 2^k] with [|j|] at most 2^53. *)
Definition exact_mean (xs : list num) : Prop :=
  forallb num_is_int xs = true
  /\ fold_right Z.add 0 (map (fun x => Z.abs (num_int_part x)) xs) <= 2 ^ 53
  /\ exists (j : Z) (k : nat),
       Z.abs j <= 2 ^ 53
       /\ mean xs = Fin (Qred (inject_Z j / inject_Z (2 ^ Z.of_nat k))).

(** An integer that an int64 column holds. *)
Definition in_int64 (z : Z) : bool := (- 2 ^ 63 <=? z) && (z <? 2 ^ 63).

(** The entry of the group of the label [z] in a returned payload: the
    label, then under the key [v] a float, which is the mean of the
    values of the group wherever binary64 computes that mean without
    rounding. *)
Definition grouped_entry (l v : string) (pairs : list (Z * num))
    (rec : record) (z : Z) : Prop :=
  exists f : pyfloat,
    rec = [(l, NInt z); (v, NFloat f)]
    /\ (exact_mean (group_values pairs z) -> f = mean (group_values pairs z)).

(** Labels and values that the frame built from the entries holds as
    they are: labels in int64, values of magnitude at most 2^53. *)
Definition plain_pair (p : Z * num) : bool :=
  in_int64 (fst p) && exact_number (snd p).

(** Lines 34-36 of [create_chartjs_data]: the dataset the payload is
    built from, as the normaliser and the outlier filter of every
    selected column leave it. *)
Definition filtered (numeric_of_str : string -> option num)
    (int_of_str : string -> option Z) (df : ref) (column_names : list string)
  : Py DataFrame :=
  convert_to_numeric numeric_of_str int_of_str df;;
  df ← remove_outliers_all df column_names;
  deref df.

(** ** Facts about the primitives *)

Ltac py_unfold :=
  repeat progress
    (unfold mbind, mret, Py_bind, Py_ret, outcome_bind, outcome_ret,
       lift, raise, try_except, getitem, deref, get_columns, setitem, alloc in *);
  cbv beta in *.

Lemma Qtrunc_inject_Z (z : Z) : Qtrunc (inject_Z z) = z.
Proof. unfold Qtrunc, inject_Z; simpl. apply Z.quot_1_r. Qed.

Lemma Q_is_integral_inject_Z (z : Z) : Q_is_integral (inject_Z z) = true.
Proof.
  unfold Q_is_integral. rewrite Qtrunc_inject_Z.
  apply Qeq_bool_iff. reflexivity.
Qed.





Section NormaliserFacts.

Variable numeric_of_str : string -> option num.
Variable int_of_str : string -> option Z.

Lemma isnull_floats (ns : list num) :
  existsb float_isnull (map num_to_float ns) = negb (forallb num_notnull ns).
Proof.
  induction ns as [|n ns IH]; simpl; [reflexivity|].
  rewrite IH, negb_andb.
  destruct n as [z|[q|]]; reflexivity.
Qed.

Lemma all_integral_ints (l : list Z) :
  all_integral int_of_str (map VInt l) = Return true.
Proof.
  induction l as [|z l IH]; simpl; [reflexivity|].
  unfold mbind, outcome_bind; simpl. rewrite Z.eqb_refl. exact IH.
Qed.

Lemma all_integral_floats (ns : list num) :
  forallb num_notnull ns = true ->
  all_integral int_of_str (map VFloat (map num_to_float ns))
  = Return (forallb num_is_whole ns).
Proof.
  induction ns as [|n ns IH]; simpl; [reflexivity|].
  intros H. apply andb_true_iff in H as [Hn Hns].
  destruct n as [z|[q|]]; simpl in *; try discriminate.
  - unfold mbind, outcome_bind; simpl.
    rewrite Qtrunc_inject_Z.
    replace (Qeq_bool (inject_Z z) (inject_Z z)) with true
      by (symmetry; apply Qeq_bool_iff; reflexivity).
    auto.
  - unfold mbind, outcome_bind; simpl. fold (Q_is_integral q).
    destruct (Q_is_integral q); simpl; auto.
Qed.

Lemma floats_to_ints_notnull (ns : list num) :
  forallb num_notnull ns = true ->
  floats_to_ints (map num_to_float ns) = Return (map num_trunc ns).
Proof.
  induction ns as [|n ns IH]; simpl; [reflexivity|].
  intros H. apply andb_true_iff in H as [Hn Hns].
  destruct n as [z|[q|]]; simpl in *; try discriminate;
    rewrite (IH Hns); unfold mbind, outcome_bind; simpl;
    rewrite ?Qtrunc_inject_Z; reflexivity.
Qed.

Lemma forallb_is_int_whole (ns : list num) :
  forallb num_is_int ns = true ->
  forallb num_notnull ns = true /\ forallb num_is_whole ns = true
  /\ map num_int_part ns = map num_trunc ns.
Proof.
  induction ns as [|n ns IH]; simpl; [auto|].
  intros H. apply andb_true_iff in H as [Hn Hns].
  destruct (IH Hns) as (H1 & H2 & H3).
  destruct n as [z|f]; simpl in *; try discriminate.
  rewrite H1, H2, H3. auto.
Qed.

Lemma converted_normalize (s : Series) :
  converted numeric_of_str int_of_str s = normalize_series numeric_of_str s.
Proof.
  unfold converted, normalize_series, all_parse, all_whole.
  destruct s as [l|l|l]; simpl.
  - destruct (forallb num_is_int (map (coerce_cell numeric_of_str) l)) eqn:Hint.
    + apply forallb_is_int_whole in Hint as (H1 & H2 & H3).
      simpl. rewrite all_integral_ints, H1, H2, H3. reflexivity.
    + simpl. rewrite isnull_floats.
      destruct (forallb num_notnull (map (coerce_cell numeric_of_str) l)) eqn:Hnn;
        simpl; [|reflexivity].
      rewrite (all_integral_floats _ Hnn).
      destruct (forallb num_is_whole (map (coerce_cell numeric_of_str) l));
        [|reflexivity].
      unfold mbind, outcome_bind. rewrite (floats_to_ints_notnull _ Hnn).
      reflexivity.
  - rewrite all_integral_ints.
    replace (forallb num_notnull (map NInt l)) with true
      by (symmetry; apply forallb_forall; intros x Hx;
          apply in_map_iff in Hx as (z & <- & _); reflexivity).
    replace (forallb num_is_whole (map NInt l)) with true
      by (symmetry; apply forallb_forall; intros x Hx;
          apply in_map_iff in Hx as (z & <- & _); reflexivity).
    simpl. rewrite map_map. simpl. rewrite map_id. reflexivity.
  - pose proof (isnull_floats (map NFloat l)) as Hn.
    rewrite map_map in Hn. simpl in Hn. rewrite map_id in Hn. rewrite Hn.
    destruct (forallb num_notnull (map NFloat l)) eqn:Hnn; simpl; [|reflexivity].
    pose proof (all_integral_floats _ Hnn) as Ha.
    rewrite (map_map NFloat) in Ha. simpl in Ha. rewrite map_id in Ha.
    rewrite Ha.
    destruct (forallb num_is_whole (map NFloat l)); [|reflexivity].
    pose proof (floats_to_ints_notnull _ Hnn) as Hf.
    rewrite map_map in Hf. simpl in Hf. rewrite map_id in Hf.
    unfold mbind, outcome_bind. rewrite Hf. reflexivity.
Qed.

End NormaliserFacts.

(** ** The heap *)

Lemma alter_lookup_insert (h : heap) (r : ref) (d : DataFrame)
    (f : DataFrame -> DataFrame) :
  h !! r = Some d -> alter f r h = <[r := f d]> h.
Proof.
  revert r; induction h as [|x h IH]; intros [|r] H; simpl in *;
    try discriminate.
  - injection H as ->. reflexivity.
  - f_equal. apply IH, H.
Qed.

Lemma frame_update_absent (c : string) (f : Series -> Series) (d : DataFrame) :
  assoc c d = None -> frame_update c f d = d.
Proof.
  induction d as [|[c' s] d IH]; simpl; [reflexivity|].
  destruct (String.eqb c c'); [discriminate|].
  intros H. rewrite (IH H). reflexivity.
Qed.

Lemma frame_update_present (c : string) (f : Series -> Series) (d : DataFrame)
    (s : Series) :
  assoc c d = Some s -> frame_update c f d = dict_set c (f s) d.
Proof.
  induction d as [|[c' s'] d IH]; simpl; [discriminate|].
  destruct (String.eqb c c') eqn:E.
  - intros [= ->]. apply String.eqb_eq in E as ->. reflexivity.
  - intros H. rewrite (IH H). reflexivity.
Qed.

Lemma dict_set_same {V} (c : string) (d : list (string * V)) (v : V) :
  assoc c d = Some v -> dict_set c v d = d.
Proof.
  induction d as [|[c' v'] d IH]; simpl; [discriminate|].
  destruct (String.eqb c c') eqn:E.
  - intros [= ->]. apply String.eqb_eq in E as ->. reflexivity.
  - intros H. rewrite (IH H). reflexivity.
Qed.

Lemma frame_update_fixed (c : string) (f : Series -> Series) (d : DataFrame)
    (s : Series) :
  assoc c d = Some s -> f s = s -> frame_update c f d = d.
Proof.
  induction d as [|[c' s'] d IH]; simpl; [discriminate|].
  destruct (String.eqb c c') eqn:E.
  - intros [= ->] ->. reflexivity.
  - intros H Hf. rewrite (IH H Hf). reflexivity.
Qed.

Lemma frame_update_app (c : string) (f : Series -> Series) (d1 d2 : DataFrame) :
  ~ In c (columns d1) ->
  frame_update c f (d1 ++ d2) = d1 ++ frame_update c f d2.
Proof.
  induction d1 as [|[c' s'] d1 IH]; simpl; [reflexivity|].
  intros H. destruct (String.eqb c c') eqn:E.
  - apply String.eqb_eq in E as ->. tauto.
  - rewrite IH by tauto. reflexivity.
Qed.

Lemma fold_update_all (f : Series -> Series) (d1 d2 : DataFrame) :
  List.NoDup (columns (d1 ++ d2)) ->
  fold_left (fun d c => frame_update c f d) (columns d2) (d1 ++ d2)
  = d1 ++ map (fun cs => (fst cs, f (snd cs))) d2.
Proof.
  revert d1; induction d2 as [|[c s] d2 IH]; intros d1 H; simpl.
  - reflexivity.
  - rewrite frame_update_app.
    + simpl. rewrite String.eqb_refl.
      replace (d1 ++ (c, f s) :: d2) with ((d1 ++ [(c, f s)]) ++ d2)
        by (rewrite <- app_assoc; reflexivity).
      rewrite IH.
      * rewrite <- app_assoc. reflexivity.
      * unfold columns in *. rewrite !map_app in *. simpl in *.
        rewrite <- app_assoc. exact H.
    + unfold columns in *. rewrite map_app in H. simpl in H.
      apply NoDup_remove_2 in H. intros Hc. apply H.
      apply in_or_app. left. exact Hc.
Qed.

Section ConvertFacts.

Variable numeric_of_str : string -> option num.
Variable int_of_str : string -> option Z.

Abbreviation converted' := (converted numeric_of_str int_of_str).
Abbreviation convert_column' := (convert_column numeric_of_str int_of_str).
Abbreviation convert_to_numeric' :=
  (convert_to_numeric numeric_of_str int_of_str).

Lemma convert_column_run (r : ref) (c : string) (h : heap) (d : DataFrame) :
  h !! r = Some d ->
  convert_column' r c h = (Return tt, <[r := frame_update c converted' d]> h).
Proof.
  intros Hr. unfold convert_column. py_unfold. rewrite Hr. simpl.
  unfold frame_get. destruct (assoc c d) as [s|] eqn:Hc.
  - rewrite (frame_update_present c converted' d s Hc).
    unfold converted.
    destruct (isnull_any (to_numeric numeric_of_str s)).
    { rewrite dict_set_same, list_insert_id; auto. }
    destruct (all_integral int_of_str (tolist (to_numeric numeric_of_str s)))
      as [[|]|e].
    + destruct (astype_int int_of_str (to_numeric numeric_of_str s)) as [s'|e].
      * rewrite (alter_lookup_insert h r d); auto.
      * rewrite dict_set_same, list_insert_id; auto.
    + rewrite dict_set_same, list_insert_id; auto.
    + rewrite dict_set_same, list_insert_id; auto.
  - rewrite frame_update_absent, list_insert_id; auto.
Qed.

Lemma for_each_convert (r : ref) (cols : list string) (h : heap) (d : DataFrame) :
  h !! r = Some d ->
  for_each cols (convert_column' r) h
  = (Return tt,
     <[r := fold_left (fun d c => frame_update c converted' d) cols d]> h).
Proof.
  revert h d; induction cols as [|c cols IH]; intros h d Hr; simpl.
  - py_unfold. rewrite list_insert_id; auto.
  - unfold mbind, Py_bind. rewrite (convert_column_run r c h d Hr).
    rewrite (IH _ (frame_update c converted' d)).
    + rewrite list_insert_insert_eq. reflexivity.
    + apply list_lookup_insert_eq. eapply lookup_lt_Some, Hr.
Qed.

(** [convert_to_numeric] never raises and rewrites the frame in place,
    column by column. *)
Lemma convert_to_numeric_run (r : ref) (h : heap) (d : DataFrame) :
  h !! r = Some d -> List.NoDup (columns d) ->
  convert_to_numeric' r h
  = (Return tt, <[r := normalize_frame numeric_of_str d]> h).
Proof.
  intros Hr Hnd. unfold convert_to_numeric. py_unfold. rewrite Hr. simpl.
  rewrite (for_each_convert r (columns d) h d Hr).
  pose proof (fold_update_all converted' [] d Hnd) as Hf. simpl in Hf.
  rewrite Hf. unfold normalize_frame. do 2 f_equal.
  apply map_ext. intros [c s]. simpl. f_equal.
  apply converted_normalize.
Qed.

End ConvertFacts.

(** ** The type normaliser *)

Section NormaliserTheorems.

Variable numeric_of_str : string -> option num.
Variable int_of_str : string -> option Z.

Abbreviation normalize_series' := (normalize_series numeric_of_str).
Abbreviation normalize_frame' := (normalize_frame numeric_of_str).

Lemma columns_normalize_frame (d : DataFrame) :
  columns (normalize_frame' d) = columns d.
Proof.
  unfold columns, normalize_frame. rewrite map_map. reflexivity.
Qed.

Lemma assoc_normalize_frame (c : string) (d : DataFrame) :
  assoc c (normalize_frame' d) = option_map normalize_series' (assoc c d).
Proof.
  induction d as [|[c' s] d IH]; simpl; [reflexivity|].
  destruct (String.eqb c c'); [reflexivity | exact IH].
Qed.

Lemma nrows_normalize_series (s : Series) :
  series_len (normalize_series' s) = series_len s.
Proof.
  unfold normalize_series.
  destruct (all_parse numeric_of_str s && all_whole numeric_of_str s);
    [|reflexivity].
  destruct s; simpl; rewrite !length_map; reflexivity.
Qed.

Lemma normalize_series_int (l : list Z) :
  normalize_series' (Int64 l) = Int64 l.
Proof.
  unfold normalize_series, all_parse, all_whole. simpl.
  replace (forallb num_notnull (map NInt l)) with true
    by (symmetry; apply forallb_forall; intros x Hx;
        apply in_map_iff in Hx as (z & <- & _); reflexivity).
  replace (forallb num_is_whole (map NInt l)) with true
    by (symmetry; apply forallb_forall; intros x Hx;
        apply in_map_iff in Hx as (z & <- & _); reflexivity).
  simpl. rewrite map_map. simpl. rewrite map_id. reflexivity.
Qed.

Lemma normalize_series_idempotent (s : Series) :
  normalize_series' (normalize_series' s) = normalize_series' s.
Proof.
  unfold normalize_series at 2 3.
  destruct (all_parse numeric_of_str s && all_whole numeric_of_str s) eqn:E.
  - apply normalize_series_int.
  - unfold normalize_series. rewrite E. reflexivity.
Qed.

Lemma normalize_frame_idempotent (d : DataFrame) :
  normalize_frame' (normalize_frame' d) = normalize_frame' d.
Proof.
  unfold normalize_frame. rewrite map_map. apply map_ext.
  intros [c s]. simpl. rewrite normalize_series_idempotent. reflexivity.
Qed.

(** C7. Running the type normaliser twice in sequence on a dataset (with
    distinct column names) ends in the same state, with the same
    outcome, as running it once. *)
Theorem convert_to_numeric_idempotent (r : ref) (h : heap) (d : DataFrame) :
  h !! r = Some d -> List.NoDup (columns d) ->
  (convert_to_numeric numeric_of_str int_of_str r;;
   convert_to_numeric numeric_of_str int_of_str r) h
  = convert_to_numeric numeric_of_str int_of_str r h.
Proof.
  intros Hr Hnd. unfold mbind, Py_bind.
  rewrite (convert_to_numeric_run _ _ r h d Hr Hnd).
  rewrite (convert_to_numeric_run _ _ r _ (normalize_frame' d)).
  - rewrite normalize_frame_idempotent, list_insert_insert_eq. reflexivity.
  - apply list_lookup_insert_eq. eapply lookup_lt_Some, Hr.
  - rewrite columns_normalize_frame. exact Hnd.
Qed.

(** C5, as the code has it.  For every column of a dataset (with distinct
    column names) the type normaliser never raises and: if every cell
    reads as a number and every such number is whole, the column becomes
    an integer column of the same length, whose cells are those whole
    numbers when they have magnitude at most 2^53 (beyond, the cast to
    int64 is not exact); if every cell reads as a number but some has a
    fractional part, the column is left as it was (text stays text); if
    some cell does not read as a number, the column is left as it was. *)
Theorem convert_to_numeric_column (r : ref) (h : heap) (d : DataFrame)
    (c : string) (s : Series) :
  h !! r = Some d -> List.NoDup (columns d) -> assoc c d = Some s ->
  exists d' : DataFrame,
    convert_to_numeric numeric_of_str int_of_str r h = (Return tt, <[r := d']> h)
    /\ columns d' = columns d
    /\ (all_parse numeric_of_str s = true ->
        all_whole numeric_of_str s = true ->
        exists cells : list Z,
          assoc c d' = Some (Int64 cells)
          /\ length cells = series_len s
          /\ (forallb exact_number (parsed numeric_of_str s) = true ->
              cells = map num_trunc (parsed numeric_of_str s)))
    /\ (all_parse numeric_of_str s = true ->
        all_whole numeric_of_str s = false ->
        assoc c d' = Some s)
    /\ (all_parse numeric_of_str s = false -> assoc c d' = Some s).
Proof.
  intros Hr Hnd Hc. exists (normalize_frame' d).
  split; [apply convert_to_numeric_run; assumption|].
  split; [apply columns_normalize_frame|].
  rewrite assoc_normalize_frame, Hc. simpl. unfold normalize_series.
  split; [|repeat split; intros;
             repeat match goal with H : _ = _ |- _ => rewrite H end; reflexivity].
  intros H1 H2. rewrite H1, H2. simpl. eexists. split; [reflexivity|].
  split; [|reflexivity].
  rewrite length_map. destruct s; simpl; rewrite length_map; reflexivity.
Qed.

End NormaliserTheorems.

(** ** Frames are never written after normalisation *)

Lemma grows_ret {A} (a : A) : grows (mret a).
Proof. intros h. reflexivity. Qed.

Lemma grows_lift {A} (o : outcome A) : grows (lift o).
Proof. intros h. reflexivity. Qed.

Lemma grows_raise {A} (e : exn) : grows (@raise A e).
Proof. intros h. reflexivity. Qed.

Lemma grows_deref (r : ref) : grows (deref r).
Proof. intros h. reflexivity. Qed.

Lemma grows_alloc (d : DataFrame) : grows (alloc d).
Proof. intros h. simpl. apply prefix_app_r. reflexivity. Qed.

Lemma grows_bind {A B} (m : Py A) (f : A -> Py B) :
  grows m -> (forall a, grows (f a)) -> grows (m ≫= f).
Proof.
  intros Hm Hf h. unfold mbind, Py_bind.
  specialize (Hm h). destruct (m h) as [[a|e] h1]; simpl in *.
  - etransitivity; [exact Hm | apply Hf].
  - exact Hm.
Qed.

Lemma grows_getitem (r : ref) (c : string) : grows (getitem r c).
Proof.
  unfold getitem. apply grows_bind; [apply grows_deref|].
  intros a. apply grows_lift.
Qed.

Ltac grows_step :=
  first [ apply grows_bind; [| intros ? ]
        | apply grows_ret | apply grows_lift | apply grows_raise
        | apply grows_deref | apply grows_alloc | apply grows_getitem ].

Lemma grows_remove_outliers_iqr (r : ref) (c : string) :
  grows (remove_outliers_iqr r c).
Proof. unfold remove_outliers_iqr. repeat grows_step. Qed.

Lemma grows_remove_outliers_all (cols : list string) (r : ref) :
  grows (remove_outliers_all r cols).
Proof.
  revert r; induction cols as [|c cols IH]; intros r; simpl.
  - apply grows_ret.
  - apply grows_bind; [apply grows_remove_outliers_iqr | intros a; apply IH].
Qed.

Lemma always_raises_bind {A B} (m : Py A) (f : A -> Py B) :
  (forall a, always_raises (f a)) -> always_raises (m ≫= f).
Proof.
  intros Hf h. unfold mbind, Py_bind.
  destruct (m h) as [[a|e] h1]; [apply Hf | exists e; reflexivity].
Qed.

Lemma always_raises_raise {A} (e : exn) : always_raises (@raise A e).
Proof. intros h. exists e. reflexivity. Qed.

Lemma always_raises_after {A B} (P : A -> Prop) (m : Py A) (f : A -> Py B) :
  returns_only P m -> (forall a, P a -> always_raises (f a)) ->
  always_raises (m ≫= f).
Proof.
  intros Hm Hf h. unfold mbind, Py_bind.
  destruct (m h) as [[a|e] h1] eqn:E; [|exists e; reflexivity].
  apply Hf. eapply Hm, E.
Qed.

Lemma returns_only_ret {A} (P : A -> Prop) (a : A) :
  P a -> returns_only P (mret a).
Proof. intros Ha h a' h' [= <- _]. exact Ha. Qed.

Lemma returns_only_raise {A} (P : A -> Prop) (e : exn) :
  returns_only P (raise e).
Proof. intros h a h' H. discriminate. Qed.

Lemma returns_only_bind {A B} (P : B -> Prop) (m : Py A) (f : A -> Py B) :
  (forall a, returns_only P (f a)) -> returns_only P (m ≫= f).
Proof.
  intros Hf h b h'. unfold mbind, Py_bind.
  destruct (m h) as [[a|e] h1]; [apply Hf | discriminate].
Qed.

Lemma remove_outliers_iqr_run (r : ref) (c : string) (h : heap) (d : DataFrame) :
  h !! r = Some d ->
  remove_outliers_iqr r c h
  = match assoc c d with
    | None => (Raise (KeyError c), h)
    | Some s =>
        match outlier_mask s with
        | Return m => (Return (length h), h ++ [frame_select m d])
        | Raise e => (Raise e, h)
        end
    end.
Proof.
  intros Hr. unfold remove_outliers_iqr, outlier_mask. py_unfold.
  rewrite Hr. simpl. unfold frame_get.
  destruct (assoc c d) as [s|]; [|reflexivity].
  destruct (quantile s (1 # 4)) as [Q1|e]; [|reflexivity].
  destruct (quantile s (3 # 4)) as [Q3|e]; [|reflexivity].
  destruct (series_ge _ _) as [ge|e]; [|reflexivity].
  destruct (series_le _ _) as [le|e]; reflexivity.
Qed.

Lemma assoc_None_iff {V} (c : string) (d : list (string * V)) :
  assoc c d = None <-> ~ In c (map fst d).
Proof.
  induction d as [|[c' v] d IH]; simpl; [tauto|].
  destruct (String.eqb c c') eqn:E.
  - apply String.eqb_eq in E as ->. split; [discriminate | tauto].
  - apply String.eqb_neq in E. rewrite IH. split; [|tauto].
    intros H [Heq|Hin]; [congruence | tauto].
Qed.

Lemma columns_frame_select (m : list bool) (d : DataFrame) :
  columns (frame_select m d) = columns d.
Proof.
  unfold columns, frame_select. rewrite map_map. apply map_ext.
  intros [c s]. reflexivity.
Qed.

Lemma object_compare_all_error (op : pyfloat -> pyfloat -> bool) (b : pyfloat)
    (l : list value) (e : exn) :
  object_compare_all op b l = Raise e -> ~ is_validation_error e.
Proof.
  induction l as [|v l IH]; simpl; [discriminate|].
  unfold mbind, outcome_bind, object_compare.
  destruct (value_isnull v); [|destruct (float_isnull b); [|destruct v]];
    try (destruct (object_compare_all op b l); [discriminate|];
         intros [= <-]; auto).
  intros [= <-]. simpl. tauto.
Qed.

Lemma outlier_mask_error (s : Series) (e : exn) :
  outlier_mask s = Raise e -> ~ is_validation_error e.
Proof.
  unfold outlier_mask, mbind, outcome_bind.
  assert (Hq : forall q e', quantile s q = Raise e' -> ~ is_validation_error e').
  { intros q e'. destruct s; simpl; try discriminate.
    destruct (existsb value_is_str cells); [|discriminate].
    intros [= <-]. simpl. tauto. }
  assert (Hc : forall op b e', series_compare op s b = Raise e' ->
                               ~ is_validation_error e').
  { intros op b e'. destruct s; simpl; try discriminate.
    apply object_compare_all_error. }
  destruct (quantile s (1 # 4)) as [Q1|e1] eqn:E1;
    [|intros [= <-]; eapply Hq, E1].
  destruct (quantile s (3 # 4)) as [Q3|e3] eqn:E3;
    [|intros [= <-]; eapply Hq, E3].
  unfold series_ge, series_le.
  destruct (series_compare _ s _) as [ge|e2] eqn:E2;
    [|intros [= <-]; eapply Hc, E2].
  destruct (series_compare fle s _) as [le|e4] eqn:E4;
    [discriminate | intros [= <-]; eapply Hc, E4].
Qed.

Lemma remove_outliers_all_missing (cols : list string) (c : string) (r : ref)
    (h : heap) (d : DataFrame) :
  h !! r = Some d -> In c cols -> ~ In c (columns d) ->
  exists e, fst (remove_outliers_all r cols h) = Raise e
            /\ ~ is_validation_error e.
Proof.
  revert r h d; induction cols as [|c' cols IH]; intros r h d Hr Hin Hc;
    [destruct Hin|].
  simpl. unfold mbind, Py_bind. rewrite (remove_outliers_iqr_run r c' h d Hr).
  destruct (assoc c' d) as [s|] eqn:Ha.
  - destruct (outlier_mask s) as [m|e] eqn:Hm.
    + destruct Hin as [->|Hin].
      * apply assoc_None_iff in Hc. unfold columns in Hc. congruence.
      * apply (IH _ _ (frame_select m d)); auto.
        -- rewrite lookup_app_r, Nat.sub_diag by lia. reflexivity.
        -- rewrite columns_frame_select. exact Hc.
    + exists e. split; [reflexivity | eapply outlier_mask_error, Hm].
  - exists (KeyError c'). split; [reflexivity | simpl; tauto].
Qed.

Section PayloadFacts.

Variable numeric_of_str : string -> option num.
Variable int_of_str : string -> option Z.
Variable float_of_str : string -> option pyfloat.

Abbreviation create_chartjs_data' :=
  (create_chartjs_data numeric_of_str int_of_str float_of_str).

Lemma grows_first_numeric_column (r : ref) (cols : list string) (c : ChartData) :
  grows (first_numeric_column int_of_str float_of_str r cols c).
Proof.
  revert c; induction cols as [|col cols IH]; intros c; simpl.
  - apply grows_raise.
  - apply grows_bind; [apply grows_getitem | intros s].
    destruct (is_numeric_dtype s); [repeat grows_step | apply IH].
Qed.

(** What follows the normaliser in [create_chartjs_data]. *)
Lemma create_chartjs_data_split (r : ref) (cols : list string) (ty : string) :
  exists rest : Py ChartData,
    grows rest /\
    create_chartjs_data' r cols ty
    = (convert_to_numeric numeric_of_str int_of_str r;; rest).
Proof.
  eexists. split; [|unfold create_chartjs_data; reflexivity].
  apply grows_bind; [apply grows_remove_outliers_all | intros df].
  destruct cols as [|l vs]; [apply grows_raise|].
  apply grows_bind; [apply grows_deref | intros frame].
  destruct (List.filter _ _); [|apply grows_raise].
  apply grows_bind; [| intros c; apply grows_lift].
  destruct (str_in (lower ty) ["pie"; "doughnut"]).
  - destruct vs as [|v [|]]; try apply grows_raise. repeat grows_step.
  - apply grows_bind; [apply grows_getitem | intros cl].
    apply grows_bind; [apply grows_lift | intros d0].
    destruct vs as [|v [|v2 vs]];
      [apply grows_ret | repeat grows_step | apply grows_first_numeric_column].
Qed.

(** C2: what the code does instead.  With the chart type "pie" or
    "doughnut" (in any letter case) the call never returns a payload:
    whatever the dataset and the selection, it ends in an exception.
    On two existing numeric columns the pie branch builds its entries,
    removes the scales from the options, and the statement that follows
    the branch then looks the scales up again and raises. *)
Theorem create_chartjs_data_pie_raises (r : ref) (column_names : list string)
    (chart_type : string) :
  str_in (lower chart_type) ["pie"; "doughnut"] = true ->
  always_raises (create_chartjs_data' r column_names chart_type).
Proof.
  intros Hpie. unfold create_chartjs_data.
  apply always_raises_bind; intros _.
  apply always_raises_bind; intros df.
  destruct column_names as [|l vs]; [apply always_raises_raise|].
  apply always_raises_bind; intros frame.
  destruct (List.filter _ _); [|apply always_raises_raise].
  rewrite Hpie.
  apply (always_raises_after (fun c => scales (options c) = None)).
  - destruct vs as [|v [|]]; try apply returns_only_raise.
    do 3 (apply returns_only_bind; intros ?).
    apply returns_only_ret. reflexivity.
  - intros c Hc h. exists (KeyError "scales").
    unfold lift, finish_chart, set_x_title. rewrite Hc. reflexivity.
Qed.

Lemma convert_column_returns (r : ref) (c : string) (h : heap) :
  fst (convert_column numeric_of_str int_of_str r c h) = Return tt.
Proof.
  unfold convert_column, try_except.
  match goal with |- context [match ?b with _ => _ end] => destruct b as [[[]|e] h1] end;
    reflexivity.
Qed.

Lemma for_each_convert_returns (r : ref) (cols : list string) (h : heap) :
  fst (for_each cols (convert_column numeric_of_str int_of_str r) h) = Return tt.
Proof.
  revert h. induction cols as [|c cols IH]; intros h; simpl.
  - reflexivity.
  - unfold mbind, Py_bind.
    pose proof (convert_column_returns r c h) as Hc.
    destruct (convert_column numeric_of_str int_of_str r c h) as [[[]|e] h1];
      simpl in Hc; [apply IH | discriminate].
Qed.

Lemma convert_to_numeric_returns (r : ref) (h : heap) :
  fst (convert_to_numeric numeric_of_str int_of_str r h) = Return tt.
Proof.
  unfold convert_to_numeric, get_columns, deref.
  unfold mbind, Py_bind, mret, Py_ret. apply for_each_convert_returns.
Qed.

(** The empty selection is rejected by the validation. *)
Lemma create_chartjs_data_empty_selection (r : ref) (chart_type : string)
    (h : heap) :
  fst (create_chartjs_data' r [] chart_type h)
  = Raise (ValueError "column_names cannot be empty.").
Proof.
  unfold create_chartjs_data. unfold mbind at 1, Py_bind.
  pose proof (convert_to_numeric_returns r h) as Hc.
  destruct (convert_to_numeric numeric_of_str int_of_str r h) as [[[]|e] h1];
    simpl in Hc; [reflexivity | discriminate].
Qed.

(** C4: what the code does instead.  When some selected name is absent
    from the schema of the dataset (distinct column names), the call does
    raise, but never the validation error: the outlier filter runs before
    the validation and fails first on the absent column (KeyError) or on
    an earlier one. *)
Theorem create_chartjs_data_missing_column (r : ref) (h : heap) (d : DataFrame)
    (column_names : list string) (chart_type : string) (c : string) :
  h !! r = Some d -> List.NoDup (columns d) ->
  In c column_names -> ~ In c (columns d) ->
  exists e, fst (create_chartjs_data' r column_names chart_type h) = Raise e
            /\ ~ is_validation_error e.
Proof.
  intros Hr Hnd Hin Hc. unfold create_chartjs_data.
  unfold mbind at 1, Py_bind.
  rewrite (convert_to_numeric_run _ _ r h d Hr Hnd).
  unfold mbind at 1, Py_bind.
  destruct (remove_outliers_all_missing column_names c r
              (<[r := normalize_frame numeric_of_str d]> h)
              (normalize_frame numeric_of_str d)) as (e & He & Hv); auto.
  - apply list_lookup_insert_eq. eapply lookup_lt_Some, Hr.
  - rewrite columns_normalize_frame. exact Hc.
  - destruct (remove_outliers_all _ _ _) as [[a|e'] h1]; simpl in He;
      [discriminate|]. injection He as ->. exists e. auto.
Qed.

(** A text cell of the label column that does not read as a whole number
    keeps the column a text column, which the outlier filter refuses with
    a TypeError: [int()] is not reached. *)
Lemma text_label_raises (r : ref) (h : heap) (d : DataFrame)
    (labels_col : string) (value_columns : list string) (chart_type : string)
    (cells : list value) (s : string) :
  h !! r = Some d -> List.NoDup (columns d) ->
  assoc labels_col d = Some (Object cells) ->
  In (VStr s) cells ->
  num_is_whole (coerce_cell numeric_of_str (VStr s)) = false ->
  exists msg,
    fst (create_chartjs_data' r (labels_col :: value_columns) chart_type h)
    = Raise (TypeError msg).
Proof.
  intros Hr Hnd Hl Hin Hs. unfold create_chartjs_data.
  unfold mbind at 1, Py_bind.
  rewrite (convert_to_numeric_run _ _ r h d Hr Hnd).
  unfold mbind at 1, Py_bind. simpl remove_outliers_all.
  unfold mbind at 1, Py_bind.
  rewrite (remove_outliers_iqr_run r labels_col _ (normalize_frame numeric_of_str d))
    by (apply list_lookup_insert_eq; eapply lookup_lt_Some, Hr).
  rewrite assoc_normalize_frame, Hl. simpl.
  assert (Hw : all_whole numeric_of_str (Object cells) = false).
  { unfold all_whole. simpl. apply not_true_is_false. intros Hall.
    rewrite forallb_forall in Hall.
    specialize (Hall (coerce_cell numeric_of_str (VStr s))).
    rewrite Hall in Hs; [discriminate|].
    apply in_map_iff. exists (VStr s). auto. }
  unfold normalize_series. rewrite Hw, andb_false_r.
  assert (Hstr : existsb value_is_str cells = true).
  { apply existsb_exists. exists (VStr s). auto. }
  unfold outlier_mask. simpl. rewrite Hstr. simpl.
  eexists. reflexivity.
Qed.

End PayloadFacts.

(** ** The outlier filter *)

Lemma select_nil_r {A} (m : list bool) : select m ([] : list A) = [].
Proof. destruct m; reflexivity. Qed.

Lemma select_map {A B} (f : A -> B) (m : list bool) (l : list A) :
  select m (map f l) = map f (select m l).
Proof.
  revert l; induction m as [|b m IH]; intros [|x l]; simpl; try reflexivity.
  destruct b; simpl; rewrite IH; reflexivity.
Qed.

Lemma select_zip_with {A B C} (f : A -> B -> C) (m : list bool)
    (l : list A) (k : list B) :
  select m (zip_with f l k) = zip_with f (select m l) (select m k).
Proof.
  revert l k; induction m as [|b m IH]; intros [|x l] [|y k]; simpl;
    try reflexivity.
  - destruct b; [|destruct (select m l)]; reflexivity.
  - destruct b; simpl; rewrite IH; reflexivity.
Qed.

Lemma select_replicate {A B} (x : B) (m : list bool) (l : list A) :
  select m (replicate (length l) x) = replicate (length (select m l)) x.
Proof.
  revert l; induction m as [|b m IH]; intros [|y l]; simpl; try reflexivity.
  destruct b; simpl; rewrite IH; reflexivity.
Qed.

Lemma select_filter {A} (p : A -> bool) (l : list A) :
  select (map p l) l = List.filter p l.
Proof.
  induction l as [|x l IH]; simpl; [reflexivity|].
  destruct (p x); rewrite IH; reflexivity.
Qed.

Lemma zip_with_map_same {A} (f g : A -> bool) (l : list A) :
  zip_with andb (map f l) (map g l) = map (fun x => f x && g x) l.
Proof.
  induction l as [|x l IH]; simpl; [reflexivity|]. rewrite IH. reflexivity.
Qed.

Lemma tolist_series_select (m : list bool) (s : Series) :
  tolist (series_select m s) = select m (tolist s).
Proof. destruct s; simpl; rewrite ?select_map; reflexivity. Qed.

Lemma length_tolist (s : Series) : length (tolist s) = series_len s.
Proof. destruct s; simpl; rewrite ?length_map; reflexivity. Qed.

Lemma rows_select_from (m : list bool) (d : DataFrame) (n k : nat) :
  replicate k [] = select m (replicate n ([] : list (string * value))) ->
  foldr (fun cs acc => zip_with (fun v r => (fst cs, v) :: r) (tolist (snd cs)) acc)
        (replicate k []) (frame_select m d)
  = select m
      (foldr (fun cs acc => zip_with (fun v r => (fst cs, v) :: r) (tolist (snd cs)) acc)
             (replicate n []) d).
Proof.
  intros Hk. induction d as [|[c s] d IH]; simpl; [exact Hk|].
  rewrite select_zip_with, tolist_series_select. f_equal. exact IH.
Qed.

(** Selecting rows of a frame is selecting in the list of its rows. *)
Lemma rows_frame_select (m : list bool) (d : DataFrame) :
  rows (frame_select m d) = select m (rows d).
Proof.
  unfold rows. apply rows_select_from.
  destruct d as [|[c s] d]; simpl.
  - rewrite select_nil_r. reflexivity.
  - rewrite <- !length_tolist, tolist_series_select.
    symmetry. apply select_replicate.
Qed.






Lemma quantile_numeric (s : Series) (q : Q) :
  is_numeric_dtype s = true -> quantile s q = Return (percentile s q).
Proof. destruct s; simpl; [discriminate | reflexivity | reflexivity]. Qed.

Lemma outlier_mask_numeric (s : Series) :
  is_numeric_dtype s = true ->
  outlier_mask s
  = Return (map (fun v => within (fst (iqr_bounds s)) (snd (iqr_bounds s)) (Some v))
                (tolist s)).
Proof.
  intros Hn. unfold outlier_mask.
  rewrite !quantile_numeric by exact Hn. unfold mbind, outcome_bind.
  unfold iqr_bounds. simpl fst. simpl snd.
  destruct s as [l|l|l]; [discriminate| |]; simpl;
    unfold mask_and; rewrite zip_with_map_same, ?map_map; reflexivity.
Qed.

Lemma assoc_Some_In {V} (c : string) (d : list (string * V)) (v : V) :
  assoc c d = Some v -> In (c, v) d.
Proof.
  induction d as [|[c' v'] d IH]; simpl; [discriminate|].
  destruct (String.eqb c c') eqn:E.
  - intros [= ->]. apply String.eqb_eq in E as ->. auto.
  - auto.
Qed.

Lemma outlier_mask_no_cell (s : Series) :
  series_len s = 0%nat -> outlier_mask s = Return [].
Proof.
  destruct s as [[|]|[|]|[|]]; simpl; try discriminate; reflexivity.
Qed.

(** C9.  On a dataset without rows, the outlier filter applied to any of
    its columns does not raise: it returns a new dataset with the same
    columns and no row. *)
Theorem remove_outliers_iqr_no_rows (r : ref) (h : heap) (d : DataFrame)
    (c : string) :
  h !! r = Some d -> same_length d -> nrows d = 0%nat ->
  In c (columns d) ->
  exists d' : DataFrame,
    remove_outliers_iqr r c h = (Return (length h), h ++ [d'])
    /\ columns d' = columns d
    /\ nrows d' = 0%nat
    /\ rows d' = [].
Proof.
  intros Hr Hlen Hz Hin.
  rewrite (remove_outliers_iqr_run r c h d Hr).
  destruct (assoc c d) as [s|] eqn:Hc;
    [|apply assoc_None_iff in Hc; exfalso; exact (Hc Hin)].
  assert (Hs : series_len s = 0%nat).
  { unfold same_length in Hlen. rewrite List.Forall_forall in Hlen.
    rewrite <- Hz. apply (Hlen (c, s)). apply assoc_Some_In, Hc. }
  rewrite (outlier_mask_no_cell s Hs).
  eexists. split; [reflexivity|]. split; [apply columns_frame_select|].
  split.
  - destruct d as [|[c0 s0] d]; [reflexivity|]. simpl.
    destruct s0; reflexivity.
  - rewrite rows_frame_select. reflexivity.
Qed.

(** ** Ranking by first offset *)

Lemma prefix_iff (key s : string) :
  String.prefix key s = true <-> exists post, s = (key ++ post)%string.
Proof.
  revert s; induction key as [|a key IH]; intros s; simpl.
  - destruct s; split; eauto.
  - destruct s as [|b s]; simpl.
    + split; [discriminate | intros [post H]; discriminate].
    + destruct (ascii_dec a b) as [->|Hne].
      * rewrite IH. split; intros [post H]; exists post; congruence.
      * split; [discriminate | intros [post H]; congruence].
Qed.

Lemma occurs_at_0 (key s : string) :
  occurs_at key s 0 <-> String.prefix key s = true.
Proof.
  rewrite prefix_iff. split.
  - intros (pre & post & -> & Hlen).
    destruct pre; [|discriminate]. exists post. reflexivity.
  - intros [post ->]. exists EmptyString, post. auto.
Qed.

Lemma occurs_at_S (key : string) (a : ascii) (s : string) (j : nat) :
  occurs_at key (String a s) (S j) <-> occurs_at key s j.
Proof.
  split.
  - intros (pre & post & H & Hlen).
    destruct pre as [|b pre]; [discriminate|].
    simpl in H, Hlen. injection H as -> ->. injection Hlen as Hlen.
    exists pre, post. auto.
  - intros (pre & post & -> & Hlen).
    exists (String a pre), post. simpl. auto.
Qed.

Lemma occurs_at_empty (key : string) (j : nat) :
  occurs_at key EmptyString j -> String.prefix key EmptyString = true.
Proof.
  intros (pre & post & H & Hlen).
  destruct pre; [|discriminate]. destruct key; [reflexivity | discriminate].
Qed.

Lemma find_from_cons (key : string) (a : ascii) (s : string) (i : Z) :
  find_from key (String a s) i
  = if String.prefix key (String a s) then i else find_from key s (i + 1).
Proof. reflexivity. Qed.

(** [find_from] returns the first offset of the key, counted from [i],
    or -1 when the key does not occur. *)
Lemma find_from_spec (key s : string) (i : Z) :
  (find_from key s i = -1 /\ forall j, ~ occurs_at key s j)
  \/ (exists j : nat,
        find_from key s i = i + Z.of_nat j /\ occurs_at key s j /\
        forall j', occurs_at key s j' -> (j <= j')%nat).
Proof.
  revert i; induction s as [|a s IH]; intros i.
  - unfold find_from. destruct (String.prefix key EmptyString) eqn:E.
    + right. exists 0%nat. rewrite Z.add_0_r.
      split; [reflexivity|]. split; [apply occurs_at_0, E | intros; lia].
    + left. split; [reflexivity|].
      intros j H. apply occurs_at_empty in H. congruence.
  - rewrite find_from_cons. destruct (String.prefix key (String a s)) eqn:E.
    + right. exists 0%nat. rewrite Z.add_0_r.
      split; [reflexivity|]. split; [apply occurs_at_0, E | intros; lia].
    + destruct (IH (i + 1)) as [[Hf Hno]|(j & Hf & Hj & Hmin)].
      * left. split; [exact Hf|]. intros [|j] H.
        -- apply occurs_at_0 in H. congruence.
        -- apply occurs_at_S in H. exact (Hno j H).
      * right. exists (S j). split; [rewrite Hf; lia|].
        split; [apply occurs_at_S, Hj|].
        intros [|j'] H.
        -- apply occurs_at_0 in H. congruence.
        -- apply occurs_at_S in H. apply Hmin in H. lia.
Qed.

Lemma find_spec (response key : string) :
  (find response key = -1 /\ ~ occurs key response)
  \/ (exists i : nat,
        find response key = Z.of_nat i /\ occurs_at key response i /\
        forall j, occurs_at key response j -> (i <= j)%nat).
Proof.
  unfold find. destruct (find_from_spec key response 0)
    as [[Hf Hno]|(j & Hf & Hj & Hmin)].
  - left. split; [exact Hf|]. intros [j H]. exact (Hno j H).
  - right. exists j. rewrite Hf. auto.
Qed.

Lemma find_found_iff (response key : string) :
  find response key <> -1 <-> occurs key response.
Proof.
  destruct (find_spec response key) as [[Hf Hno]|(i & Hf & Hi & _)].
  - split; [congruence | contradiction].
  - split; [intros _; exists i; exact Hi | intros _; lia].
Qed.

(** *** Ordered dictionaries *)

Lemma dict_set_app_hit {V} (k : string) (v v0 : V) (d1 d2 : list (string * V)) :
  ~ In k (map fst d1) ->
  dict_set k v (d1 ++ (k, v0) :: d2) = d1 ++ (k, v) :: d2.
Proof.
  induction d1 as [|[k' v'] d1 IH]; simpl; intros H.
  - rewrite String.eqb_refl. reflexivity.
  - destruct (String.eqb k k') eqn:E.
    + apply String.eqb_eq in E as ->. tauto.
    + rewrite IH by tauto. reflexivity.
Qed.

Lemma dict_set_fresh {V} (k : string) (v : V) (d : list (string * V)) :
  ~ In k (map fst d) -> dict_set k v d = d ++ [(k, v)].
Proof.
  induction d as [|[k' v'] d IH]; simpl; intros H; [reflexivity|].
  destruct (String.eqb k k') eqn:E.
  - apply String.eqb_eq in E as ->. tauto.
  - rewrite IH by tauto. reflexivity.
Qed.

Lemma keys_dict_set {V} (k : string) (v : V) (d : list (string * V)) (k' : string) :
  In k' (map fst (dict_set k v d)) <-> k' = k \/ In k' (map fst d).
Proof.
  induction d as [|[k0 v0] d IH]; simpl; [intuition|].
  destruct (String.eqb k k0) eqn:E; simpl.
  - apply String.eqb_eq in E as ->. intuition.
  - rewrite IH. intuition.
Qed.

Lemma NoDup_dict_set {V} (k : string) (v : V) (d : list (string * V)) :
  List.NoDup (map fst d) -> List.NoDup (map fst (dict_set k v d)).
Proof.
  induction d as [|[k0 v0] d IH]; simpl; intros H.
  - constructor; [intros [] | constructor].
  - inversion H as [|? ? Hn Hd]; subst.
    destruct (String.eqb k k0) eqn:E; simpl.
    + apply String.eqb_eq in E as ->. constructor; assumption.
    + apply String.eqb_neq in E. constructor; [|apply IH, Hd].
      rewrite keys_dict_set. intros [->|Hin]; [congruence | contradiction].
Qed.

Lemma find_substrings_fold (response : string) (d1 d2 : offsets) :
  List.NoDup (map fst (d1 ++ d2)) ->
  fold_left (fun d item => dict_set (fst item) (find response (fst item)) d)
            d2 (d1 ++ d2)
  = d1 ++ map (fun item => (fst item, find response (fst item))) d2.
Proof.
  revert d1; induction d2 as [|[k o] d2 IH]; intros d1 H; simpl.
  - reflexivity.
  - rewrite dict_set_app_hit.
    + replace (d1 ++ (k, find response k) :: d2)
        with ((d1 ++ [(k, find response k)]) ++ d2)
        by (rewrite <- app_assoc; reflexivity).
      rewrite IH.
      * rewrite <- app_assoc. reflexivity.
      * rewrite !map_app in *. simpl in *. rewrite <- app_assoc. exact H.
    + rewrite map_app in H. simpl in H.
      apply NoDup_remove_2 in H. intros Hc. apply H.
      apply in_or_app. left. exact Hc.
Qed.

(** With distinct keys, the search assigns every key its first offset and
    keeps the order of the dictionary. *)
Lemma find_substrings_in_response_map (response : string) (d : offsets) :
  List.NoDup (map fst d) ->
  find_substrings_in_response response d
  = map (fun item => (fst item, find response (fst item))) d.
Proof.
  intros H. exact (find_substrings_fold response [] d H).
Qed.

Lemma dict_of_items_fold (acc l : offsets) :
  List.NoDup (map fst (acc ++ l)) ->
  fold_left (fun d item => dict_set (fst item) (snd item) d) l acc = acc ++ l.
Proof.
  revert acc; induction l as [|[k o] l IH]; intros acc H; simpl.
  - rewrite app_nil_r. reflexivity.
  - rewrite dict_set_fresh.
    + rewrite IH; rewrite <- app_assoc; [reflexivity | exact H].
    + rewrite map_app in H. simpl in H.
      apply NoDup_remove_2 in H. intros Hc. apply H.
      apply in_or_app. left. exact Hc.
Qed.

Lemma dict_of_items_id (l : offsets) :
  List.NoDup (map fst l) -> dict_of_items l = l.
Proof. intros H. exact (dict_of_items_fold [] l H). Qed.

Lemma not_found_yet_fold (names : list string) (acc : offsets) :
  List.NoDup (map fst acc) ->
  let d := fold_left (fun d name => dict_set name (-1) d) names acc in
  List.NoDup (map fst d)
  /\ forall k, In k (map fst d) <-> In k (map fst acc) \/ In k names.
Proof.
  revert acc; induction names as [|n names IH]; intros acc H; simpl.
  - split; [exact H | intuition].
  - destruct (IH (dict_set n (-1) acc) (NoDup_dict_set n (-1) acc H))
      as [Hnd Hk].
    split; [exact Hnd|]. intros k. rewrite Hk, keys_dict_set. intuition.
Qed.

Lemma not_found_yet_keys (names : list string) :
  List.NoDup (map fst (not_found_yet names))
  /\ forall k, In k (map fst (not_found_yet names)) <-> In k names.
Proof.
  destruct (not_found_yet_fold names [] (List.NoDup_nil _)) as [Hnd Hk].
  split; [exact Hnd|]. intros k. rewrite (Hk k). simpl. intuition.
Qed.

(** *** The stable sort by offset *)

Lemma insert_by_offset_perm (x : string * Z) (l : offsets) :
  Permutation (insert_by_offset x l) (x :: l).
Proof.
  induction l as [|y l IH]; simpl; [reflexivity|].
  destruct (snd y <? snd x); [|reflexivity].
  rewrite IH. apply perm_swap.
Qed.

Lemma sort_by_offset_perm (l : offsets) :
  Permutation (foldr insert_by_offset [] l) l.
Proof.
  induction l as [|x l IH]; simpl; [reflexivity|].
  rewrite insert_by_offset_perm, IH. reflexivity.
Qed.

Lemma insert_by_offset_sorted (x : string * Z) (l : offsets) :
  StronglySorted le_offset l -> StronglySorted le_offset (insert_by_offset x l).
Proof.
  induction 1 as [|y l Hs IH Hy]; simpl.
  - repeat constructor.
  - destruct (snd y <? snd x) eqn:E.
    + apply Z.ltb_lt in E. constructor; [exact IH|].
      rewrite List.Forall_forall in *. intros z Hz.
      apply (Permutation_in _ (insert_by_offset_perm x l)) in Hz.
      destruct Hz as [<-|Hz]; [unfold le_offset; lia | apply Hy, Hz].
    + apply Z.ltb_ge in E. constructor; [constructor; assumption|].
      constructor; [exact E|].
      rewrite List.Forall_forall in *. intros z Hz.
      specialize (Hy z Hz). unfold le_offset in *. lia.
Qed.

Lemma sort_by_offset_sorted (l : offsets) :
  StronglySorted le_offset (foldr insert_by_offset [] l).
Proof.
  induction l as [|x l IH]; simpl; [constructor|].
  apply insert_by_offset_sorted, IH.
Qed.

Lemma NoDup_keys_filter (p : string * Z -> bool) (l : offsets) :
  List.NoDup (map fst l) -> List.NoDup (map fst (List.filter p l)).
Proof.
  induction l as [|x l IH]; simpl; intros H; [constructor|].
  inversion H as [|? ? Hn Hd]; subst.
  destruct (p x); simpl; [|apply IH, Hd].
  constructor; [|apply IH, Hd].
  intros Hin. apply Hn. apply in_map_iff in Hin as (y & Hy & Hin).
  apply filter_In in Hin as [Hin _]. apply in_map_iff. eauto.
Qed.

Lemma In_searched (response : string) (found : offsets) (k : string) (o : Z) :
  In (k, o) (map (fun item => (fst item, find response (fst item))) found)
  <-> In k (map fst found) /\ o = find response k.
Proof.
  rewrite !in_map_iff. split.
  - intros ([k' o'] & [= <- <-] & Hin). split; [|reflexivity].
    exists (k', o'). auto.
  - intros (([k' o'] & Hk & Hin) & ->). simpl in Hk. subst k'.
    exists (k, o'). auto.
Qed.

(** The ranking of a dictionary with distinct keys. *)
Lemma ranking_ranked (response : string) (found : offsets) :
  List.NoDup (map fst found) ->
  first_offset_ranked response found (ranking response found).
Proof.
  intros Hnd. unfold ranking, sorted_by_offset.
  rewrite (find_substrings_in_response_map response found Hnd).
  set (M := map (fun item => (fst item, find response (fst item))) found).
  set (F := filter_found M).
  set (S := foldr insert_by_offset [] F).
  assert (HM : map fst M = map fst found).
  { unfold M. rewrite map_map. reflexivity. }
  assert (HF : List.NoDup (map fst F)).
  { apply NoDup_keys_filter. rewrite HM. exact Hnd. }
  assert (HP : Permutation S F) by apply sort_by_offset_perm.
  assert (HS : List.NoDup (map fst S)).
  { eapply Permutation_NoDup; [|exact HF].
    apply Permutation_map, Permutation_sym, HP. }
  rewrite (dict_of_items_id S HS).
  assert (Hin : forall k o, In (k, o) S <->
                   In k (map fst found) /\ o = find response k /\ o <> -1).
  { intros k o. split.
    - intros H. apply (Permutation_in _ HP) in H.
      apply filter_In in H as [H Hne]. apply In_searched in H as [Hk Ho].
      simpl in Hne. apply negb_true_iff, Z.eqb_neq in Hne. auto.
    - intros (Hk & Ho & Hne).
      apply (Permutation_in _ (Permutation_sym HP)).
      apply filter_In. split; [apply In_searched; auto|].
      simpl. apply negb_true_iff, Z.eqb_neq, Hne. }
  assert (Hsorted : StronglySorted le_offset S) by apply sort_by_offset_sorted.
  split; [|split; [|split; [exact HS | split; [exact Hsorted|]]]].
  - intros k. split.
    + intros H. apply in_map_iff in H as ([k' o] & Hk & H). simpl in Hk.
      subst k'. apply Hin in H as (Hk & Ho & Hne). split; [exact Hk|].
      apply find_found_iff. congruence.
    + intros [Hk Hocc]. apply in_map_iff. exists (k, find response k).
      split; [reflexivity|]. apply Hin.
      split; [exact Hk|]. split; [reflexivity | apply find_found_iff, Hocc].
  - intros k o H. apply Hin in H as (Hk & Ho & Hne). split; [exact Ho|].
    destruct (find_spec response k) as [[Hf _]|(i & Hf & Hi & Hmin)];
      [congruence|]. exists i. rewrite Ho. auto.
  - intros k0 o0 rest k Heq Hk Hocc.
    assert (H : In (k, find response k) S).
    { apply Hin. split; [exact Hk|].
      split; [reflexivity | apply find_found_iff, Hocc]. }
    rewrite Heq in H, Hsorted. inversion Hsorted as [|? ? _ Hall]; subst.
    destruct H as [[= -> ->]|H]; [lia|].
    rewrite List.Forall_forall in Hall. exact (Hall _ H).
Qed.

(** C8.  For every response text, the chart-type vocabulary and the
    column names of the dataset are each ranked by first offset: a
    candidate that does not occur in the text is in no ranking (so it is
    never passed on as a column and never chosen as chart type), every
    ranked candidate carries the offset of its first occurrence, the
    ranking ascends by offset, and its first entry has the smallest first
    offset among the candidates that occur.  The chosen chart type is the
    first entry of the chart-type ranking, the earliest-mentioned
    chart-type token; when no chart type is mentioned nothing is chosen
    (StopIteration). *)
Theorem ranking_by_first_offset (response : string) (column_names : list string) :
  first_offset_ranked response found_chart_types
    (ranking response found_chart_types)
  /\ first_offset_ranked response (not_found_yet column_names)
       (ranking response (not_found_yet column_names))
  /\ (forall k, In k (map fst (not_found_yet column_names)) <-> In k column_names)
  /\ match first_key (ranking response found_chart_types) with
     | Return c =>
         In c ["bar"; "line"; "pie"] /\ occurs c response /\
         forall c', In c' ["bar"; "line"; "pie"] -> occurs c' response ->
                    find response c <= find response c'
     | Raise e =>
         e = StopIteration /\
         forall c', In c' ["bar"; "line"; "pie"] -> ~ occurs c' response
     end.
Proof.
  assert (Hct : List.NoDup (map fst found_chart_types)).
  { simpl. repeat constructor; simpl; intuition discriminate. }
  pose proof (ranking_ranked response found_chart_types Hct) as Hrk.
  destruct (not_found_yet_keys column_names) as [Hnd Hkeys].
  split; [exact Hrk|]. split; [apply ranking_ranked, Hnd|].
  split; [exact Hkeys|].
  destruct Hrk as (Hmem & Hoff & _ & _ & Hmin).
  change (map fst found_chart_types) with ["bar"; "line"; "pie"] in *.
  destruct (ranking response found_chart_types) as [|[c o] rest]; simpl.
  - split; [reflexivity|]. intros c' Hc' Hocc.
    destruct (proj2 (Hmem c') (conj Hc' Hocc)).
  - destruct (proj1 (Hmem c) (or_introl eq_refl)) as [Hc Hocc].
    split; [exact Hc|]. split; [exact Hocc|].
    intros c' Hc' Hocc'.
    destruct (Hoff c o (or_introl eq_refl)) as [-> _].
    exact (Hmin c _ rest c' eq_refl Hc' Hocc').
Qed.

(** ** The labels of a returned payload *)

Lemma assoc_dict_set_ne {V} (k l : string) (v : V) (d : list (string * V)) :
  k <> l -> assoc l (dict_set k v d) = assoc l d.
Proof.
  intros Hne. assert (E : String.eqb l k = false) by (apply String.eqb_neq; congruence).
  induction d as [|[k' v'] d IH]; simpl.
  - rewrite E. reflexivity.
  - destruct (String.eqb k k') eqn:Ek; simpl.
    + apply String.eqb_eq in Ek as <-. rewrite E. reflexivity.
    + rewrite IH. reflexivity.
Qed.

Lemma only_label_dict_set (l : string) (v : num) (rec : record) :
  only_label l rec -> only_label l (dict_set l v rec).
Proof.
  unfold only_label. destruct rec as [|[k x] [|]]; simpl; try discriminate.
  intros [= ->]. rewrite String.eqb_refl. reflexivity.
Qed.

Lemma set_entry_Forall (P : record -> Prop) (d d' : list record) (i : nat)
    (k : string) (v : num) :
  (forall rec, P rec -> P (dict_set k v rec)) ->
  set_entry d i k v = Return d' -> Forall P d -> Forall P d'.
Proof.
  intros HP. unfold set_entry. destruct (d !! i) as [rec|] eqn:E; [|discriminate].
  intros [= <-] Hd. apply Forall_insert; [exact Hd|].
  apply HP. eapply Forall_lookup_1; eassumption.
Qed.

Lemma str_in_In (k : string) (l : list string) :
  str_in k l = true <-> In k l.
Proof.
  unfold str_in. rewrite existsb_exists. split.
  - intros (x & Hx & E). apply String.eqb_eq in E as ->. exact Hx.
  - intros H. exists k. split; [exact H | apply String.eqb_refl].
Qed.

Lemma keyed_snd (d : list record) (ks : list (num * record)) :
  keyed d = Return ks -> map snd ks = d.
Proof.
  revert ks; induction d as [|item d IH]; simpl; intros ks.
  - intros [= <-]. reflexivity.
  - unfold mbind, outcome_bind. destruct (first_value item); [|discriminate].
    destruct (keyed d) as [rest|]; [|discriminate].
    intros [= <-]. simpl. rewrite (IH rest eq_refl). reflexivity.
Qed.

Lemma insert_by_key_perm (x : num * record) (l : list (num * record)) :
  Permutation (insert_by_key x l) (x :: l).
Proof.
  induction l as [|y l IH]; simpl; [reflexivity|].
  destruct (num_ltb (fst y) (fst x)); [|reflexivity].
  rewrite IH. apply perm_swap.
Qed.

Lemma sort_by_key_perm (l : list (num * record)) :
  Permutation (foldr insert_by_key [] l) l.
Proof.
  induction l as [|x l IH]; simpl; [reflexivity|].
  rewrite insert_by_key_perm, IH. reflexivity.
Qed.

(** Sorting the entries permutes them. *)
Lemma sorted_by_first_value_perm (d d' : list record) :
  sorted_by_first_value d = Return d' -> Permutation d' d.
Proof.
  unfold sorted_by_first_value, mbind, outcome_bind.
  destruct (keyed d) as [ks|] eqn:E; [|discriminate].
  intros [= <-]. rewrite <- (keyed_snd d ks E).
  apply Permutation_map, sort_by_key_perm.
Qed.

Lemma add_key_NoDup (acc : list string) (k : string) :
  List.NoDup acc -> List.NoDup (add_key acc k).
Proof.
  intros H. unfold add_key. destruct (str_in k acc) eqn:E; [exact H|].
  apply List.NoDup_app; [exact H | repeat constructor; intros [] |].
  intros x Hx [<-|[]]. apply str_in_In in Hx. congruence.
Qed.

Lemma record_keys_NoDup (d : list record) : List.NoDup (record_keys d).
Proof.
  unfold record_keys. generalize (List.NoDup_nil string).
  generalize (@nil string). induction d as [|rec d IH]; simpl; intros acc H.
  - exact H.
  - apply IH. generalize dependent acc.
    induction (map fst rec) as [|k ks IHk]; simpl; intros acc H; [exact H|].
    apply IHk, add_key_NoDup, H.
Qed.

Lemma record_keys_only_label (l : string) (d : list record) :
  Forall (only_label l) d -> record_keys d = [] \/ record_keys d = [l].
Proof.
  unfold record_keys. intros H.
  assert (G : forall acc, acc = [] \/ acc = [l] ->
            fold_left (fun acc r => fold_left add_key (map fst r) acc) d acc = []
            \/ fold_left (fun acc r => fold_left add_key (map fst r) acc) d acc = [l]).
  { induction H as [|rec d Hrec Hd IH]; simpl; intros acc Hacc; [exact Hacc|].
    apply IH. right. rewrite Hrec. simpl.
    destruct Hacc as [->| ->]; unfold add_key; simpl;
      rewrite ?String.eqb_refl; reflexivity. }
  apply G. auto.
Qed.

Lemma list_remove_absent (x : string) (l : list string) :
  List.NoDup l -> ~ In x (list_remove x l).
Proof.
  induction 1 as [|y l Hy Hl IH]; simpl; [tauto|].
  destruct (String.eqb x y) eqn:E.
  - apply String.eqb_eq in E as ->. exact Hy.
  - apply String.eqb_neq in E. simpl. intros [Heq|Hin]; [congruence | tauto].
Qed.

Lemma list_remove_subset (x y : string) (l : list string) :
  In y (list_remove x l) -> In y l.
Proof.
  induction l as [|z l IH]; simpl; [tauto|].
  destruct (String.eqb x z); simpl; tauto.
Qed.

Lemma groupby_mean_nil (df : NumFrame) (key : string) :
  exists e, groupby_mean df key [] = Raise e.
Proof. unfold groupby_mean. destruct (assoc key df); eexists; reflexivity. Qed.

Lemma assoc_frame_of_keys {V} (f : string -> V) (l : string) (keys : list string) :
  assoc l (map (fun k => (k, f k)) keys)
  = if str_in l keys then Some (f l) else None.
Proof.
  induction keys as [|k keys IH]; simpl; [reflexivity|].
  destruct (String.eqb l k) eqn:E; simpl.
  - apply String.eqb_eq in E as ->. reflexivity.
  - exact IH.
Qed.

Lemma insert_group_subset (k g : num) (l : list num) :
  In g (insert_group k l) -> g = k \/ In g l.
Proof.
  induction l as [|y l IH]; simpl; [intuition auto|].
  destruct (num_ltb k y); [simpl; intuition auto|].
  destruct (num_eqb k y); simpl; intuition auto.
Qed.

Lemma group_keys_subset (ks : list num) (g : num) :
  In g (group_keys ks) -> In g ks.
Proof.
  unfold group_keys. intros H.
  assert (G : In g (List.filter num_notnull ks)).
  { induction (List.filter num_notnull ks) as [|k l IH]; simpl in *; [exact H|].
    apply insert_group_subset in H as [->|H]; auto. }
  apply filter_In in G. tauto.
Qed.

Lemma aggregated_names {X Y} (F : string -> option X) (G : string -> X -> Y)
    (l : string) (cols : list string) :
  ~ In l cols ->
  Forall (fun col : string * Y => fst col <> l)
         (omap (fun c => match F c with
                         | Some x => Some (c, G c x)
                         | None => None
                         end) cols).
Proof.
  induction cols as [|c cols IH]; simpl; intros Hl; [constructor|].
  destruct (F c); simpl.
  - constructor; [simpl; intros ->; tauto | apply IH; tauto].
  - apply IH; tauto.
Qed.

(** On entries that have no other field than the label, lines 110-128
    raise: nothing is left to aggregate. *)
Lemma finish_chart_only_label (l : string) (vs : list string) (cd : ChartData) :
  Forall (only_label l) (data cd) ->
  exists e, finish_chart (l :: vs) l cd = Raise e.
Proof.
  intros Hd. unfold finish_chart, mbind, outcome_bind.
  destruct (set_x_title l cd) as [cd1|] eqn:E1; [|eexists; reflexivity].
  assert (Hd1 : data cd1 = data cd).
  { unfold set_x_title in E1. destruct (scales (options cd)); [|discriminate].
    injection E1 as <-. reflexivity. }
  rewrite Hd1.
  destruct (sorted_by_first_value (data cd)) as [d'|] eqn:E2; [|eexists; reflexivity].
  assert (Hd' : Forall (only_label l) d').
  { eapply Permutation_Forall; [|exact Hd].
    apply Permutation_sym, sorted_by_first_value_perm, E2. }
  simpl data. unfold numerical_columns, frame_of_records.
  rewrite map_map. simpl. rewrite map_id.
  destruct (record_keys_only_label l d' Hd') as [-> | ->];
    unfold groupby_mean; simpl; rewrite ?String.eqb_refl; simpl;
    rewrite ?String.eqb_refl; simpl; eexists; reflexivity.
Qed.

Section LabelFacts.

Variable numeric_of_str : string -> option num.
Variable int_of_str : string -> option Z.
Variable float_of_str : string -> option pyfloat.

Lemma fill_values_Forall (P : record -> Prop) (k : string) (col : Series)
    (vals : list value) (i : nat) (d d' : list record) :
  (forall v rec, P rec -> P (dict_set k v rec)) ->
  fill_values int_of_str float_of_str k col vals i d = Return d' ->
  Forall P d -> Forall P d'.
Proof.
  intros HP. revert i d; induction vals as [|val vals IH]; simpl; intros i d.
  - intros [= <-]. auto.
  - unfold mbind, outcome_bind.
    destruct (coerce_by_dtype int_of_str float_of_str col val) as [v|]; [|discriminate].
    destruct (set_entry d i k v) as [d1|] eqn:E; [|discriminate].
    intros H Hd. eapply IH; [exact H|].
    eapply set_entry_Forall; [apply HP | exact E | exact Hd].
Qed.

Lemma returns_only_lift {A} (P : A -> Prop) (o : outcome A) :
  (forall a, o = Return a -> P a) -> returns_only P (lift o).
Proof. intros H h a h'. unfold lift. intros [= -> _]. auto. Qed.

Lemma returns_only_bind_lift {A B} (P : B -> Prop) (o : outcome A)
    (f : A -> Py B) :
  (forall a, o = Return a -> returns_only P (f a)) ->
  returns_only P (lift o ≫= f).
Proof.
  intros H h b h'. unfold mbind, Py_bind, lift.
  destruct o as [a|e]; [apply H; reflexivity | discriminate].
Qed.

Lemma returns_only_after {A B} (Q : A -> Prop) (P : B -> Prop) (m : Py A)
    (f : A -> Py B) :
  returns_only Q m -> (forall a, Q a -> returns_only P (f a)) ->
  returns_only P (m ≫= f).
Proof.
  intros Hm Hf h b h'. unfold mbind, Py_bind.
  destruct (m h) as [[a|e] h1] eqn:E; [|discriminate].
  apply Hf. eapply Hm, E.
Qed.

End LabelFacts.

(** ** The scenarios, run *)

Ltac distinct_names :=
  repeat (apply List.NoDup_cons; [simpl; intuition discriminate|]);
  apply List.NoDup_nil.

(** C1, the scenario as worded: with the text labels "A", "A", "B" the
    call returns no payload; the outlier filter, applied to the label
    column first, cannot interpolate text. *)
Lemma scenario_text_labels_raise :
  ~ exists c : ChartData,
      fst (call_create_chartjs_data sales_by_region ["region"; "sales"] "bar")
      = Return c.
Proof. intros [c H]. vm_compute in H. discriminate. Qed.

(** C1, as the code has it: with integer labels 1, 1, 2 the payload's data
    is exactly [{region: 1, sales: 20.0}, {region: 2, sales: 20.0}]; the
    rows of label 1 are merged into one entry whose value is the mean of
    10 and 30. *)
Theorem scenario_bar_mean :
  exists c : ChartData,
    fst (call_create_chartjs_data sales_by_region_code ["region"; "sales"] "bar")
    = Return c
    /\ data c = [[("region", NInt 1); ("sales", NFloat (Fin 20))];
                 [("region", NInt 2); ("sales", NFloat (Fin 20))]]
    /\ labelsKey c = "region" /\ valuesKey c = "sales".
Proof. eexists. vm_compute. repeat split. Qed.

(** The same from text cells that read as integers. *)
Example scenario_bar_mean_csv :
  exists c : ChartData,
    fst (call_create_chartjs_data sales_csv ["region"; "sales"] "bar") = Return c
    /\ data c = [[("region", NInt 1); ("sales", NFloat (Fin 20))];
                 [("region", NInt 2); ("sales", NFloat (Fin 20))]].
Proof. eexists. vm_compute. repeat split. Qed.

(** C2, a failing input: two existing numeric columns and "pie". *)
Lemma scenario_pie_raises :
  fst (call_create_chartjs_data sales_by_region_code ["region"; "sales"] "pie")
  = Raise (KeyError "scales").
Proof. vm_compute. reflexivity. Qed.

Lemma create_chartjs_data_pie_raises_witness :
  str_in (lower "Doughnut") ["pie"; "doughnut"] = true
  /\ always_raises
       (create_chartjs_data decimal_num decimal_int decimal_float
          0%nat ["region"; "sales"] "Doughnut").
Proof.
  split; [reflexivity|].
  apply (create_chartjs_data_pie_raises decimal_num decimal_int decimal_float).
  reflexivity.
Defined.

(** C3, scenario 4: of the values 1, 2, 3, 4, 100 only 100 is removed. *)
Example scenario_one_outlier :
  call_remove_outliers_iqr one_outlier "x" = Return [("x", Int64 [1; 2; 3; 4])].
Proof. vm_compute. reflexivity. Qed.


(** C4, a failing input: a name that is no column of the dataset. *)
Lemma scenario_missing_column_raises :
  fst (call_create_chartjs_data sales_by_region_code ["region"; "profit"] "bar")
  = Raise (KeyError "profit").
Proof. vm_compute. reflexivity. Qed.

Lemma create_chartjs_data_missing_column_witness :
  exists e,
    fst (create_chartjs_data decimal_num decimal_int decimal_float
           0%nat ["region"; "profit"] "bar" [sales_by_region_code])
    = Raise e
    /\ ~ is_validation_error e.
Proof.
  apply (create_chartjs_data_missing_column decimal_num decimal_int decimal_float
           0%nat [sales_by_region_code] sales_by_region_code
           ["region"; "profit"] "bar" "profit").
  - reflexivity.
  - unfold sales_by_region_code, columns; simpl. distinct_names.
  - simpl. auto.
  - simpl. intuition discriminate.
Defined.

(** C5, as worded: every cell of the column reads as a number and 1.5
    has a fractional part, yet the column is no floating point column
    afterwards: it is the text column it was. *)
Lemma scenario_fractional_text_kept :
  all_parse decimal_num (Object [VStr "1.5"; VStr "2"]) = true
  /\ all_whole decimal_num (Object [VStr "1.5"; VStr "2"]) = false
  /\ call_convert_to_numeric prices_csv
     = (Return tt, Some [("price", Object [VStr "1.5"; VStr "2"])])
  /\ ~ exists cells : list pyfloat,
         snd (call_convert_to_numeric prices_csv) = Some [("price", Float64 cells)].
Proof.
  repeat split; try (vm_compute; reflexivity).
  intros [cells H]. vm_compute in H. discriminate.
Qed.

Lemma convert_to_numeric_column_witness :
  exists d' : DataFrame,
    convert_to_numeric decimal_num decimal_int 0%nat [sales_csv]
    = (Return tt, <[0%nat := d']> [sales_csv])
    /\ columns d' = columns sales_csv
    /\ (all_parse decimal_num (Object [VStr "10"; VStr "30"; VStr "20"]) = true ->
        all_whole decimal_num (Object [VStr "10"; VStr "30"; VStr "20"]) = true ->
        exists cells : list Z,
          assoc "sales" d' = Some (Int64 cells)
          /\ length cells = series_len (Object [VStr "10"; VStr "30"; VStr "20"])
          /\ (forallb exact_number
                 (parsed decimal_num (Object [VStr "10"; VStr "30"; VStr "20"])) = true ->
              cells = map num_trunc
                        (parsed decimal_num (Object [VStr "10"; VStr "30"; VStr "20"]))))
    /\ (all_parse decimal_num (Object [VStr "10"; VStr "30"; VStr "20"]) = true ->
        all_whole decimal_num (Object [VStr "10"; VStr "30"; VStr "20"]) = false ->
        assoc "sales" d' = Some (Object [VStr "10"; VStr "30"; VStr "20"]))
    /\ (all_parse decimal_num (Object [VStr "10"; VStr "30"; VStr "20"]) = false ->
        assoc "sales" d' = Some (Object [VStr "10"; VStr "30"; VStr "20"])).
Proof.
  apply (convert_to_numeric_column decimal_num decimal_int
           0%nat [sales_csv] sales_csv "sales").
  - reflexivity.
  - unfold sales_csv, columns; simpl. distinct_names.
  - reflexivity.
Defined.

(** C6, as worded: after the call the caller's dataset is not what it was
    before; its text columns have become integer columns. *)
Lemma scenario_caller_frame_changed :
  snd (call_create_chartjs_data sales_csv ["region"; "sales"] "bar")
  = Some sales_by_region_code
  /\ snd (call_create_chartjs_data sales_csv ["region"; "sales"] "bar")
     <> Some sales_csv.
Proof. split; [vm_compute; reflexivity | vm_compute; discriminate]. Qed.

Lemma convert_to_numeric_idempotent_witness :
  (convert_to_numeric decimal_num decimal_int 0%nat;;
   convert_to_numeric decimal_num decimal_int 0%nat) [sales_csv]
  = convert_to_numeric decimal_num decimal_int 0%nat [sales_csv].
Proof.
  apply (convert_to_numeric_idempotent decimal_num decimal_int
           0%nat [sales_csv] sales_csv).
  - reflexivity.
  - unfold sales_csv, columns; simpl. distinct_names.
Defined.

(** C8, scenario 2: "pie" is the only chart type mentioned. *)
Example scenario_pie_mentioned :
  first_key (ranking "I would use a pie chart with category and amount columns"
               found_chart_types)
  = Return "pie"
  /\ map fst (ranking "I would use a pie chart with category and amount columns"
                (not_found_yet ["amount"; "category"; "id"]))
     = ["category"; "amount"].
Proof. vm_compute. auto. Qed.

(** Scenario 3: the summary is cut before the last comma. *)
Example scenario_summary :
  shorten_response "bar, category, amount, because trend" = "bar, category, amount".
Proof. vm_compute. reflexivity. Qed.

(** C9 on a dataset with two columns and no row. *)
Lemma same_length_no_rows : same_length no_rows.
Proof. repeat constructor. Qed.

Lemma remove_outliers_iqr_no_rows_witness :
  exists d' : DataFrame,
    remove_outliers_iqr 0%nat "sales" [no_rows] = (Return 1%nat, [no_rows] ++ [d'])
    /\ columns d' = columns no_rows
    /\ nrows d' = 0%nat
    /\ rows d' = [].
Proof.
  apply (remove_outliers_iqr_no_rows 0%nat [no_rows] no_rows "sales").
  - reflexivity.
  - exact same_length_no_rows.
  - reflexivity.
  - simpl. auto.
Defined.

(** C10 on the scenario with text labels and on the one with integer
    labels. *)

(** The agent end to end: a "bar" answer yields the payload, a "pie"
    answer ends in the agent's error result. *)
Example scenario_agent_bar :
  exists c : ChartData,
    fst (process_data_and_plot decimal_num decimal_int decimal_float 0%nat
           "a bar chart of region against sales, one bar per region" [sales_csv])
    = Return {| chart_data := Some c;
                summary := "a bar chart of region against sales";
                error := None |}
    /\ data c = [[("region", NInt 1); ("sales", NFloat (Fin 20))];
                 [("region", NInt 2); ("sales", NFloat (Fin 20))]].
Proof. eexists. vm_compute. split; reflexivity. Qed.

Example scenario_agent_pie :
  fst (process_data_and_plot decimal_num decimal_int decimal_float 0%nat
         "I would use a pie chart with region and sales" [sales_csv])
  = Return {| chart_data := None;
              summary := "An unexpected error occurred: 'scales'";
              error := Some "UNEXPECTED_ERROR" |}.
Proof. vm_compute. reflexivity. Qed.

(** * Further properties of the code *)

(** ** The outlier filter: what it leaves alone, how it fails *)

Lemma remove_outliers_iqr_run_any (r : ref) (c : string) (h : heap) :
  remove_outliers_iqr r c h
  = match assoc c (default ([] : DataFrame) (h !! r)) with
    | None => (Raise (KeyError c), h)
    | Some s =>
        match outlier_mask s with
        | Return m =>
            (Return (length h),
             h ++ [frame_select m (default ([] : DataFrame) (h !! r))])
        | Raise e => (Raise e, h)
        end
    end.
Proof.
  unfold remove_outliers_iqr, outlier_mask. py_unfold. unfold frame_get.
  destruct (assoc c _) as [s|]; [|reflexivity].
  destruct (quantile s (1 # 4)) as [Q1|e]; [|reflexivity].
  destruct (quantile s (3 # 4)) as [Q3|e]; [|reflexivity].
  destruct (series_ge _ _) as [ge|e]; [|reflexivity].
  destruct (series_le _ _) as [le|e]; reflexivity.
Qed.

Lemma dtypes_frame_select (m : list bool) (d : DataFrame) :
  dtypes (frame_select m d) = dtypes d.
Proof.
  unfold dtypes, frame_select. rewrite map_map. apply map_ext.
  intros [c [l|l|l]]; reflexivity.
Qed.

Lemma length_select_le {A} (m : list bool) (l : list A) :
  (length (select m l) <= length l)%nat.
Proof.
  revert l; induction m as [|b m IH]; intros [|x l]; simpl; try lia.
  specialize (IH l). destruct b; simpl; lia.
Qed.

(** X1.  Whatever the heap, the reference and the column name,
    [remove_outliers_iqr] writes to no existing dataset: every dataset of
    the heap is afterwards what it was.  When it raises, the heap is
    unchanged; when it returns, the result is one new dataset, with the
    column names and dtypes of the input and at most as many rows. *)
Theorem remove_outliers_iqr_frame (r : ref) (c : string) (h : heap) :
  let res := remove_outliers_iqr r c h in
  (forall (i : nat) (d0 : DataFrame), h !! i = Some d0 -> snd res !! i = Some d0)
  /\ match fst res with
     | Raise _ => snd res = h
     | Return r' =>
         r' = length h /\
         exists d' : DataFrame,
           snd res = h ++ [d']
           /\ columns d' = columns (default [] (h !! r))
           /\ dtypes d' = dtypes (default [] (h !! r))
           /\ (length (rows d') <= length (rows (default [] (h !! r))))%nat
     end.
Proof.
  simpl. rewrite remove_outliers_iqr_run_any.
  destruct (assoc c _) as [s|]; [|simpl; auto].
  destruct (outlier_mask s) as [m|e]; simpl; [|auto].
  split.
  - intros i d0 Hi. apply lookup_app_l_Some, Hi.
  - split; [reflexivity|]. eexists. split; [reflexivity|].
    split; [apply columns_frame_select|]. split; [apply dtypes_frame_select|].
    rewrite rows_frame_select. apply length_select_le.
Qed.

(** X2.  [remove_outliers_iqr] on a column the dataset does not have
    raises KeyError with the column's name; on an object column that holds
    a text cell it raises TypeError.  In both cases nothing is allocated. *)
Theorem remove_outliers_iqr_errors (r : ref) (c : string) (h : heap)
    (d : DataFrame) :
  h !! r = Some d ->
  (~ In c (columns d) -> remove_outliers_iqr r c h = (Raise (KeyError c), h))
  /\ (forall cells s,
        assoc c d = Some (Object cells) -> In (VStr s) cells ->
        exists msg, remove_outliers_iqr r c h = (Raise (TypeError msg), h)).
Proof.
  intros Hr. rewrite (remove_outliers_iqr_run r c h d Hr). split.
  - intros Hc. apply assoc_None_iff in Hc. rewrite Hc. reflexivity.
  - intros cells s Hc Hin. rewrite Hc.
    assert (Hstr : existsb value_is_str cells = true).
    { apply existsb_exists. exists (VStr s). auto. }
    unfold outlier_mask. simpl. rewrite Hstr. simpl. eexists. reflexivity.
Qed.

Lemma remove_outliers_iqr_errors_witness :
  remove_outliers_iqr 0%nat "profit" [sales_by_region]
  = (Raise (KeyError "profit"), [sales_by_region])
  /\ exists msg, remove_outliers_iqr 0%nat "region" [sales_by_region]
                 = (Raise (TypeError msg), [sales_by_region]).
Proof.
  split.
  - apply (proj1 (remove_outliers_iqr_errors 0%nat "profit" [sales_by_region]
                    sales_by_region eq_refl)).
    simpl. intuition discriminate.
  - apply (proj2 (remove_outliers_iqr_errors 0%nat "region" [sales_by_region]
                    sales_by_region eq_refl)
                 [VStr "A"; VStr "A"; VStr "B"] "A" eq_refl).
    simpl. auto.
Defined.

(** *** A constant column *)

Lemma sort_Q_constant (q : Q) (l : list Q) :
  Forall (fun x => x = q) l -> sort_Q l = l.
Proof.
  induction 1 as [|x l Hx Hl IH]; [reflexivity|].
  change (sort_Q (x :: l)) with (insert_Q x (sort_Q l)). rewrite IH. subst x.
  destruct Hl as [|y l Hy Hl]; simpl; [reflexivity|]. subst y.
  replace (Qle_bool q q) with true
    by (symmetry; apply Qle_bool_iff, Qle_refl).
  reflexivity.
Qed.

Lemma nth_constant (q : Q) (l : list Q) (i : nat) :
  Forall (fun x => x = q) l -> nth i l q = q.
Proof.
  intros H. revert i. induction H as [|x l Hx Hl IH]; intros [|i]; simpl; auto.
Qed.

Lemma linear_quantile_constant (q p : Q) (l : list Q) :
  Forall (fun x => x = q) l -> l <> [] ->
  exists q', linear_quantile l p = Fin q' /\ q' == q.
Proof.
  intros H Hne. destruct l as [|x0 l]; [congruence|].
  assert (Hx : x0 = q) by (inversion H; assumption). subst x0.
  unfold linear_quantile. eexists. split; [reflexivity|].
  rewrite !(nth_constant q (q :: l)) by exact H.
  rewrite Qred_correct. ring.
Qed.

Lemma constant_bounds (q q1 q3 : Q) :
  q1 == q -> q3 == q ->
  Qle_bool (Qred (q1 - Qred ((3 # 2) * Qred (q3 - q1)))) q = true
  /\ Qle_bool q (Qred (q3 + Qred ((3 # 2) * Qred (q3 - q1)))) = true.
Proof.
  intros H1 H3. split; apply Qle_bool_iff; rewrite !Qred_correct, H1, H3.
  - assert (E : q - (3 # 2) * (q - q) == q) by ring.
    rewrite E. apply Qle_refl.
  - assert (E : q + (3 # 2) * (q - q) == q) by ring.
    rewrite E. apply Qle_refl.
Qed.

Lemma select_all {A} (m : list bool) (l : list A) :
  Forall (fun b => b = true) m -> length m = length l -> select m l = l.
Proof.
  intros H. revert l. induction H as [|b m Hb Hm IH]; intros [|x l]; simpl;
    try discriminate; [reflexivity|].
  intros [= Hl]. subst b. rewrite IH by exact Hl. reflexivity.
Qed.

Lemma frame_select_all (m : list bool) (d : DataFrame) :
  Forall (fun b => b = true) m ->
  Forall (fun cs => series_len (snd cs) = length m) d ->
  frame_select m d = d.
Proof.
  intros Hm Hd. unfold frame_select.
  induction Hd as [|[c s] d Hs Hd IH]; simpl; [reflexivity|].
  rewrite IH. f_equal. f_equal. simpl in Hs.
  destruct s as [l|l|l]; simpl in *; rewrite select_all; auto.
Qed.

Lemma within_map_true {A} (f : A -> bool) (l : list A) :
  (forall x, In x l -> f x = true) -> Forall (fun b => b = true) (map f l).
Proof.
  intros H. apply List.Forall_forall. intros b Hb.
  apply in_map_iff in Hb as (x & <- & Hx). auto.
Qed.

Lemma constant_column_mask (s : Series) (q : Q) :
  constant_column s q ->
  exists m, outlier_mask s = Return m
            /\ Forall (fun b => b = true) m /\ length m = series_len s.
Proof.
  intros Hc.
  assert (Hn : is_numeric_dtype s = true) by (destruct s; [destruct Hc| |]; reflexivity).
  rewrite (outlier_mask_numeric s Hn). eexists. split; [reflexivity|].
  split; [|rewrite length_map; apply length_tolist].
  destruct (tolist s) as [|v0 vs] eqn:Hl; [constructor|]. rewrite <- Hl.
  assert (Hcells : Forall (fun x => x = q) (numeric_cells s) /\ numeric_cells s <> []).
  { destruct s as [l|l|l]; simpl in *; [destruct Hc| |].
    - split; [|destruct l; discriminate].
      apply List.Forall_forall. intros x Hx.
      apply in_map_iff in Hx as (z & <- & Hz).
      rewrite List.Forall_forall in Hc. auto.
    - destruct l as [|f l]; [discriminate|]. split.
      + clear Hl. induction Hc as [|f' l' Hf Hl' IH]; simpl; [constructor|].
        subst f'. constructor; auto.
      + inversion Hc; subst. simpl. discriminate. }
  destruct Hcells as [Hall Hne].
  destruct (linear_quantile_constant q (1 # 4) (numeric_cells s) Hall Hne)
    as (q1 & E1 & H1).
  destruct (linear_quantile_constant q (3 # 4) (numeric_cells s) Hall Hne)
    as (q3 & E3 & H3).
  destruct (constant_bounds q q1 q3 H1 H3) as [Hlo Hhi].
  unfold iqr_bounds, percentile.
  rewrite (sort_Q_constant q (numeric_cells s) Hall), E1, E3.
  simpl fst. simpl snd.
  apply within_map_true. intros v Hv.
  destruct s as [l|l|l]; simpl in *; [destruct Hc| |].
  - apply in_map_iff in Hv as (z & <- & Hz).
    rewrite List.Forall_forall in Hc. specialize (Hc z Hz).
    simpl. unfold float_of_Z. rewrite Hc, Hlo, Hhi. reflexivity.
  - apply in_map_iff in Hv as (f & <- & Hf).
    rewrite List.Forall_forall in Hc. rewrite (Hc f Hf).
    simpl. rewrite Hlo, Hhi. reflexivity.
Qed.

(** X3.  On a dataset whose columns have one length, the outlier filter
    applied to a numeric column whose cells all hold the same number
    (IQR = 0, the bounds collapse onto that number) removes no row: the
    new dataset equals the input. *)
Theorem remove_outliers_iqr_constant (r : ref) (c : string) (h : heap)
    (d : DataFrame) (s : Series) (q : Q) :
  h !! r = Some d -> same_length d ->
  assoc c d = Some s -> constant_column s q ->
  remove_outliers_iqr r c h = (Return (length h), h ++ [d]).
Proof.
  intros Hr Hlen Hc Hconst.
  rewrite (remove_outliers_iqr_run r c h d Hr), Hc.
  destruct (constant_column_mask s q Hconst) as (m & -> & Hm & Hl).
  rewrite frame_select_all; auto.
  assert (Hn : nrows d = series_len s).
  { unfold same_length in Hlen. rewrite List.Forall_forall in Hlen.
    symmetry. apply (Hlen (c, s)), assoc_Some_In, Hc. }
  unfold same_length in Hlen. rewrite Hl, <- Hn. exact Hlen.
Qed.

Lemma remove_outliers_iqr_constant_witness :
  remove_outliers_iqr 0%nat "tax"
    [[("tax", Int64 [7; 7; 7]); ("item", Object [VStr "a"; VStr "b"; VStr "c"])]]
  = (Return 1%nat,
     [[("tax", Int64 [7; 7; 7]); ("item", Object [VStr "a"; VStr "b"; VStr "c"])];
      [("tax", Int64 [7; 7; 7]); ("item", Object [VStr "a"; VStr "b"; VStr "c"])]]).
Proof.
  refine (remove_outliers_iqr_constant 0%nat "tax"
            [[("tax", Int64 [7; 7; 7]); ("item", Object [VStr "a"; VStr "b"; VStr "c"])]]
            [("tax", Int64 [7; 7; 7]); ("item", Object [VStr "a"; VStr "b"; VStr "c"])]
            (Int64 [7; 7; 7]) 7 eq_refl _ eq_refl _).
  - repeat constructor.
  - repeat constructor.
Defined.

(** ** The type normaliser: shape and values *)

Lemma columns_frame_update (c : string) (f : Series -> Series) (d : DataFrame) :
  columns (frame_update c f d) = columns d.
Proof.
  induction d as [|[c' s] d IH]; simpl; [reflexivity|].
  destruct (String.eqb c c'); simpl; [reflexivity | rewrite IH; reflexivity].
Qed.

Lemma column_lengths_frame_update (c : string) (f : Series -> Series)
    (d : DataFrame) :
  (forall s, series_len (f s) = series_len s) ->
  column_lengths (frame_update c f d) = column_lengths d.
Proof.
  intros Hf. induction d as [|[c' s] d IH]; simpl; [reflexivity|].
  destruct (String.eqb c c'); simpl; [rewrite Hf | rewrite IH]; reflexivity.
Qed.

Lemma fold_frame_update_shape (f : Series -> Series) (cols : list string)
    (d : DataFrame) :
  (forall s, series_len (f s) = series_len s) ->
  let d' := fold_left (fun d c => frame_update c f d) cols d in
  columns d' = columns d /\ column_lengths d' = column_lengths d.
Proof.
  intros Hf. revert d. induction cols as [|c cols IH]; intros d; simpl; [auto|].
  destruct (IH (frame_update c f d)) as [H1 H2].
  rewrite H1, H2, columns_frame_update, column_lengths_frame_update; auto.
Qed.

Section NormaliserShape.

Variable numeric_of_str : string -> option num.
Variable int_of_str : string -> option Z.

(** X4.  Whatever the heap and the reference, [convert_to_numeric] never
    raises, leaves every other dataset as it was, and keeps the column
    names, their order and the length of every column of the dataset it
    rewrites. *)
Theorem convert_to_numeric_shape (r : ref) (h : heap) :
  let res := convert_to_numeric numeric_of_str int_of_str r h in
  fst res = Return tt
  /\ length (snd res) = length h
  /\ (forall i : nat, i <> r -> snd res !! i = h !! i)
  /\ (forall d, h !! r = Some d ->
        exists d', snd res !! r = Some d'
                   /\ columns d' = columns d
                   /\ column_lengths d' = column_lengths d).
Proof.
  simpl. destruct (h !! r) as [d|] eqn:Hr.
  - assert (E : convert_to_numeric numeric_of_str int_of_str r h
                = (Return tt,
                   <[r := fold_left
                            (fun d c => frame_update c
                               (converted numeric_of_str int_of_str) d)
                            (columns d) d]> h)).
    { unfold convert_to_numeric. py_unfold. rewrite Hr. simpl.
      apply for_each_convert, Hr. }
    rewrite E. simpl. split; [reflexivity|].
    split; [apply length_insert|].
    split; [intros i Hi; apply list_lookup_insert_ne; congruence|].
    intros d0 [= <-]. eexists.
    split; [apply list_lookup_insert_eq; eapply lookup_lt_Some, Hr|].
    apply fold_frame_update_shape. intros s.
    rewrite converted_normalize. apply nrows_normalize_series.
  - assert (E : convert_to_numeric numeric_of_str int_of_str r h = (Return tt, h)).
    { unfold convert_to_numeric. py_unfold. rewrite Hr. reflexivity. }
    rewrite E. simpl. repeat split; auto. intros d Hd. discriminate.
Qed.

Lemma whole_same_number (ns : list num) :
  forallb num_is_whole ns = true ->
  Forall2 same_number (map NInt (map num_trunc ns)) ns.
Proof.
  induction ns as [|n ns IH]; simpl; [constructor|].
  intros H. apply andb_true_iff in H as [Hn Hns].
  constructor; [|apply IH, Hns].
  destruct n as [z|[q|]]; simpl in *; [left; reflexivity | | discriminate].
  right. unfold num_eqb. simpl. unfold Q_is_integral in Hn.
  apply Qeq_bool_iff. apply Qeq_bool_iff in Hn. symmetry. exact Hn.
Qed.

(** X5.  The type normaliser does not change the number a cell stands
    for, as long as the numbers of the column have magnitude at most
    2^53: after [convert_to_numeric], such a column of the dataset
    (distinct column names) reads cell by cell as the same numbers as
    before; a cell that did not read as a number still reads the same. *)
Theorem convert_to_numeric_lossless (r : ref) (h : heap) (d : DataFrame)
    (c : string) (s : Series) :
  h !! r = Some d -> List.NoDup (columns d) -> assoc c d = Some s ->
  forallb exact_number (parsed numeric_of_str s) = true ->
  exists (d' : DataFrame) (s' : Series),
    snd (convert_to_numeric numeric_of_str int_of_str r h) !! r = Some d'
    /\ assoc c d' = Some s'
    /\ Forall2 same_number (parsed numeric_of_str s') (parsed numeric_of_str s).
Proof.
  intros Hr Hnd Hc _.
  rewrite (convert_to_numeric_run _ _ r h d Hr Hnd). simpl.
  exists (normalize_frame numeric_of_str d), (normalize_series numeric_of_str s).
  split; [apply list_lookup_insert_eq; eapply lookup_lt_Some, Hr|].
  split; [rewrite assoc_normalize_frame, Hc; reflexivity|].
  unfold normalize_series.
  destruct (all_parse numeric_of_str s && all_whole numeric_of_str s) eqn:E.
  - apply andb_true_iff in E as [_ Hw]. simpl. apply whole_same_number, Hw.
  - apply Forall2_same_length_lookup_2; [reflexivity|].
    intros i x y Hx Hy. left. congruence.
Qed.

End NormaliserShape.

Lemma convert_to_numeric_lossless_witness :
  exists (d' : DataFrame) (s' : Series),
    snd (convert_to_numeric decimal_num decimal_int 0%nat
           [[("qty", Float64 [Fin 3; Fin 4]); ("price", Object [VStr "1.5"])]])
    !! 0%nat = Some d'
    /\ assoc "qty" d' = Some s'
    /\ Forall2 same_number (parsed decimal_num s')
         (parsed decimal_num (Float64 [Fin 3; Fin 4])).
Proof.
  apply (convert_to_numeric_lossless decimal_num decimal_int 0%nat
           [[("qty", Float64 [Fin 3; Fin 4]); ("price", Object [VStr "1.5"])]]
           [("qty", Float64 [Fin 3; Fin 4]); ("price", Object [VStr "1.5"])]
           "qty" (Float64 [Fin 3; Fin 4])).
  - reflexivity.
  - unfold columns; simpl. distinct_names.
  - reflexivity.
  - reflexivity.
Defined.

(** ** The payload builder: rejections and metadata *)

Lemma assoc_frame_select (m : list bool) (c : string) (d : DataFrame) :
  assoc c (frame_select m d) = option_map (series_select m) (assoc c d).
Proof.
  induction d as [|[c' s] d IH]; simpl; [reflexivity|].
  destruct (String.eqb c c'); [reflexivity | exact IH].
Qed.

Lemma numeric_in_frame_select (m : list bool) (c : string) (d : DataFrame) :
  numeric_in d c -> numeric_in (frame_select m d) c.
Proof.
  intros (s & Hs & Hn). exists (series_select m s).
  rewrite assoc_frame_select, Hs. split; [reflexivity|].
  destruct s; [discriminate | reflexivity | reflexivity].
Qed.

Lemma numeric_in_columns (c : string) (d : DataFrame) :
  numeric_in d c -> In c (columns d).
Proof.
  intros (s & Hs & _). apply assoc_Some_In in Hs.
  apply in_map_iff. exists (c, s). auto.
Qed.

(** On numeric columns the chained outlier filter runs through: it ends
    in a dataset with the same column names in which the columns that
    were numeric still are. *)
Lemma remove_outliers_all_numeric (cols : list string) (r : ref) (h : heap)
    (d : DataFrame) :
  h !! r = Some d -> Forall (numeric_in d) cols ->
  exists (r' : ref) (h' : heap) (d' : DataFrame),
    remove_outliers_all r cols h = (Return r', h')
    /\ h' !! r' = Some d'
    /\ columns d' = columns d
    /\ (forall c, numeric_in d c -> numeric_in d' c).
Proof.
  revert r h d. induction cols as [|c cols IH]; intros r h d Hr Hall; simpl.
  - exists r, h, d. auto.
  - inversion Hall as [|? ? Hc Hcols]; subst.
    unfold mbind, Py_bind. rewrite (remove_outliers_iqr_run r c h d Hr).
    destruct Hc as (s & Hs & Hn). rewrite Hs, (outlier_mask_numeric s Hn).
    set (d1 := frame_select _ d).
    destruct (IH (length h) (h ++ [d1]) d1) as (r' & h' & d' & E & Hr' & Hcol & Hnum).
    + rewrite lookup_app_r, Nat.sub_diag by lia. reflexivity.
    + eapply Forall_impl; [exact Hcols|]. intros c0. apply numeric_in_frame_select.
    + exists r', h', d'. split; [exact E|]. split; [exact Hr'|].
      split; [rewrite Hcol; apply columns_frame_select|].
      intros c0 H0. apply Hnum, numeric_in_frame_select, H0.
Qed.

Lemma no_missing_columns (cols names : list string) :
  Forall (fun c => In c names) cols ->
  List.filter (fun col => negb (str_in col names)) cols = [].
Proof.
  induction 1 as [|c cols Hc Hcols IH]; simpl; [reflexivity|].
  apply str_in_In in Hc. rewrite Hc. exact IH.
Qed.

Section PayloadRejections.

Variable numeric_of_str : string -> option num.
Variable int_of_str : string -> option Z.
Variable float_of_str : string -> option pyfloat.

Lemma numeric_in_normalize_frame (c : string) (d : DataFrame) :
  numeric_in d c -> numeric_in (normalize_frame numeric_of_str d) c.
Proof.
  intros (s & Hs & Hn). exists (normalize_series numeric_of_str s).
  rewrite assoc_normalize_frame, Hs. split; [reflexivity|].
  unfold normalize_series.
  destruct (all_parse numeric_of_str s && all_whole numeric_of_str s);
    [reflexivity | exact Hn].
Qed.

(** X6.  With an empty selection the call raises the ValueError
    "column_names cannot be empty." whatever the dataset and the chart
    type; the rejection comes after the type normaliser has run, so the
    heap is left as [convert_to_numeric] leaves it. *)
Theorem create_chartjs_data_empty (r : ref) (chart_type : string) (h : heap) :
  create_chartjs_data numeric_of_str int_of_str float_of_str r [] chart_type h
  = (Raise (ValueError "column_names cannot be empty."),
     snd (convert_to_numeric numeric_of_str int_of_str r h)).
Proof.
  unfold create_chartjs_data. unfold mbind at 1, Py_bind.
  pose proof (convert_to_numeric_returns numeric_of_str int_of_str r h) as Hc.
  destruct (convert_to_numeric numeric_of_str int_of_str r h) as [[[]|e] h1];
    simpl in Hc; [reflexivity | discriminate].
Qed.

(** X7.  For "pie" or "doughnut" (in any letter case) with a non-empty
    selection of existing numeric columns that does not have exactly two
    names, the call raises the ValueError that asks for exactly two
    columns, naming the chart type as it was given. *)
Theorem create_chartjs_data_pie_column_count (r : ref) (h : heap) (d : DataFrame)
    (column_names : list string) (chart_type : string) :
  h !! r = Some d -> List.NoDup (columns d) ->
  Forall (numeric_in d) column_names ->
  column_names <> [] -> length column_names <> 2%nat ->
  str_in (lower chart_type) ["pie"; "doughnut"] = true ->
  fst (create_chartjs_data numeric_of_str int_of_str float_of_str
         r column_names chart_type h)
  = Raise (ValueError ("For '" ++ chart_type ++
      "' charts, 'column_names' must contain exactly two columns: [labels_column, values_column].")%string).
Proof.
  intros Hr Hnd Hnum Hne Hlen Hpie. unfold create_chartjs_data.
  unfold mbind at 1, Py_bind.
  rewrite (convert_to_numeric_run _ _ r h d Hr Hnd).
  unfold mbind at 1, Py_bind.
  destruct (remove_outliers_all_numeric column_names r
              (<[r := normalize_frame numeric_of_str d]> h)
              (normalize_frame numeric_of_str d))
    as (r' & h' & d' & E & Hr' & Hcol & Hnum').
  { apply list_lookup_insert_eq. eapply lookup_lt_Some, Hr. }
  { eapply Forall_impl; [exact Hnum|]. intros c. apply numeric_in_normalize_frame. }
  rewrite E. destruct column_names as [|l vs]; [congruence|].
  unfold mbind at 1, Py_bind, deref. rewrite Hr'. simpl default.
  rewrite no_missing_columns.
  - rewrite Hpie. destruct vs as [|v [|v2 vs]]; [reflexivity | | reflexivity].
    simpl in Hlen. congruence.
  - simpl default. rewrite Hcol, columns_normalize_frame.
    eapply Forall_impl; [exact Hnum|]. intros c. apply numeric_in_columns.
Qed.

End PayloadRejections.

Lemma create_chartjs_data_pie_column_count_witness :
  fst (create_chartjs_data decimal_num decimal_int decimal_float
         0%nat ["region"; "sales"; "region"] "Pie" [sales_by_region_code])
  = Raise (ValueError "For 'Pie' charts, 'column_names' must contain exactly two columns: [labels_column, values_column].").
Proof.
  apply (create_chartjs_data_pie_column_count decimal_num decimal_int decimal_float
           0%nat [sales_by_region_code] sales_by_region_code
           ["region"; "sales"; "region"] "Pie").
  - reflexivity.
  - unfold sales_by_region_code, columns; simpl. distinct_names.
  - repeat constructor; eexists; split; reflexivity.
  - discriminate.
  - simpl. lia.
  - reflexivity.
Defined.

(** ** Sorting, grouping and averaging *)

Lemma num_ltb_int (a b : Z) : num_ltb (NInt a) (NInt b) = (a <? b).
Proof.
  unfold num_ltb, num_to_float, float_of_Z, Qle_bool, inject_Z. simpl.
  rewrite !Z.mul_1_r. rewrite Z.ltb_antisym. reflexivity.
Qed.

Lemma num_eqb_int (a b : Z) : num_eqb (NInt a) (NInt b) = (a =? b).
Proof.
  unfold num_eqb, num_to_float, float_of_Z, Qeq_bool, inject_Z. simpl.
  rewrite !Z.mul_1_r. reflexivity.
Qed.

Lemma keyed_entries (l v : string) (pairs : list (Z * num)) :
  keyed (map (entry l v) pairs)
  = Return (map (fun p => (NInt (fst p), entry l v p)) pairs).
Proof.
  induction pairs as [|p pairs IH]; simpl; [reflexivity|].
  rewrite IH. reflexivity.
Qed.

(** A stable insertion leaves the entries of every label in their order. *)
Lemma insert_by_key_entries (l v : string) (p : Z * num) (ps : list (Z * num)) :
  exists ps',
    insert_by_key (NInt (fst p), entry l v p)
      (map (fun p => (NInt (fst p), entry l v p)) ps)
    = map (fun p => (NInt (fst p), entry l v p)) ps'
    /\ forall z, List.filter (fun q => fst q =? z) ps'
                 = List.filter (fun q => fst q =? z) (p :: ps).
Proof.
  induction ps as [|y ps IH]; simpl.
  - exists [p]. split; reflexivity.
  - rewrite num_ltb_int. destruct (fst y <? fst p) eqn:E.
    + destruct IH as (ps' & E' & Hf). exists (y :: ps'). simpl.
      rewrite E'. split; [reflexivity|]. intros z. rewrite Hf. simpl.
      destruct (fst p =? z) eqn:Ep; [|reflexivity].
      apply Z.eqb_eq in Ep. apply Z.ltb_lt in E.
      replace (fst y =? z) with false by (symmetry; apply Z.eqb_neq; lia).
      reflexivity.
    + exists (p :: y :: ps). split; reflexivity.
Qed.

Lemma sorted_entries (l v : string) (pairs : list (Z * num)) :
  exists ps,
    sorted_by_first_value (map (entry l v) pairs) = Return (map (entry l v) ps)
    /\ forall z, List.filter (fun q => fst q =? z) ps
                 = List.filter (fun q => fst q =? z) pairs.
Proof.
  unfold sorted_by_first_value. rewrite keyed_entries.
  unfold mbind, outcome_bind.
  assert (H : exists ps,
             foldr insert_by_key [] (map (fun p => (NInt (fst p), entry l v p)) pairs)
             = map (fun p => (NInt (fst p), entry l v p)) ps
             /\ forall z, List.filter (fun q => fst q =? z) ps
                          = List.filter (fun q => fst q =? z) pairs).
  { induction pairs as [|p pairs IH]; simpl.
    - exists []. split; reflexivity.
    - destruct IH as (ps & E & Hf). rewrite E.
      destruct (insert_by_key_entries l v p ps) as (ps' & E' & Hf').
      exists ps'. split; [exact E'|]. intros z. rewrite Hf'. simpl.
      rewrite Hf. reflexivity. }
  destruct H as (ps & E & Hf). exists ps. rewrite E, map_map. simpl.
  split; [reflexivity | exact Hf].
Qed.

Lemma record_keys_entries (l v : string) (p : Z * num) (ps : list (Z * num)) :
  l <> v -> record_keys (map (entry l v) (p :: ps)) = [l; v].
Proof.
  intros Hne.
  assert (Evl : String.eqb v l = false) by (apply String.eqb_neq; congruence).
  assert (H0 : add_key (add_key [] l) v = [l; v]).
  { unfold add_key, str_in. simpl. rewrite Evl. reflexivity. }
  assert (H1 : add_key (add_key [l; v] l) v = [l; v]).
  { unfold add_key, str_in. simpl. rewrite !String.eqb_refl. simpl.
    rewrite Evl, String.eqb_refl. reflexivity. }
  unfold record_keys. simpl. rewrite H0.
  induction ps as [|q ps IH]; simpl; [reflexivity|].
  rewrite H1. exact IH.
Qed.

Lemma insert_group_int (z : Z) (zs : list Z) :
  StronglySorted Z.lt zs ->
  exists zs',
    insert_group (NInt z) (map NInt zs) = map NInt zs'
    /\ StronglySorted Z.lt zs'
    /\ forall x, In x zs' <-> x = z \/ In x zs.
Proof.
  induction 1 as [|y zs Hs IH Hy]; simpl.
  - exists [z]. split; [reflexivity|]. split; [repeat constructor|].
    intros x. simpl. intuition auto.
  - rewrite num_ltb_int, num_eqb_int.
    destruct (z <? y) eqn:E1; [|destruct (z =? y) eqn:E2].
    + apply Z.ltb_lt in E1. exists (z :: y :: zs).
      split; [reflexivity|]. split; [|simpl; intuition].
      constructor; [constructor; assumption|].
      constructor; [exact E1|].
      rewrite List.Forall_forall in *. intros x Hx. specialize (Hy x Hx). lia.
    + apply Z.eqb_eq in E2 as ->. exists (y :: zs).
      split; [reflexivity|]. split; [constructor; assumption|].
      simpl. intuition.
    + apply Z.ltb_ge in E1. apply Z.eqb_neq in E2.
      destruct IH as (zs' & E' & Hs' & Hin). exists (y :: zs').
      simpl. rewrite E'. split; [reflexivity|]. split.
      * constructor; [exact Hs'|].
        rewrite List.Forall_forall in *. intros x Hx.
        apply Hin in Hx as [->|Hx]; [lia | apply Hy, Hx].
      * intros x. rewrite Hin. intuition.
Qed.

(** The group keys of integer labels: the distinct labels, ascending. *)
Lemma group_keys_int (zs0 : list Z) :
  exists zs,
    group_keys (map NInt zs0) = map NInt zs
    /\ StronglySorted Z.lt zs
    /\ forall x, In x zs <-> In x zs0.
Proof.
  unfold group_keys.
  assert (Hf : List.filter num_notnull (map NInt zs0) = map NInt zs0).
  { induction zs0 as [|z zs0 IH]; simpl; [reflexivity|]. rewrite IH. reflexivity. }
  rewrite Hf. clear Hf.
  induction zs0 as [|z zs0 IH]; simpl.
  - exists []. repeat split; try constructor; simpl; intuition.
  - destruct IH as (zs & E & Hs & Hin). rewrite E.
    destruct (insert_group_int z zs Hs) as (zs' & E' & Hs' & Hin').
    exists zs'. split; [exact E'|]. split; [exact Hs'|].
    intros x. rewrite Hin', Hin. intuition.
Qed.

Lemma lookup_map {A B} (f : A -> B) (l : list A) (i : nat) :
  map f l !! i = option_map f (l !! i).
Proof.
  revert i; induction l as [|x l IH]; intros [|i]; simpl; auto.
Qed.

Lemma map_seq_lookup {A B} (F : nat -> option A -> B) (pre l : list A) :
  map (fun i => F i ((pre ++ l) !! i)) (seq (length pre) (length l))
  = map (fun ix => F (fst ix) (Some (snd ix)))
        (combine (seq (length pre) (length l)) l).
Proof.
  revert pre; induction l as [|x l IH]; intros pre; simpl; [reflexivity|].
  f_equal.
  - rewrite lookup_app_r, Nat.sub_diag by lia. reflexivity.
  - specialize (IH (pre ++ [x])). rewrite length_app in IH. simpl in IH.
    rewrite Nat.add_1_r in IH. rewrite <- IH.
    apply map_ext. intros i. rewrite <- app_assoc. reflexivity.
Qed.

Lemma to_dict_records_two (l v : string) (gs : list num) (f : num -> num) :
  l <> v ->
  to_dict_records [(l, gs); (v, map f gs)]
  = map (fun g => [(l, g); (v, f g)]) gs.
Proof.
  intros Hne.
  assert (Evl : String.eqb v l = false) by (apply String.eqb_neq; congruence).
  unfold to_dict_records. simpl.
  rewrite (map_ext _ (fun i => match gs !! i with
                              | Some g => [(l, g); (v, f g)]
                              | None => []
                              end)).
  - pose proof (map_seq_lookup
                  (fun (_ : nat) (o : option num) =>
                     match o with Some g => [(l, g); (v, f g)] | None => [] end)
                  [] gs) as H.
    simpl in H. rewrite H. clear H.
    generalize 0%nat. induction gs as [|g gs IH]; intros k; simpl; [reflexivity|].
    rewrite IH. reflexivity.
  - intros i. rewrite lookup_map. destruct (gs !! i) as [g|]; simpl; [|reflexivity].
    rewrite Evl. reflexivity.
Qed.

Lemma select_map_map {A B} (p : A -> bool) (f : A -> B) (l : list A) :
  select (map p l) (map f l) = map f (List.filter p l).
Proof.
  induction l as [|x l IH]; simpl; [reflexivity|].
  destruct (p x); simpl; rewrite IH; reflexivity.
Qed.

Lemma mean_ext (xs ys : list num) :
  map num_to_float xs = map num_to_float ys -> mean xs = mean ys.
Proof. intros H. unfold mean. rewrite H. reflexivity. Qed.

Lemma forallb_map_comp {A B} (p : B -> bool) (f : A -> B) (l : list A) :
  forallb p (map f l) = forallb (fun x => p (f x)) l.
Proof.
  induction l as [|x l IH]; simpl; [reflexivity|]. rewrite IH. reflexivity.
Qed.

Lemma forallb_pointwise {A} (p q : A -> bool) (l : list A) :
  (forall x, p x = q x) -> forallb p l = forallb q l.
Proof.
  intros H. induction l as [|x l IH]; simpl; [reflexivity|].
  rewrite H, IH. reflexivity.
Qed.

Lemma frame_of_entries (l v : string) (p : Z * num) (ps : list (Z * num)) :
  l <> v ->
  frame_of_records (map (entry l v) (p :: ps))
  = [(l, IntCol (map fst (p :: ps))); (v, value_column (map snd (p :: ps)))].
Proof.
  intros Hne.
  assert (Evl : String.eqb v l = false) by (apply String.eqb_neq; congruence).
  unfold frame_of_records. rewrite (record_keys_entries l v p ps Hne).
  set (es := map (entry l v) (p :: ps)).
  assert (Hl : map (assoc l) es = map (fun q => Some (NInt (fst q))) (p :: ps)).
  { unfold es. rewrite map_map. apply map_ext. intros q. simpl.
    rewrite String.eqb_refl. reflexivity. }
  assert (Hv : map (assoc v) es = map (fun q => Some (snd q)) (p :: ps)).
  { unfold es. rewrite map_map. apply map_ext. intros q. simpl.
    rewrite Evl, String.eqb_refl. reflexivity. }
  match goal with
  | |- map ?F [l; v] = _ => change (map F [l; v]) with [F l; F v]; cbv beta
  end.
  rewrite Hl, Hv. f_equal; [|f_equal]; f_equal.
  - replace (forallb option_is_int (map (fun q : Z * num => Some (NInt (fst q))) (p :: ps)))
      with true.
    + rewrite map_map. reflexivity.
    + symmetry. apply forallb_forall. intros o Ho.
      apply in_map_iff in Ho as (q & <- & _). reflexivity.
  - unfold value_column. rewrite !forallb_map_comp, !map_map.
    rewrite (forallb_pointwise (fun x : Z * num => option_is_int (Some (snd x)))
                               (fun x => num_is_int (snd x)))
      by (intros [z [x|f]]; reflexivity).
    destruct (forallb _ _); f_equal; apply map_ext; intros [z [x|f]]; reflexivity.
Qed.

Lemma groupby_entries (l v : string) (zs : list Z) (col : NumColumn) :
  l <> v ->
  groupby_mean [(l, IntCol zs); (v, col)] l [v]
  = Return [(l, group_keys (map NInt zs));
            (v, map (group_mean (map NInt zs) (column_nums col))
                    (group_keys (map NInt zs)))].
Proof.
  intros Hne.
  assert (Evl : String.eqb v l = false) by (apply String.eqb_neq; congruence).
  unfold groupby_mean. simpl. rewrite String.eqb_refl. simpl.
  rewrite Evl, String.eqb_refl. reflexivity.
Qed.

Lemma column_nums_value_column (xs : list num) :
  column_nums (value_column xs)
  = map (fun x => if forallb num_is_int xs then NInt (num_int_part x)
                  else NFloat (num_to_float x)) xs.
Proof.
  unfold value_column. destruct (forallb num_is_int xs); simpl;
    rewrite map_map; reflexivity.
Qed.

Lemma in_fst_filter (z : Z) (l : list (Z * num)) :
  In z (map fst l) <-> List.filter (fun q => fst q =? z) l <> [].
Proof.
  induction l as [|q l IH]; simpl; [tauto|].
  destruct (fst q =? z) eqn:E.
  - apply Z.eqb_eq in E. split; [discriminate | auto].
  - apply Z.eqb_neq in E. rewrite <- IH. intuition.
Qed.

Lemma finish_chart_entries (l v : string) (vs : list string)
    (cd : ChartData) (pairs : list (Z * num)) :
  l <> v -> scales (options cd) <> None -> pairs <> [] ->
  data cd = map (entry l v) pairs ->
  exists (c : ChartData) (zs : list Z),
    finish_chart (l :: vs) l cd = Return c
    /\ StronglySorted Z.lt zs
    /\ (forall z, In z zs <-> In z (map fst pairs))
    /\ data c = map (group_entry l v pairs) zs
    /\ chartType c = chartType cd
    /\ labelsKey c = labelsKey cd
    /\ valuesKey c = valuesKey cd
    /\ x_title c = Some l.
Proof.
  intros Hne Hsc Hpairs Hd. unfold finish_chart, mbind, outcome_bind.
  unfold set_x_title.
  destruct (scales (options cd)) as [sc|]; [clear Hsc | congruence].
  cbn [data set_options]. rewrite Hd.
  destruct (sorted_entries l v pairs) as (ps & -> & Hf).
  destruct ps as [|p ps].
  { exfalso. destruct pairs as [|q pairs]; [congruence|].
    specialize (Hf (fst q)). simpl in Hf. rewrite Z.eqb_refl in Hf. discriminate. }
  cbn [data set_data].
  rewrite (frame_of_entries l v p ps Hne).
  set (F := [(l, IntCol (map fst (p :: ps))); (v, value_column (map snd (p :: ps)))]).
  unfold numerical_columns. change (map fst F) with [l; v].
  replace (str_in l [l; v]) with true
    by (unfold str_in; simpl; rewrite String.eqb_refl; reflexivity).
  replace (list_remove l [l; v]) with [v]
    by (simpl; rewrite String.eqb_refl; reflexivity).
  subst F. rewrite (groupby_entries l v _ _ Hne).
  rewrite (to_dict_records_two l v _ _ Hne).
  destruct (group_keys_int (map fst (p :: ps))) as (zs & Eg & Hs & Hin).
  rewrite Eg, map_map.
  eexists. exists zs. split; [reflexivity|]. cbn [data set_data chartType labelsKey valuesKey].
  split; [exact Hs|]. split; [|split; [|repeat split]].
  - intros z. rewrite Hin, !in_fst_filter, Hf. reflexivity.
  - apply map_ext. intros z. unfold group_entry, group_mean. do 4 f_equal.
    rewrite column_nums_value_column, !map_map.
    rewrite (map_ext (fun x => num_eqb (NInt (fst x)) (NInt z))
                     (fun x => fst x =? z))
      by (intros x; apply num_eqb_int).
    rewrite (select_map_map (fun x : Z * num => fst x =? z)).
    unfold group_values. rewrite <- (Hf z).
    apply mean_ext. rewrite !map_map.
    apply map_ext_in. intros [z' x] Hx.
    apply filter_In in Hx as [Hx _].
    destruct (forallb num_is_int (map snd (p :: ps))) eqn:Eint; [|reflexivity].
    rewrite forallb_forall in Eint.
    specialize (Eint x (in_map snd _ _ Hx)). destruct x; [reflexivity | discriminate].
Qed.

Lemma group_entries_grouped (l v : string) (pairs : list (Z * num))
    (zs : list Z) :
  Forall2 (grouped_entry l v pairs) (map (group_entry l v pairs) zs) zs.
Proof.
  induction zs as [|z zs IH]; simpl; constructor; [|exact IH].
  exists (mean (group_values pairs z)). split; [reflexivity | auto].
Qed.

(** X9.  Lines 110-128 on a payload whose "scales" are in place and whose
    entries, at least one, each hold an integer label (in int64) and one
    value field (of magnitude at most 2^53): the block returns; the
    payload has one entry per distinct label, in strictly ascending order
    of label; each entry holds its label and, under the value key, a
    float, which is the arithmetic mean of the values of the entries that
    bore that label wherever binary64 computes that mean without
    rounding; the chart type and the two keys are kept and the x axis is
    titled with the label column. *)
Theorem finish_chart_groups (l v : string) (vs : list string)
    (cd : ChartData) (pairs : list (Z * num)) :
  l <> v -> scales (options cd) <> None -> pairs <> [] ->
  data cd = map (entry l v) pairs ->
  forallb plain_pair pairs = true ->
  exists (c : ChartData) (zs : list Z),
    finish_chart (l :: vs) l cd = Return c
    /\ StronglySorted Z.lt zs
    /\ (forall z, In z zs <-> In z (map fst pairs))
    /\ Forall2 (grouped_entry l v pairs) (data c) zs
    /\ chartType c = chartType cd
    /\ labelsKey c = labelsKey cd
    /\ valuesKey c = valuesKey cd
    /\ x_title c = Some l.
Proof.
  intros Hne Hsc Hpairs Hd _.
  destruct (finish_chart_entries l v vs cd pairs Hne Hsc Hpairs Hd)
    as (c & zs & H1 & H2 & H3 & H4 & H5).
  exists c, zs. split; [exact H1|]. split; [exact H2|]. split; [exact H3|].
  split; [|exact H5]. rewrite H4. apply group_entries_grouped.
Qed.

Lemma finish_chart_groups_witness :
  exists (c : ChartData) (zs : list Z),
    finish_chart ["region"; "sales"] "region"
      (set_data (map (entry "region" "sales") [(2, NInt 20); (1, NInt 10); (1, NInt 30)])
                (initial_chart_data "bar"))
    = Return c
    /\ StronglySorted Z.lt zs
    /\ (forall z, In z zs <-> In z [2; 1; 1])
    /\ Forall2 (grouped_entry "region" "sales"
                  [(2, NInt 20); (1, NInt 10); (1, NInt 30)]) (data c) zs
    /\ chartType c = "bar"
    /\ labelsKey c = ""
    /\ valuesKey c = "Value"
    /\ x_title c = Some "region".
Proof.
  apply (finish_chart_groups "region" "sales" ["sales"]
           (set_data (map (entry "region" "sales")
                          [(2, NInt 20); (1, NInt 10); (1, NInt 30)])
                     (initial_chart_data "bar"))
           [(2, NInt 20); (1, NInt 10); (1, NInt 30)]).
  - discriminate.
  - discriminate.
  - discriminate.
  - reflexivity.
  - reflexivity.
Defined.

(** The mean of the group of label 1 above is exact in binary64: the
    entry holds 20. *)
Example scenario_exact_mean :
  exact_mean (group_values [(2, NInt 20); (1, NInt 10); (1, NInt 30)] 1)
  /\ mean (group_values [(2, NInt 20); (1, NInt 10); (1, NInt 30)] 1) = Fin 20.
Proof.
  split; [|vm_compute; reflexivity].
  split; [reflexivity|]. split; [vm_compute; discriminate|].
  exists 20, 0%nat. split; [vm_compute; discriminate | vm_compute; reflexivity].
Qed.

(** ** Bar and line charts: from the dataset to the payload *)

Lemma series_len_select (m : list bool) (s : Series) :
  series_len (series_select m s)
  = length (select m (replicate (series_len s) tt)).
Proof.
  destruct s as [l|l|l]; simpl; rewrite select_replicate, length_replicate;
    reflexivity.
Qed.

Lemma same_length_frame_select (m : list bool) (d : DataFrame) :
  same_length d -> same_length (frame_select m d).
Proof.
  unfold same_length. intros H.
  assert (Hn : nrows (frame_select m d)
               = length (select m (replicate (nrows d) tt))).
  { destruct d as [|[c s] d]; simpl.
    - rewrite select_nil_r. reflexivity.
    - apply series_len_select. }
  rewrite Hn. unfold frame_select. apply Forall_map.
  eapply Forall_impl; [exact H|]. intros [c s] Hs. simpl in *.
  rewrite series_len_select, Hs. reflexivity.
Qed.

Lemma same_length_assoc (d : DataFrame) (c : string) (s : Series) :
  same_length d -> assoc c d = Some s -> series_len s = nrows d.
Proof.
  unfold same_length. intros H Hc. rewrite List.Forall_forall in H.
  apply (H (c, s)), assoc_Some_In, Hc.
Qed.

Lemma kept_for_numeric (d : DataFrame) (c : string) :
  numeric_in d c -> exists m, kept_for d c = frame_select m d.
Proof.
  intros (s & Hs & Hn). unfold kept_for.
  rewrite Hs, (outlier_mask_numeric s Hn). eexists. reflexivity.
Qed.

Lemma integer_in_numeric (d : DataFrame) (c : string) :
  integer_in d c -> numeric_in d c.
Proof. intros (ls & H). exists (Int64 ls). auto. Qed.

Lemma integer_in_frame_select (m : list bool) (c : string) (d : DataFrame) :
  integer_in d c -> integer_in (frame_select m d) c.
Proof.
  intros (ls & H). exists (select m ls).
  rewrite assoc_frame_select, H. reflexivity.
Qed.

(** The chained outlier filter on numeric columns ends in the frame that
    [kept_for] describes. *)
Lemma remove_outliers_all_kept (cols : list string) (r : ref) (h : heap)
    (d : DataFrame) :
  h !! r = Some d -> Forall (numeric_in d) cols ->
  exists (r' : ref) (h' : heap),
    remove_outliers_all r cols h = (Return r', h')
    /\ h' !! r' = Some (fold_left kept_for cols d).
Proof.
  revert r h d. induction cols as [|c cols IH]; intros r h d Hr Hall; simpl.
  - exists r, h. auto.
  - inversion Hall as [|? ? Hc Hcols]; subst.
    unfold mbind, Py_bind. rewrite (remove_outliers_iqr_run r c h d Hr).
    assert (Hk : kept_for d c
                 = match assoc c d with
                   | Some s => match outlier_mask s with
                               | Return m => frame_select m d
                               | Raise _ => d
                               end
                   | None => d
                   end) by reflexivity.
    rewrite Hk. clear Hk.
    destruct Hc as (s & Hs & Hn). rewrite Hs, (outlier_mask_numeric s Hn).
    set (d1 := frame_select _ d).
    destruct (IH (length h) (h ++ [d1]) d1) as (r' & h' & E & Hr').
    + rewrite lookup_app_r, Nat.sub_diag by lia. reflexivity.
    + eapply Forall_impl; [exact Hcols|]. intros c0. apply numeric_in_frame_select.
    + exists r', h'. auto.
Qed.

(** What the filters keep of a dataset with columns of one length: the
    same columns, still of one length, integer and numeric columns as
    they were. *)
Lemma fold_kept_for_shape (cols : list string) (d : DataFrame) :
  same_length d -> Forall (numeric_in d) cols ->
  let w := fold_left kept_for cols d in
  same_length w /\ columns w = columns d
  /\ (forall c, integer_in d c -> integer_in w c)
  /\ (forall c, numeric_in d c -> numeric_in w c).
Proof.
  revert d. induction cols as [|c cols IH]; intros d Hlen Hall; simpl.
  - auto.
  - inversion Hall as [|? ? Hc Hcols]; subst.
    destruct (kept_for_numeric d c Hc) as (m & ->).
    destruct (IH (frame_select m d)) as (H1 & H2 & H3 & H4).
    + apply same_length_frame_select, Hlen.
    + eapply Forall_impl; [exact Hcols|]. intros c0. apply numeric_in_frame_select.
    + split; [exact H1|]. split; [rewrite H2; apply columns_frame_select|].
      split; intros c0 H0.
      * apply H3, integer_in_frame_select, H0.
      * apply H4, numeric_in_frame_select, H0.
Qed.

Lemma same_length_normalize_frame (numeric_of_str : string -> option num)
    (d : DataFrame) :
  same_length d -> same_length (normalize_frame numeric_of_str d).
Proof.
  unfold same_length. intros H.
  assert (Hn : nrows (normalize_frame numeric_of_str d) = nrows d).
  { destruct d as [|[c s] d]; simpl; [reflexivity|].
    apply nrows_normalize_series. }
  rewrite Hn. unfold normalize_frame. apply Forall_map.
  eapply Forall_impl; [exact H|]. intros [c s] Hs. simpl in *.
  rewrite nrows_normalize_series. exact Hs.
Qed.

Lemma kept_for_empty (d : DataFrame) (c l : string) :
  assoc l d = Some (Int64 []) -> assoc l (kept_for d c) = Some (Int64 []).
Proof.
  intros H. unfold kept_for. destruct (assoc c d) as [s|]; [|exact H].
  destruct (outlier_mask s) as [m|e]; [|exact H].
  rewrite assoc_frame_select, H. simpl. rewrite select_nil_r. reflexivity.
Qed.

Lemma fold_kept_for_empty (cols : list string) (d : DataFrame) (l : string) :
  assoc l d = Some (Int64 []) ->
  assoc l (fold_left kept_for cols d) = Some (Int64 []).
Proof.
  revert d. induction cols as [|c cols IH]; intros d H; simpl; [exact H|].
  apply IH, kept_for_empty, H.
Qed.

Section BarChart.

Variable numeric_of_str : string -> option num.
Variable int_of_str : string -> option Z.
Variable float_of_str : string -> option pyfloat.

Lemma coerce_numbers (s : Series) :
  is_numeric_dtype s = true ->
  Forall2 (fun val y => coerce_by_dtype int_of_str float_of_str s val = Return y)
          (tolist s) (numbers s).
Proof.
  destruct s as [l|l|l]; simpl; intros H; [discriminate| |];
    induction l as [|x l IH]; simpl; constructor; auto.
Qed.

Lemma label_entries_ints (l : string) (zs : list Z) :
  label_entries int_of_str l (map VInt zs)
  = Return (map (fun z => [(l, NInt z)]) zs).
Proof.
  induction zs as [|z zs IH]; simpl; [reflexivity|]. rewrite IH. reflexivity.
Qed.

Lemma fill_values_entries (l v : string) (col : Series) (vals : list value)
    (ys : list num) :
  l <> v ->
  Forall2 (fun val y => coerce_by_dtype int_of_str float_of_str col val = Return y)
          vals ys ->
  forall (zs : list Z) (pre : list record),
    length zs = length vals ->
    fill_values int_of_str float_of_str v col vals (length pre)
      (pre ++ map (fun z => [(l, NInt z)]) zs)
    = Return (pre ++ map (entry l v) (zip zs ys)).
Proof.
  intros Hne. induction 1 as [|val y vals ys Hy Hall IH]; intros zs pre Hlen.
  - destruct zs; [|discriminate]. reflexivity.
  - destruct zs as [|z zs]; [discriminate|]. injection Hlen as Hlen.
    assert (Evl : String.eqb v l = false) by (apply String.eqb_neq; congruence).
    simpl. rewrite Hy. unfold mbind, outcome_bind, set_entry.
    rewrite list_lookup_middle by reflexivity.
    rewrite insert_app_r_alt by apply Nat.le_refl.
    rewrite Nat.sub_diag. simpl. rewrite Evl.
    specialize (IH zs (pre ++ [[(l, NInt z); (v, y)]]) Hlen).
    rewrite length_app, Nat.add_1_r, <- app_assoc in IH. simpl in IH.
    rewrite <- app_assoc in IH. exact IH.
Qed.

(** The call on a label column and value columns that are numeric once
    normalised: what reaches lines 110-128. *)
Lemma create_chartjs_data_bar_run (r : ref) (h : heap) (d : DataFrame)
    (l v : string) (rest : list string) (chart_type : string) :
  h !! r = Some d -> List.NoDup (columns d) -> same_length d -> l <> v ->
  str_in (lower chart_type) ["pie"; "doughnut"] = false ->
  integer_in (normalize_frame numeric_of_str d) l ->
  Forall (numeric_in (normalize_frame numeric_of_str d)) (v :: rest) ->
  fst (create_chartjs_data numeric_of_str int_of_str float_of_str
         r (l :: v :: rest) chart_type h)
  = finish_chart (l :: v :: rest) l
      (set_data
         (map (entry l v)
              (label_value_pairs
                 (working_frame numeric_of_str d (l :: v :: rest)) l v))
         (set_valuesKey v (set_labelsKey l (initial_chart_data chart_type)))).
Proof.
  intros Hr Hnd Hlen Hne Hty Hl Hnum. unfold create_chartjs_data.
  unfold mbind at 1, Py_bind.
  rewrite (convert_to_numeric_run _ _ r h d Hr Hnd).
  unfold working_frame. set (n := normalize_frame numeric_of_str d) in *.
  assert (Hall : Forall (numeric_in n) (l :: v :: rest)).
  { constructor; [apply integer_in_numeric, Hl | exact Hnum]. }
  destruct (remove_outliers_all_kept (l :: v :: rest) r (<[r := n]> h) n)
    as (r' & h' & E & Hr'); [|exact Hall|].
  { apply list_lookup_insert_eq. eapply lookup_lt_Some, Hr. }
  destruct (fold_kept_for_shape (l :: v :: rest) n) as (Hw1 & Hw2 & Hw3 & Hw4);
    [apply same_length_normalize_frame, Hlen | exact Hall |].
  set (w := fold_left kept_for (l :: v :: rest) n) in *.
  unfold mbind at 1, Py_bind. rewrite E.
  unfold mbind at 1, Py_bind, deref. rewrite Hr'.
  change (default ([] : DataFrame) (Some w)) with w.
  rewrite no_missing_columns.
  2:{ rewrite Hw2. eapply Forall_impl; [exact Hall|].
      intros c. apply numeric_in_columns. }
  rewrite Hty.
  destruct (Hw3 l Hl) as (lsw & Hlw).
  inversion Hnum as [|? ? Hv Hrest]; subst.
  destruct (Hw4 v Hv) as (svw & Hvw & Hvn).
  assert (Hsame : length lsw = length (tolist svw)).
  { rewrite length_tolist, (same_length_assoc w v svw Hw1 Hvw).
    change (length lsw) with (series_len (Int64 lsw)).
    apply (same_length_assoc w l _ Hw1 Hlw). }
  assert (Hfill : fill_values int_of_str float_of_str v svw (tolist svw) 0
                    (map (fun z => [(l, NInt z)]) lsw)
                  = Return (map (entry l v) (zip lsw (numbers svw)))).
  { apply (fill_values_entries l v svw (tolist svw) (numbers svw) Hne
             (coerce_numbers svw Hvn) lsw [] Hsame). }
  assert (Hp : label_value_pairs w l v = zip lsw (numbers svw)).
  { unfold label_value_pairs. rewrite Hlw, Hvw. reflexivity. }
  rewrite Hp.
  destruct rest as [|v2 rest]; [|simpl first_numeric_column]; py_unfold;
    rewrite !Hr'; change (default ([] : DataFrame) (Some w)) with w;
    unfold frame_get; rewrite Hlw; simpl tolist;
    rewrite label_entries_ints, Hvw, ?Hvn, ?Hr';
    change (default ([] : DataFrame) (Some w)) with w; rewrite ?Hvw;
    cbn [data set_data set_valuesKey set_labelsKey];
    rewrite Hfill; reflexivity.
Qed.

Lemma small_whole_integer_in (d : DataFrame) (c : string) :
  small_whole_in numeric_of_str d c ->
  integer_in (normalize_frame numeric_of_str d) c.
Proof.
  intros (s & Hs & Hp & Hw & _). exists (map num_trunc (parsed numeric_of_str s)).
  rewrite assoc_normalize_frame, Hs. simpl. unfold normalize_series.
  rewrite Hp, Hw. reflexivity.
Qed.

(** In a dataset without rows the normaliser makes every column an empty
    integer column. *)
Lemma empty_column_normalized (d : DataFrame) (c : string) :
  same_length d -> nrows d = 0%nat -> In c (columns d) ->
  assoc c (normalize_frame numeric_of_str d) = Some (Int64 []).
Proof.
  intros Hlen Hn Hin. destruct (assoc c d) as [s|] eqn:Hs.
  2:{ apply assoc_None_iff in Hs. contradiction. }
  rewrite assoc_normalize_frame, Hs. simpl. f_equal.
  pose proof (same_length_assoc d c s Hlen Hs) as Hl. rewrite Hn in Hl.
  destruct s as [[|]|[|]|[|]]; try discriminate; reflexivity.
Qed.

(** X10.  Bar, line and any other non-pie chart on a dataset with
    distinct column names and columns of one length, for a selection
    whose columns all read as whole numbers of magnitude at most 2^40
    (so that the quantiles and the bounds of the outlier filters come out
    without rounding), the first two names being different: when a row
    survives the outlier filters of the selected columns, the call
    returns; the payload has one entry per distinct label of the
    surviving rows, in strictly ascending order; each entry holds its
    label and, under the name of the first value column, a float, which
    is the mean of that column over the surviving rows with that label
    wherever binary64 computes that mean without rounding; the further
    columns only filter rows; the chart type is the one given, the keys
    are the first two names and the x axis is titled with the label
    column. *)
Theorem create_chartjs_data_bar_groups (r : ref) (h : heap) (d : DataFrame)
    (l v : string) (rest : list string) (chart_type : string) :
  h !! r = Some d -> List.NoDup (columns d) -> same_length d -> l <> v ->
  str_in (lower chart_type) ["pie"; "doughnut"] = false ->
  Forall (small_whole_in numeric_of_str d) (l :: v :: rest) ->
  label_value_pairs (working_frame numeric_of_str d (l :: v :: rest)) l v <> [] ->
  exists (c : ChartData) (zs : list Z),
    fst (create_chartjs_data numeric_of_str int_of_str float_of_str
           r (l :: v :: rest) chart_type h) = Return c
    /\ StronglySorted Z.lt zs
    /\ (forall z, In z zs <->
          In z (map fst (label_value_pairs
                           (working_frame numeric_of_str d (l :: v :: rest)) l v)))
    /\ Forall2 (grouped_entry l v
                  (label_value_pairs
                     (working_frame numeric_of_str d (l :: v :: rest)) l v))
               (data c) zs
    /\ chartType c = chart_type
    /\ labelsKey c = l
    /\ valuesKey c = v
    /\ x_title c = Some l.
Proof.
  intros Hr Hnd Hlen Hne Hty Hsmall Hrows.
  inversion Hsmall as [|? ? Hl0 Hrest0]; subst.
  assert (Hl : integer_in (normalize_frame numeric_of_str d) l)
    by apply small_whole_integer_in, Hl0.
  assert (Hnum : Forall (numeric_in (normalize_frame numeric_of_str d)) (v :: rest)).
  { eapply Forall_impl; [exact Hrest0|]. intros c Hc.
    apply integer_in_numeric, small_whole_integer_in, Hc. }
  rewrite (create_chartjs_data_bar_run r h d l v rest chart_type
             Hr Hnd Hlen Hne Hty Hl Hnum).
  destruct (finish_chart_entries l v (v :: rest)
              (set_data
                 (map (entry l v)
                      (label_value_pairs
                         (working_frame numeric_of_str d (l :: v :: rest)) l v))
                 (set_valuesKey v (set_labelsKey l (initial_chart_data chart_type))))
              (label_value_pairs
                 (working_frame numeric_of_str d (l :: v :: rest)) l v)
              Hne) as (c & zs & H1 & H2 & H3 & H4 & H5);
    [discriminate | exact Hrows | reflexivity |].
  exists c, zs. split; [exact H1|]. split; [exact H2|]. split; [exact H3|].
  split; [|exact H5]. rewrite H4. apply group_entries_grouped.
Qed.

(** X11.  Bar, line and any other non-pie chart on a dataset without
    rows (distinct column names, columns of one length), for a selection
    of at least two existing columns, the first two names being
    different: the call raises KeyError with the name of the label
    column: the frame built from no entry has no column to group by. *)
Theorem create_chartjs_data_bar_no_rows (r : ref) (h : heap) (d : DataFrame)
    (l v : string) (rest : list string) (chart_type : string) :
  h !! r = Some d -> List.NoDup (columns d) -> same_length d ->
  nrows d = 0%nat -> l <> v ->
  str_in (lower chart_type) ["pie"; "doughnut"] = false ->
  Forall (fun c => In c (columns d)) (l :: v :: rest) ->
  fst (create_chartjs_data numeric_of_str int_of_str float_of_str
         r (l :: v :: rest) chart_type h) = Raise (KeyError l).
Proof.
  intros Hr Hnd Hlen Hn Hne Hty Hin.
  assert (He : forall c, In c (l :: v :: rest) ->
                 assoc c (normalize_frame numeric_of_str d) = Some (Int64 [])).
  { intros c Hc. apply empty_column_normalized; auto.
    rewrite List.Forall_forall in Hin. auto. }
  rewrite (create_chartjs_data_bar_run r h d l v rest chart_type
             Hr Hnd Hlen Hne Hty).
  - unfold working_frame, label_value_pairs.
    rewrite (fold_kept_for_empty (l :: v :: rest) _ l (He l (or_introl eq_refl))).
    destruct (assoc v _); reflexivity.
  - exists []. apply He. left. reflexivity.
  - apply List.Forall_forall. intros c Hc. exists (Int64 []).
    split; [apply He; right; exact Hc | reflexivity].
Qed.

End BarChart.

Lemma create_chartjs_data_bar_groups_witness :
  exists (c : ChartData) (zs : list Z),
    fst (create_chartjs_data decimal_num decimal_int decimal_float
           0%nat ["region"; "sales"] "bar" [sales_csv]) = Return c
    /\ StronglySorted Z.lt zs
    /\ (forall z, In z zs <->
          In z (map fst (label_value_pairs
                           (working_frame decimal_num sales_csv ["region"; "sales"])
                           "region" "sales")))
    /\ Forall2 (grouped_entry "region" "sales"
                  (label_value_pairs
                     (working_frame decimal_num sales_csv ["region"; "sales"])
                     "region" "sales"))
               (data c) zs
    /\ chartType c = "bar"
    /\ labelsKey c = "region"
    /\ valuesKey c = "sales"
    /\ x_title c = Some "region".
Proof.
  apply (create_chartjs_data_bar_groups decimal_num decimal_int decimal_float
           0%nat [sales_csv] sales_csv "region" "sales" [] "bar").
  - reflexivity.
  - unfold sales_csv, columns; simpl. distinct_names.
  - repeat constructor.
  - discriminate.
  - reflexivity.
  - repeat constructor; eexists; (split; [reflexivity|]); repeat split;
      vm_compute; reflexivity.
  - vm_compute. discriminate.
Defined.

Lemma create_chartjs_data_bar_no_rows_witness :
  fst (create_chartjs_data decimal_num decimal_int decimal_float
         0%nat ["region"; "sales"] "bar" [no_rows]) = Raise (KeyError "region").
Proof.
  apply (create_chartjs_data_bar_no_rows decimal_num decimal_int decimal_float
           0%nat [no_rows] no_rows "region" "sales" [] "bar").
  - reflexivity.
  - unfold no_rows, columns; simpl. distinct_names.
  - exact same_length_no_rows.
  - reflexivity.
  - discriminate.
  - reflexivity.
  - apply List.Forall_forall. intros c [<-|[<-|[]]]; simpl; auto.
Defined.

(** ** The metadata of a returned payload *)

Lemma finish_chart_metadata (cols : list string) (l : string) (cd c : ChartData) :
  finish_chart cols l cd = Return c ->
  scales (options cd) <> None
  /\ chartType c = chartType cd /\ labelsKey c = labelsKey cd
  /\ valuesKey c = valuesKey cd /\ x_title c = Some l.
Proof.
  unfold finish_chart, set_x_title, mbind, outcome_bind.
  destruct (scales (options cd)) as [sc|]; [|discriminate].
  destruct (sorted_by_first_value _) as [d|e]; [|discriminate].
  destruct cols as [|k cols]; [discriminate|].
  destruct (groupby_mean _ _ _) as [g|e]; [|discriminate].
  intros [= <-]. repeat split. discriminate.
Qed.

Lemma returns_only_impl {A} (P Q : A -> Prop) (m : Py A) :
  (forall a, P a -> Q a) -> returns_only P m -> returns_only Q m.
Proof. intros H Hm h a h' E. eapply H, Hm, E. Qed.

Section Metadata.

Variable numeric_of_str : string -> option num.
Variable int_of_str : string -> option Z.
Variable float_of_str : string -> option pyfloat.

Lemma first_numeric_column_metadata (r : ref) (cols : list string)
    (c : ChartData) :
  returns_only
    (fun c' => chartType c' = chartType c /\ labelsKey c' = labelsKey c
               /\ In (valuesKey c') cols)
    (first_numeric_column int_of_str float_of_str r cols c).
Proof.
  induction cols as [|col cols IH]; simpl.
  - apply returns_only_raise.
  - apply returns_only_bind; intros s.
    destruct (is_numeric_dtype s).
    + apply returns_only_bind; intros s'.
      apply returns_only_bind_lift. intros d _.
      apply returns_only_ret. simpl. auto.
    + eapply returns_only_impl; [|exact IH]. simpl. intuition.
Qed.

(** Every payload the call returns: the chart type is the one given and
    is not pie/doughnut, the label key and the title of the x axis are
    the first selected name, the value key is the default or one of the
    other selected names. *)
Lemma returned_metadata (r : ref) (column_names : list string)
    (chart_type : string) :
  returns_only
    (fun c =>
       str_in (lower chart_type) ["pie"; "doughnut"] = false
       /\ chartType c = chart_type
       /\ exists l vs,
            column_names = l :: vs /\ labelsKey c = l /\ x_title c = Some l
            /\ (valuesKey c = "Value" \/ In (valuesKey c) vs))
    (create_chartjs_data numeric_of_str int_of_str float_of_str
       r column_names chart_type).
Proof.
  unfold create_chartjs_data.
  apply returns_only_bind; intros _.
  apply returns_only_bind; intros df.
  destruct column_names as [|l vs]; [apply returns_only_raise|].
  apply returns_only_bind; intros frame.
  destruct (List.filter _ _); [|apply returns_only_raise].
  destruct (str_in (lower chart_type) ["pie"; "doughnut"]) eqn:Hty.
  - apply (returns_only_after (fun c => scales (options c) = None)).
    + destruct vs as [|v [|]]; try apply returns_only_raise.
      do 3 (apply returns_only_bind; intros ?).
      apply returns_only_ret. reflexivity.
    + intros cd Hcd. apply returns_only_lift. intros c Hc.
      apply finish_chart_metadata in Hc as [Hsc _]. congruence.
  - apply (returns_only_after
             (fun c => chartType c = chart_type /\ labelsKey c = l
                       /\ (valuesKey c = "Value" \/ In (valuesKey c) vs))).
    + apply returns_only_bind; intros cl.
      apply returns_only_bind_lift. intros d _.
      destruct vs as [|v [|v2 vs]].
      * apply returns_only_ret. simpl. auto.
      * apply returns_only_bind; intros cv.
        apply returns_only_bind_lift. intros d' _.
        apply returns_only_ret. simpl. auto.
      * eapply returns_only_impl;
          [|apply (first_numeric_column_metadata df (v :: v2 :: vs))].
        simpl. intuition.
    + intros cd (H1 & H2 & H3). apply returns_only_lift. intros c Hc.
      apply finish_chart_metadata in Hc as (_ & E1 & E2 & E3 & E4).
      split; [reflexivity|]. split; [congruence|].
      exists l, vs. rewrite E2, E3. auto.
Qed.

(** X8.  Whatever the dataset, the selection and the chart type, a
    payload that [create_chartjs_data] returns carries the chart type it
    was given, which is not pie/doughnut in any letter case; its label
    key and the title of its x axis are the first selected name; its
    value key is one of the other selected names, or the default
    "Value". *)
Theorem create_chartjs_data_metadata (r : ref) (column_names : list string)
    (chart_type : string) (h h' : heap) (c : ChartData) :
  create_chartjs_data numeric_of_str int_of_str float_of_str
    r column_names chart_type h = (Return c, h') ->
  str_in (lower chart_type) ["pie"; "doughnut"] = false
  /\ chartType c = chart_type
  /\ exists l vs,
       column_names = l :: vs /\ labelsKey c = l /\ x_title c = Some l
       /\ (valuesKey c = "Value" \/ In (valuesKey c) vs).
Proof. exact (returned_metadata r column_names chart_type h c h'). Qed.

(** The agent never raises: its result is a payload with the shortened
    answer, or the error record that quotes the exception. *)
Lemma process_data_and_plot_run (df : ref) (raw : string) (h : heap) :
  exists (res : AgentResult) (h' : heap),
    process_data_and_plot numeric_of_str int_of_str float_of_str df raw h
    = (Return res, h')
    /\ ((exists ty c,
           first_key (ranking raw found_chart_types) = Return ty
           /\ create_chartjs_data numeric_of_str int_of_str float_of_str df
                (map fst (ranking raw
                            (not_found_yet (columns (default [] (h !! df))))))
                ty h = (Return c, h')
           /\ res = {| chart_data := Some c;
                       summary := shorten_response raw;
                       error := None |})
        \/ (exists e,
              res = {| chart_data := None;
                       summary := ("An unexpected error occurred: "
                                   ++ exn_str e)%string;
                       error := Some "UNEXPECTED_ERROR" |}
              /\ (first_key (ranking raw found_chart_types) = Raise e /\ h' = h
                  \/ exists ty,
                       first_key (ranking raw found_chart_types) = Return ty
                       /\ create_chartjs_data numeric_of_str int_of_str
                            float_of_str df
                            (map fst (ranking raw
                               (not_found_yet (columns (default [] (h !! df))))))
                            ty h = (Raise e, h')))).
Proof.
  unfold process_data_and_plot. py_unfold.
  destruct (first_key (ranking raw found_chart_types)) as [ty|e] eqn:Ety.
  - destruct (create_chartjs_data _ _ _ df _ ty h) as [[c|e] h1] eqn:Ec.
    + eexists _, h1. split; [reflexivity|]. left. exists ty, c. auto.
    + eexists _, h1. split; [reflexivity|]. right. exists e.
      split; [reflexivity|]. right. exists ty. auto.
  - eexists _, h. split; [reflexivity|]. right. exists e.
    split; [reflexivity|]. left. auto.
Qed.

(** X12.  Whatever the dataset and the answer of the model,
    [process_data_and_plot] does not raise.  Its result either carries a
    payload, no error and the shortened answer as summary - then the
    chart type of the payload is "bar" or "line", the first entry of the
    ranking of the three chart-type words, and the label key is the first
    entry of the ranking of the column names - or carries no payload,
    the error code "UNEXPECTED_ERROR" and a summary that quotes the
    exception. *)
Theorem process_data_and_plot_result (df : ref) (raw : string) (h : heap) :
  exists (res : AgentResult) (h' : heap),
    process_data_and_plot numeric_of_str int_of_str float_of_str df raw h
    = (Return res, h')
    /\ ((exists c,
           chart_data res = Some c /\ error res = None
           /\ summary res = shorten_response raw
           /\ In (chartType c) ["bar"; "line"]
           /\ first_key (ranking raw found_chart_types) = Return (chartType c)
           /\ first_key (ranking raw
                 (not_found_yet (columns (default [] (h !! df)))))
              = Return (labelsKey c))
        \/ (exists e,
              chart_data res = None /\ error res = Some "UNEXPECTED_ERROR"
              /\ summary res
                 = ("An unexpected error occurred: " ++ exn_str e)%string)).
Proof.
  destruct (process_data_and_plot_run df raw h) as (res & h' & E & Hres).
  exists res, h'. split; [exact E|].
  destruct Hres as [(ty & c & Ety & Ec & ->)|(e & -> & _)];
    [left | right; exists e; auto].
  exists c. simpl.
  apply returned_metadata in Ec as (Hty & Hct & l & vs & Hcols & Hl & _).
  subst ty. split; [reflexivity|]. split; [reflexivity|]. split; [reflexivity|].
  assert (Hct : List.NoDup (map fst found_chart_types)).
  { simpl. repeat constructor; simpl; intuition discriminate. }
  destruct (ranking_ranked raw found_chart_types Hct) as (Hmem & _).
  split; [|split; [exact Ety|]].
  - destruct (ranking raw found_chart_types) as [|[k o] rk]; [discriminate|].
    injection Ety as ->.
    destruct (proj1 (Hmem (chartType c)) (or_introl eq_refl)) as [Hin _].
    simpl in Hin. destruct Hin as [H|[H|[H|[]]]]; rewrite <- H in *; simpl; auto.
    discriminate.
  - destruct (ranking raw (not_found_yet _)) as [|[k o] rk]; [discriminate|].
    simpl in Hcols. injection Hcols as -> _. rewrite Hl. reflexivity.
Qed.

(** X13.  When the answer of the model mentions none of the words "bar",
    "line" and "pie", the agent returns the error record whose summary is
    "An unexpected error occurred: " with nothing after it, and no
    dataset has been touched: the payload builder is not reached, the
    stored dataset keeps its text columns. *)
Theorem process_data_and_plot_no_chart_type (df : ref) (raw : string) (h : heap) :
  ~ occurs "bar" raw -> ~ occurs "line" raw -> ~ occurs "pie" raw ->
  process_data_and_plot numeric_of_str int_of_str float_of_str df raw h
  = (Return {| chart_data := None;
               summary := "An unexpected error occurred: ";
               error := Some "UNEXPECTED_ERROR" |}, h).
Proof.
  intros Hb Hl Hp.
  assert (Hct : List.NoDup (map fst found_chart_types)).
  { simpl. repeat constructor; simpl; intuition discriminate. }
  destruct (ranking_ranked raw found_chart_types Hct) as (Hmem & _).
  assert (Hrk : ranking raw found_chart_types = []).
  { destruct (ranking raw found_chart_types) as [|[k o] rk]; [reflexivity|].
    destruct (proj1 (Hmem k) (or_introl eq_refl)) as [Hin Hocc].
    simpl in Hin. destruct Hin as [<-|[<-|[<-|[]]]]; contradiction. }
  unfold process_data_and_plot. py_unfold. rewrite Hrk. reflexivity.
Qed.

(** X14.  When the answer of the model mentions "pie" before any mention
    of "bar" and of "line", the agent returns no payload: the result is
    the error record. *)
Theorem process_data_and_plot_pie (df : ref) (raw : string) (h : heap) :
  occurs "pie" raw ->
  (occurs "bar" raw -> find raw "pie" < find raw "bar") ->
  (occurs "line" raw -> find raw "pie" < find raw "line") ->
  exists (e : exn) (h' : heap),
    process_data_and_plot numeric_of_str int_of_str float_of_str df raw h
    = (Return {| chart_data := None;
                 summary := ("An unexpected error occurred: " ++ exn_str e)%string;
                 error := Some "UNEXPECTED_ERROR" |}, h').
Proof.
  intros Hp Hb Hl.
  assert (Hct : List.NoDup (map fst found_chart_types)).
  { simpl. repeat constructor; simpl; intuition discriminate. }
  destruct (ranking_ranked raw found_chart_types Hct)
    as (Hmem & Hoff & _ & _ & Hmin).
  assert (Hpie : first_key (ranking raw found_chart_types) = Return "pie").
  { destruct (ranking raw found_chart_types) as [|[k o] rk] eqn:Erk.
    - destruct (proj2 (Hmem "pie")) as []. split; [simpl; auto | exact Hp].
    - simpl. f_equal.
      destruct (proj1 (Hmem k) (or_introl eq_refl)) as [Hin Hocc].
      destruct (Hoff k o (or_introl eq_refl)) as [-> _].
      assert (Hle : find raw k <= find raw "pie").
      { apply (Hmin k _ rk "pie" eq_refl); [simpl; auto | exact Hp]. }
      simpl in Hin. destruct Hin as [<-|[<-|[<-|[]]]]; [| |reflexivity].
      + specialize (Hb Hocc). lia.
      + specialize (Hl Hocc). lia. }
  destruct (process_data_and_plot_run df raw h)
    as (res & h' & E & [(ty & c & Ety & Ec & ->)|(e & -> & _)]).
  - rewrite Hpie in Ety. injection Ety as <-.
    apply returned_metadata in Ec as (Hty & _). discriminate.
  - exists e, h'. exact E.
Qed.

End Metadata.

Lemma create_chartjs_data_metadata_witness :
  exists c : ChartData,
    (str_in (lower "bar") ["pie"; "doughnut"] = false
     /\ chartType c = "bar"
     /\ exists l vs,
          ["region"; "sales"] = l :: vs /\ labelsKey c = l /\ x_title c = Some l
          /\ (valuesKey c = "Value" \/ In (valuesKey c) vs))
    /\ data c = [[("region", NInt 1); ("sales", NFloat (Fin 20))];
                 [("region", NInt 2); ("sales", NFloat (Fin 20))]].
Proof.
  eexists. split.
  - eapply (create_chartjs_data_metadata decimal_num decimal_int decimal_float
              0%nat ["region"; "sales"] "bar" [sales_by_region_code]).
    vm_compute. reflexivity.
  - vm_compute. reflexivity.
Defined.

Lemma process_data_and_plot_no_chart_type_witness :
  process_data_and_plot decimal_num decimal_int decimal_float 0%nat
    "sales by region, as a table" [sales_csv]
  = (Return {| chart_data := None;
               summary := "An unexpected error occurred: ";
               error := Some "UNEXPECTED_ERROR" |}, [sales_csv]).
Proof.
  apply (process_data_and_plot_no_chart_type decimal_num decimal_int decimal_float
           0%nat "sales by region, as a table" [sales_csv]);
    intros H; apply find_found_iff in H; vm_compute in H; congruence.
Defined.

Lemma process_data_and_plot_pie_witness :
  exists (e : exn) (h' : heap),
    process_data_and_plot decimal_num decimal_int decimal_float 0%nat
      "pie of sales by region, or bar" [sales_csv]
    = (Return {| chart_data := None;
                 summary := ("An unexpected error occurred: " ++ exn_str e)%string;
                 error := Some "UNEXPECTED_ERROR" |}, h').
Proof.
  apply (process_data_and_plot_pie decimal_num decimal_int decimal_float
           0%nat "pie of sales by region, or bar" [sales_csv]).
  - apply find_found_iff. vm_compute. discriminate.
  - intros _. vm_compute. reflexivity.
  - intros H. apply find_found_iff in H. vm_compute in H. congruence.
Defined.

(** ** Pie charts on numeric columns *)

Section PieChart.

Variable numeric_of_str : string -> option num.
Variable int_of_str : string -> option Z.
Variable float_of_str : string -> option pyfloat.

Lemma coerce_numeric_cell (s : Series) (val : value) :
  is_numeric_dtype s = true -> In val (tolist s) ->
  exists y, coerce_by_dtype int_of_str float_of_str s val = Return y.
Proof.
  destruct s as [l|l|l]; simpl; intros H Hin; [discriminate| |];
    apply in_map_iff in Hin as (x & <- & _); eexists; reflexivity.
Qed.

Lemma pie_rows_numeric (l v : string) (cl cv : Series)
    (rows : list (value * value)) :
  l <> v -> is_numeric_dtype cl = true -> is_numeric_dtype cv = true ->
  Forall (fun ab => In (fst ab) (tolist cl) /\ In (snd ab) (tolist cv)) rows ->
  forall acc, exists d,
    pie_rows int_of_str float_of_str l v cl cv rows acc = Return d.
Proof.
  intros Hne Hl Hv. induction 1 as [|[a b] rows [Ha Hb] Hrows IH]; intros acc.
  - eexists. reflexivity.
  - simpl. replace (String.eqb l v) with false
      by (symmetry; apply String.eqb_neq; exact Hne).
    destruct (coerce_numeric_cell cl a Hl Ha) as (x & ->).
    destruct (coerce_numeric_cell cv b Hv Hb) as (y & ->).
    simpl. apply IH.
Qed.

Lemma zip_cells {A B} (la : list A) (lb : list B) :
  Forall (fun ab => In (fst ab) la /\ In (snd ab) lb) (zip la lb).
Proof.
  apply List.Forall_forall. intros [a b] Hin.
  apply list_elem_of_In in Hin. split; apply list_elem_of_In.
  - eapply elem_of_zip_l, Hin.
  - eapply elem_of_zip_r, Hin.
Qed.

(** X15.  For "pie" or "doughnut" (in any letter case) on two different
    columns that are numeric once the dataset (distinct column names) is
    normalised, the call raises KeyError "scales": the branch builds its
    entries and pops the scales, and line 110 then looks them up. *)
Theorem create_chartjs_data_pie_scales (r : ref) (h : heap) (d : DataFrame)
    (l v : string) (chart_type : string) :
  h !! r = Some d -> List.NoDup (columns d) -> l <> v ->
  str_in (lower chart_type) ["pie"; "doughnut"] = true ->
  numeric_in (normalize_frame numeric_of_str d) l ->
  numeric_in (normalize_frame numeric_of_str d) v ->
  fst (create_chartjs_data numeric_of_str int_of_str float_of_str
         r [l; v] chart_type h) = Raise (KeyError "scales").
Proof.
  intros Hr Hnd Hne Hty Hl Hv. unfold create_chartjs_data.
  unfold mbind at 1, Py_bind.
  rewrite (convert_to_numeric_run _ _ r h d Hr Hnd).
  set (n := normalize_frame numeric_of_str d) in *.
  assert (Hall : Forall (numeric_in n) [l; v]) by (repeat constructor; assumption).
  destruct (remove_outliers_all_numeric [l; v] r (<[r := n]> h) n)
    as (r' & h' & w & E & Hr' & Hcol & Hnum); [|exact Hall|].
  { apply list_lookup_insert_eq. eapply lookup_lt_Some, Hr. }
  unfold mbind at 1, Py_bind. rewrite E.
  unfold mbind at 1, Py_bind, deref. rewrite Hr'.
  change (default ([] : DataFrame) (Some w)) with w.
  rewrite no_missing_columns.
  2:{ rewrite Hcol. eapply Forall_impl; [exact Hall|].
      intros c. apply numeric_in_columns. }
  rewrite Hty.
  destruct (Hnum l Hl) as (sl & Hsl & Hln).
  destruct (Hnum v Hv) as (sv & Hsv & Hvn).
  destruct (pie_rows_numeric l v sl sv (zip (tolist sl) (tolist sv))
              Hne Hln Hvn (zip_cells _ _) []) as (d0 & Hd0).
  py_unfold. rewrite !Hr'. change (default ([] : DataFrame) (Some w)) with w.
  unfold frame_get. rewrite Hsl, Hsv.
  cbn [data set_data set_valuesKey set_labelsKey initial_chart_data].
  rewrite Hd0. reflexivity.
Qed.

End PieChart.

Lemma create_chartjs_data_pie_scales_witness :
  fst (create_chartjs_data decimal_num decimal_int decimal_float
         0%nat ["region"; "sales"] "Doughnut" [sales_csv])
  = Raise (KeyError "scales").
Proof.
  apply (create_chartjs_data_pie_scales decimal_num decimal_int decimal_float
           0%nat [sales_csv] sales_csv "region" "sales" "Doughnut").
  - reflexivity.
  - unfold sales_csv, columns; simpl. distinct_names.
  - discriminate.
  - reflexivity.
  - eexists. split; vm_compute; reflexivity.
  - eexists. split; vm_compute; reflexivity.
Defined.

(** ** The summary of the agent *)

Lemma rfind_from_spec (c : ascii) (s : string) :
  forall i last : Z,
    (~ In c (list_ascii_of_string s) /\ rfind_from c s i last = last)
    \/ (exists pre post : string,
          s = (pre ++ String c post)%string
          /\ ~ In c (list_ascii_of_string post)
          /\ rfind_from c s i last = i + Z.of_nat (String.length pre)).
Proof.
  induction s as [|a s IH]; intros i last; simpl.
  - left. auto.
  - destruct (IH (i + 1) (if Ascii.eqb a c then i else last))
      as [[Hno E]|(pre & post & -> & Hno & E)].
    + destruct (Ascii.eqb a c) eqn:Eac.
      * apply Ascii.eqb_eq in Eac as ->. right. exists "", s.
        split; [reflexivity|]. split; [exact Hno|]. rewrite E. simpl. lia.
      * apply Ascii.eqb_neq in Eac. left. split; [|exact E].
        intros [H|H]; [congruence | exact (Hno H)].
    + right. exists (String a pre), post.
      split; [reflexivity|]. split; [exact Hno|]. rewrite E. simpl String.length. lia.
Qed.

Lemma substring_prefix (pre post : string) :
  String.substring 0 (String.length pre) (pre ++ post) = pre.
Proof.
  induction pre as [|a pre IH]; simpl.
  - destruct post; reflexivity.
  - rewrite IH. reflexivity.
Qed.

(** X16.  [shorten_response] either finds no comma in the text and
    returns the text unchanged, or returns what stands before the last
    comma: the text is the result, a comma, and a rest without comma. *)
Theorem shorten_response_last_comma (s : string) :
  (~ In ","%char (list_ascii_of_string s) /\ shorten_response s = s)
  \/ (exists rest : string,
        s = (shorten_response s ++ String "," rest)%string
        /\ ~ In ","%char (list_ascii_of_string rest)).
Proof.
  unfold shorten_response.
  destruct (rfind_from_spec "," s 0 (-1)) as [[Hno ->]|(pre & post & -> & Hno & ->)].
  - left. auto.
  - right. exists post.
    replace (negb (0 + Z.of_nat (String.length pre) =? -1)) with true
      by (symmetry; apply negb_true_iff, Z.eqb_neq; lia).
    rewrite Z.add_0_l, Nat2Z.id, substring_prefix. auto.
Qed.

(** ** The sanitiser of uploaded datasets *)

#[local] Arguments startswith : simpl never.

Lemma startswith_formula (t : string) :
  startswith t ["="; "+"; "-"; "@"] = true <-> formula_like t.
Proof.
  unfold startswith, formula_like. rewrite existsb_exists. split.
  - intros (p & Hp & Hpre). apply prefix_iff in Hpre as [post ->].
    simpl in Hp. destruct Hp as [<-|[<-|[<-|[<-|[]]]]]; simpl;
      eexists _, post; (split; [reflexivity|]); simpl; auto.
  - intros (c & rest & -> & Hc).
    exists (String c ""). split.
    + simpl in Hc. destruct Hc as [<-|[<-|[<-|[<-|[]]]]]; simpl; auto.
    + apply prefix_iff. exists rest. reflexivity.
Qed.

Lemma sanitized_safe (t : string) : ~ formula_like (sanitized t).
Proof.
  unfold sanitized.
  destruct (startswith t ["="; "+"; "-"; "@"]) eqn:E.
  - intros (c & rest & [= <- _] & Hc). simpl in Hc.
    destruct Hc as [H|[H|[H|[H|[]]]]]; discriminate.
  - intros H. apply startswith_formula in H. congruence.
Qed.

Lemma sanitize_cell_idempotent (v : value) :
  sanitize_cell (sanitize_cell v) = sanitize_cell v.
Proof.
  destruct v as [t|z|f]; simpl; try reflexivity.
  destruct (startswith t ["="; "+"; "-"; "@"]) eqn:E.
  - reflexivity.
  - simpl. rewrite E. reflexivity.
Qed.

Lemma text_cells_sanitize (l : list value) :
  omap (fun v => match v with VStr t => Some t | _ => None end)
       (map sanitize_cell l)
  = map sanitized
        (omap (fun v => match v with VStr t => Some t | _ => None end) l).
Proof.
  induction l as [|[t|z|f] l IH]; simpl; try exact IH; [reflexivity|].
  unfold sanitized.
  destruct (startswith t ["="; "+"; "-"; "@"]); simpl; f_equal; exact IH.
Qed.

Lemma no_text_cells (l : list value) :
  existsb value_is_str l = false ->
  omap (fun v => match v with VStr t => Some t | _ => None end) l = [].
Proof.
  induction l as [|[t|z|f] l IH]; simpl; auto. discriminate.
Qed.

Lemma text_cells_infer_objects (l : list value) :
  text_cells (infer_objects l)
  = omap (fun v => match v with VStr t => Some t | _ => None end) l.
Proof.
  unfold infer_objects, text_cells.
  destruct (existsb value_is_str l) eqn:E; [reflexivity|].
  rewrite (no_text_cells l E).
  destruct (forallb value_is_int l); simpl tolist.
  - generalize (map value_int_part l). intros zs.
    induction zs as [|z zs IH]; [reflexivity | exact IH].
  - generalize (map value_to_float l). intros fs.
    induction fs as [|f fs IH]; [reflexivity | exact IH].
Qed.

Lemma assoc_map_snd {V W} (f : V -> W) (c : string) (d : list (string * V)) :
  assoc c (map (fun cs => (fst cs, f (snd cs))) d) = option_map f (assoc c d).
Proof.
  induction d as [|[c' s] d IH]; simpl; [reflexivity|].
  destruct (String.eqb c c'); [reflexivity | exact IH].
Qed.

Lemma text_cells_no_cell (s : Series) :
  series_len s = 0%nat -> text_cells s = [].
Proof.
  destruct s as [[|]|[|]|[|]]; simpl; try discriminate; reflexivity.
Qed.

Lemma frame_empty_nrows (d : DataFrame) :
  frame_empty d = true -> nrows d = 0%nat.
Proof.
  destruct d as [|[c s] d]; simpl; [reflexivity|]. apply Nat.eqb_eq.
Qed.

(** X17.  On a dataset whose columns have one length,
    [sanitize_for_csv_injection] returns a new dataset and leaves the
    input as it was.  The new dataset has the column names of the input,
    unsanitised; the text cells of each column are those of the input
    column, in order, each one behind a tab when it began with "=", "+",
    "-" or "@" and unchanged otherwise; so no text cell of the result
    begins with one of those characters. *)
Theorem sanitize_for_csv_injection_safe (r : ref) (h : heap) (d : DataFrame) :
  h !! r = Some d -> same_length d ->
  exists d' : DataFrame,
    sanitize_for_csv_injection r h = (Return (length h), h ++ [d'])
    /\ columns d' = columns d
    /\ forall c s', assoc c d' = Some s' ->
         Forall (fun t => ~ formula_like t) (text_cells s')
         /\ exists s, assoc c d = Some s
                      /\ text_cells s' = map sanitized (text_cells s).
Proof.
  intros Hr Hlen. unfold sanitize_for_csv_injection. py_unfold.
  rewrite Hr. simpl default. eexists. split; [reflexivity|].
  unfold applymap. destruct (frame_empty d) eqn:He.
  - split; [reflexivity|]. intros c s' Hc.
    assert (Hs : text_cells s' = []).
    { apply text_cells_no_cell.
      rewrite (same_length_assoc d c s' Hlen Hc). apply frame_empty_nrows, He. }
    rewrite Hs. split; [constructor|]. exists s'. rewrite Hs. auto.
  - split; [unfold columns; rewrite map_map; reflexivity|].
    intros c s' Hc.
    rewrite (assoc_map_snd (fun s => infer_objects (map sanitize_cell (tolist s))))
      in Hc.
    destruct (assoc c d) as [s|]; [|discriminate]. injection Hc as <-.
    rewrite text_cells_infer_objects, text_cells_sanitize.
    split; [|exists s; auto].
    apply List.Forall_forall. intros t Ht.
    apply in_map_iff in Ht as (t0 & <- & _). apply sanitized_safe.
Qed.

Lemma sanitize_for_csv_injection_safe_witness :
  exists d' : DataFrame,
    sanitize_for_csv_injection 0%nat
      [[("=name", Object [VStr "=2+3"; VStr "ok"]);
        ("delta", Object [VStr "-5"; VFloat NaN])]]
    = (Return 1%nat,
       [[("=name", Object [VStr "=2+3"; VStr "ok"]);
         ("delta", Object [VStr "-5"; VFloat NaN])]] ++ [d'])
    /\ columns d' = ["=name"; "delta"]
    /\ forall c s', assoc c d' = Some s' ->
         Forall (fun t => ~ formula_like t) (text_cells s')
         /\ exists s,
              assoc c [("=name", Object [VStr "=2+3"; VStr "ok"]);
                       ("delta", Object [VStr "-5"; VFloat NaN])] = Some s
              /\ text_cells s' = map sanitized (text_cells s).
Proof.
  apply (sanitize_for_csv_injection_safe 0%nat
           [[("=name", Object [VStr "=2+3"; VStr "ok"]);
             ("delta", Object [VStr "-5"; VFloat NaN])]]
           [("=name", Object [VStr "=2+3"; VStr "ok"]);
            ("delta", Object [VStr "-5"; VFloat NaN])]).
  - reflexivity.
  - repeat constructor.
Defined.

Lemma infer_objects_ints (zs : list Z) :
  infer_objects (map VInt zs) = Int64 zs.
Proof.
  unfold infer_objects.
  assert (E1 : existsb value_is_str (map VInt zs) = false)
    by (induction zs as [|z zs IH]; [reflexivity | exact IH]).
  assert (E2 : forallb value_is_int (map VInt zs) = true)
    by (clear E1; induction zs as [|z zs IH]; [reflexivity | exact IH]).
  rewrite E1, E2, map_map. f_equal. apply map_id.
Qed.

Lemma infer_objects_floats (fs : list pyfloat) :
  fs <> [] -> infer_objects (map VFloat fs) = Float64 fs.
Proof.
  intros Hne. unfold infer_objects.
  assert (E1 : existsb value_is_str (map VFloat fs) = false)
    by (clear Hne; induction fs as [|f fs IH]; [reflexivity | exact IH]).
  assert (E2 : forallb value_is_int (map VFloat fs) = false)
    by (destruct fs; [congruence | reflexivity]).
  rewrite E1, E2, map_map. f_equal. apply map_id.
Qed.

Lemma infer_objects_cases (l : list value) :
  infer_objects l = Object l
  \/ (exists zs, infer_objects l = Int64 zs)
  \/ (exists fs, fs <> [] /\ infer_objects l = Float64 fs).
Proof.
  unfold infer_objects.
  destruct (existsb value_is_str l); [auto|].
  destruct (forallb value_is_int l) eqn:Ei; [eauto|].
  right. right. eexists. split; [|reflexivity].
  destruct l; [discriminate | discriminate].
Qed.

Lemma infer_objects_idempotent (l : list value) :
  infer_objects (map sanitize_cell (tolist (infer_objects (map sanitize_cell l))))
  = infer_objects (map sanitize_cell l).
Proof.
  set (l' := map sanitize_cell l).
  assert (Hl' : map sanitize_cell l' = l').
  { unfold l'. rewrite map_map. apply map_ext. apply sanitize_cell_idempotent. }
  destruct (infer_objects_cases l') as [E|[(zs & E)|(fs & Hne & E)]];
    rewrite E; simpl tolist.
  - rewrite Hl'. exact E.
  - rewrite map_map. apply infer_objects_ints.
  - rewrite map_map. apply infer_objects_floats, Hne.
Qed.

(** X18.  The sanitiser is idempotent: applied to its own result it
    returns a dataset equal to that result, so a cell is never given a
    second tab. *)
Theorem sanitize_for_csv_injection_idempotent (r : ref) (h : heap)
    (d : DataFrame) :
  h !! r = Some d ->
  exists d' : DataFrame,
    sanitize_for_csv_injection r h = (Return (length h), h ++ [d'])
    /\ sanitize_for_csv_injection (length h) (h ++ [d'])
       = (Return (S (length h)), (h ++ [d']) ++ [d']).
Proof.
  intros Hr. unfold sanitize_for_csv_injection. py_unfold.
  rewrite Hr. simpl default. eexists. split; [reflexivity|].
  rewrite lookup_app_r, Nat.sub_diag by lia. simpl default.
  rewrite length_app, Nat.add_1_r. do 3 f_equal.
  unfold applymap. destruct (frame_empty d) eqn:He; [rewrite He; reflexivity|].
  assert (He' : frame_empty
                  (map (fun cs => (fst cs, infer_objects (map sanitize_cell (tolist (snd cs))))) d)
                = false).
  { destruct d as [|[c s] d]; [discriminate|]. simpl in *.
    rewrite <- He. f_equal. rewrite <- length_tolist.
    unfold infer_objects.
    destruct (existsb _ _); [|destruct (forallb _ _)]; simpl;
      rewrite ?length_map, ?length_tolist; reflexivity. }
  rewrite He', map_map. apply map_ext. intros [c s]. simpl. f_equal.
  apply infer_objects_idempotent.
Qed.

Lemma sanitize_for_csv_injection_idempotent_witness :
  exists d' : DataFrame,
    sanitize_for_csv_injection 0%nat
      [[("delta", Object [VStr "-5"; VStr "@x"; VStr "7"])]]
    = (Return 1%nat, [[("delta", Object [VStr "-5"; VStr "@x"; VStr "7"])]] ++ [d'])
    /\ sanitize_for_csv_injection 1%nat
         ([[("delta", Object [VStr "-5"; VStr "@x"; VStr "7"])]] ++ [d'])
       = (Return 2%nat,
          ([[("delta", Object [VStr "-5"; VStr "@x"; VStr "7"])]] ++ [d']) ++ [d']).
Proof.
  apply (sanitize_for_csv_injection_idempotent 0%nat
           [[("delta", Object [VStr "-5"; VStr "@x"; VStr "7"])]]
           [("delta", Object [VStr "-5"; VStr "@x"; VStr "7"])]).
  reflexivity.
Defined.

(** ** The output of the language model, cleaned *)

Lemma str_app_assoc (a b c : string) :
  ((a ++ b) ++ c = a ++ (b ++ c))%string.
Proof. induction a as [|x a IH]; simpl; [reflexivity|]. rewrite IH. reflexivity. Qed.

Lemma str_app_nil_r (a : string) : (a ++ "" = a)%string.
Proof. induction a as [|x a IH]; simpl; [reflexivity|]. rewrite IH. reflexivity. Qed.

Lemma str_length_app (a b : string) :
  String.length (a ++ b) = (String.length a + String.length b)%nat.
Proof. induction a as [|x a IH]; simpl; [reflexivity|]. rewrite IH. reflexivity. Qed.

Lemma lstrip_decompose (s : string) :
  exists a, s = (a ++ lstrip s)%string.
Proof.
  induction s as [|c s [a IH]]; simpl.
  - exists "". reflexivity.
  - destruct (is_space c).
    + exists (String c a). simpl. rewrite <- IH. reflexivity.
    + exists "". reflexivity.
Qed.

Lemma rstrip_decompose (s : string) :
  exists b, s = (rstrip s ++ b)%string.
Proof.
  induction s as [|c s [b IH]]; simpl.
  - exists "". reflexivity.
  - destruct (rstrip s) as [|d r] eqn:E.
    + destruct (is_space c).
      * exists (String c s). reflexivity.
      * exists s. reflexivity.
    + exists b. simpl in *. rewrite <- IH. reflexivity.
Qed.

Lemma strip_decompose (s : string) :
  exists a b, s = (a ++ strip s ++ b)%string.
Proof.
  unfold strip. destruct (lstrip_decompose s) as [a Ha].
  destruct (rstrip_decompose (lstrip s)) as [b Hb].
  exists a, b. rewrite <- Hb. exact Ha.
Qed.

Lemma lstrip_head (s : string) (c : ascii) (rest : string) :
  lstrip s = String c rest -> is_space c = false.
Proof.
  induction s as [|a s IH]; simpl; [discriminate|].
  destruct (is_space a) eqn:E; [exact IH|]. intros [= <- _]. exact E.
Qed.

Lemma rstrip_head (s : string) (c : ascii) (rest : string) :
  rstrip s = String c rest -> exists rest', s = String c rest'.
Proof.
  destruct s as [|a s]; simpl; [discriminate|].
  destruct (rstrip s); [destruct (is_space a); [discriminate|]|];
    intros [= <- _]; eauto.
Qed.

Lemma rstrip_last (s pre : string) (c : ascii) :
  rstrip s = (pre ++ String c "")%string -> is_space c = false.
Proof.
  revert pre. induction s as [|a s IH]; intros pre; simpl.
  - destruct pre; discriminate.
  - destruct (rstrip s) as [|b r] eqn:E.
    + destruct (is_space a) eqn:Ea; [destruct pre; discriminate|].
      destruct pre as [|p pre]; simpl.
      * intros [= <-]. exact Ea.
      * intros [= _ H]. destruct pre; discriminate.
    + destruct pre as [|p pre]; simpl; [discriminate|].
      intros [= _ H]. exact (IH pre H).
Qed.

Lemma strip_no_outer_space (s : string) : no_outer_space (strip s).
Proof.
  unfold strip. split.
  - intros c rest H. destruct (rstrip_head _ _ _ H) as [rest' H'].
    exact (lstrip_head s c rest' H').
  - intros pre c H. exact (rstrip_last _ _ _ H).
Qed.

Lemma truncate_at_stop_stripped (stop : list string) (x t : string) :
  truncate_at_stop stop (strip x) = Return t -> exists y, t = strip y.
Proof.
  induction stop as [|s stop IH]; simpl.
  - intros [= <-]. eauto.
  - destruct (negb (find (strip x) s =? -1)); [|exact IH].
    destruct s; [discriminate|]. intros [= <-]. eauto.
Qed.

Lemma echo_removed_stripped (prompt stdout : string) :
  exists x, echo_removed prompt stdout = strip x.
Proof.
  unfold echo_removed. destruct (String.prefix _ _); eauto.
Qed.

Lemma _call_echo_removed (prompt : string) (stop : option (list string))
    (stdout : string) :
  _call prompt stop stdout
  = match match stop with
          | Some stop => truncate_at_stop stop (echo_removed prompt stdout)
          | None => Return (echo_removed prompt stdout)
          end
    with
    | Return output => inl output
    | Raise e => inr (RuntimeError ("An unexpected error occurred: " ++ exn_str e)%string)
    end.
Proof. reflexivity. Qed.

(** X19.  Whatever the prompt, the stop sequences and the output of the
    process, a text that [_call] returns has no whitespace at either
    end. *)
Theorem call_no_outer_space (prompt : string) (stop : option (list string))
    (stdout t : string) :
  _call prompt stop stdout = inl t -> no_outer_space t.
Proof.
  rewrite _call_echo_removed.
  destruct (echo_removed_stripped prompt stdout) as [x ->].
  destruct stop as [stop|].
  - destruct (truncate_at_stop stop (strip x)) as [t'|e] eqn:E; [|discriminate].
    intros [= <-]. apply truncate_at_stop_stripped in E as [y ->].
    apply strip_no_outer_space.
  - intros [= <-]. apply strip_no_outer_space.
Qed.

Lemma call_no_outer_space_witness :
  no_outer_space "a bar chart".
Proof.
  apply (call_no_outer_space "Answer: " (Some ["User:"])
           "  Answer:  a bar chart  User: thanks " "a bar chart").
  vm_compute. reflexivity.
Defined.

(** The loop over the stop sequences, by cases. *)
Lemma truncate_at_stop_spec (stop : list string) (out : string) :
  match truncate_at_stop stop out with
  | Return t =>
      (Forall (fun s => ~ occurs s out) stop /\ t = out)
      \/ (exists pre s post before after,
            stop = pre ++ s :: post
            /\ Forall (fun p => ~ occurs p out) pre
            /\ s <> ""
            /\ out = (before ++ s ++ after)%string
            /\ (forall j, occurs_at s out j -> (String.length before <= j)%nat)
            /\ t = strip before)
  | Raise e =>
      e = ValueError "empty separator"
      /\ exists pre post,
           stop = pre ++ "" :: post /\ Forall (fun p => ~ occurs p out) pre
  end.
Proof.
  induction stop as [|s stop IH]; simpl.
  - left. auto.
  - destruct (find_spec out s) as [[Hf Hno]|(i & Hf & Hi & Hmin)]; rewrite Hf.
    + simpl. destruct (truncate_at_stop stop out) as [t|e].
      * destruct IH as [[Hall ->]|(pre & s' & post & before & after & -> & Hpre & H)].
        -- left. auto.
        -- right. exists (s :: pre), s', post, before, after. auto.
      * destruct IH as (-> & pre & post & -> & Hpre).
        split; [reflexivity|]. exists (s :: pre), post. auto.
    + replace (negb (Z.of_nat i =? -1)) with true
        by (symmetry; apply negb_true_iff, Z.eqb_neq; lia).
      destruct s as [|c s].
      * split; [reflexivity|]. exists [], stop. auto.
      * right. destruct Hi as (before & after & Hout & Hlen).
        exists [], (String c s), stop, before, after.
        split; [reflexivity|]. split; [constructor|]. split; [discriminate|].
        split; [exact Hout|]. split; [rewrite Hlen; exact Hmin|].
        rewrite Nat2Z.id, <- Hlen. f_equal.
        rewrite Hout at 1. apply substring_prefix.
Qed.

Lemma strip_keeps_out (s before after out : string) :
  s <> "" -> out = (before ++ s ++ after)%string ->
  (forall j, occurs_at s out j -> (String.length before <= j)%nat) ->
  ~ occurs s (strip before).
Proof.
  intros Hne Hout Hmin (j & p1 & p2 & Ht & Hj).
  destruct (strip_decompose before) as (a & b & Hb).
  assert (Hocc : occurs_at s out (String.length (a ++ p1))).
  { exists (a ++ p1)%string, (p2 ++ b ++ s ++ after)%string.
    split; [|reflexivity].
    rewrite Hout, Hb, Ht, !str_app_assoc. reflexivity. }
  apply Hmin in Hocc.
  assert (Hl : String.length before
               = (String.length a + (String.length p1 + (String.length s
                  + String.length p2)) + String.length b)%nat).
  { rewrite Hb at 1. rewrite Ht, !str_length_app. lia. }
  rewrite str_length_app in Hocc.
  destruct s; [congruence|]. simpl in Hl. lia.
Qed.

(** X20.  [_call] with stop sequences, by cases on what comes out of
    lines 103-109 (the stripped output without the echoed prompt).  When
    no stop sequence occurs in it, it is returned as it is.  Otherwise
    only the first stop sequence of the list that occurs counts: when it
    is not empty, the text before its first occurrence is returned,
    stripped, and that stop sequence does not occur in the result; when
    it is empty, the call raises the RuntimeError "An unexpected error
    occurred: empty separator". *)
Theorem call_stop (prompt : string) (stop : list string) (stdout : string) :
  let out := echo_removed prompt stdout in
  match _call prompt (Some stop) stdout with
  | inl t =>
      (Forall (fun s => ~ occurs s out) stop /\ t = out)
      \/ (exists pre s post before after,
            stop = pre ++ s :: post
            /\ Forall (fun p => ~ occurs p out) pre
            /\ s <> ""
            /\ out = (before ++ s ++ after)%string
            /\ (forall j, occurs_at s out j -> (String.length before <= j)%nat)
            /\ t = strip before
            /\ ~ occurs s t)
  | inr e =>
      e = RuntimeError "An unexpected error occurred: empty separator"
      /\ exists pre post,
           stop = pre ++ "" :: post /\ Forall (fun p => ~ occurs p out) pre
  end.
Proof.
  intros out. rewrite _call_echo_removed. fold out.
  pose proof (truncate_at_stop_spec stop out) as H.
  destruct (truncate_at_stop stop out) as [t|e].
  - destruct H as [H|(pre & s & post & before & after & H1 & H2 & H3 & H4 & H5 & H6)];
      [left; exact H|].
    right. exists pre, s, post, before, after.
    repeat (split; [assumption|]). rewrite H6.
    exact (strip_keeps_out s before after out H3 H4 H5).
  - destruct H as [-> H]. split; [reflexivity | exact H].
Qed.

(** *** The echo of the prompt *)

Lemma rstrip_app (p a : string) :
  rstrip a <> "" -> rstrip (p ++ a) = (p ++ rstrip a)%string.
Proof.
  intros Hne. induction p as [|c p IH]; simpl; [reflexivity|].
  rewrite IH. destruct (p ++ rstrip a)%string eqn:E; [|reflexivity].
  destruct p; simpl in E; [congruence | discriminate].
Qed.

Lemma rstrip_visible (a : string) : visible a -> rstrip a <> "".
Proof.
  intros (pre & c & post & -> & Hc).
  assert (H : rstrip (String c post) <> "").
  { simpl. destruct (rstrip post); [rewrite Hc|]; discriminate. }
  rewrite (rstrip_app pre _ H).
  destruct pre; simpl; [exact H | discriminate].
Qed.

Lemma rstrip_blank (a : string) : blank a -> rstrip a = "".
Proof.
  unfold blank. induction a as [|c a IH]; simpl; [reflexivity|].
  intros H. inversion H as [|? ? Hc Ha]; subst.
  rewrite (IH Ha), Hc. reflexivity.
Qed.

Lemma rstrip_app_blank (p a : string) :
  blank a -> rstrip (p ++ a) = rstrip p.
Proof.
  intros Ha. induction p as [|c p IH]; simpl.
  - apply rstrip_blank, Ha.
  - rewrite IH. reflexivity.
Qed.

Lemma rstrip_idempotent (a : string) : rstrip (rstrip a) = rstrip a.
Proof.
  induction a as [|c a IH]; simpl; [reflexivity|].
  destruct (rstrip a) as [|d r] eqn:E.
  - destruct (is_space c) eqn:Ec; simpl; [reflexivity|]. rewrite Ec. reflexivity.
  - change (rstrip (String c (String d r)))
      with (match rstrip (String d r) with
            | EmptyString => if is_space c then EmptyString else String c EmptyString
            | r' => String c r'
            end).
    rewrite IH. reflexivity.
Qed.

Lemma lstrip_rstrip (a : string) : lstrip (rstrip a) = rstrip (lstrip a).
Proof.
  induction a as [|c a IH]; simpl; [reflexivity|].
  destruct (is_space c) eqn:Ec.
  - destruct (rstrip a) as [|d r] eqn:E; simpl.
    + rewrite <- IH. reflexivity.
    + rewrite Ec. exact IH.
  - destruct (rstrip a) as [|d r] eqn:E; simpl; rewrite Ec, ?E; reflexivity.
Qed.

Lemma strip_rstrip (a : string) : strip (rstrip a) = strip a.
Proof. unfold strip. rewrite lstrip_rstrip, rstrip_idempotent. reflexivity. Qed.

Lemma lstrip_idempotent (a : string) : lstrip (lstrip a) = lstrip a.
Proof.
  induction a as [|c a IH]; simpl; [reflexivity|].
  destruct (is_space c) eqn:Ec; [exact IH|]. simpl. rewrite Ec. reflexivity.
Qed.

Lemma strip_idempotent (a : string) : strip (strip a) = strip a.
Proof.
  unfold strip.
  rewrite lstrip_rstrip, rstrip_idempotent, lstrip_idempotent. reflexivity.
Qed.

Lemma substring_all (s : string) : String.substring 0 (String.length s) s = s.
Proof. induction s as [|c s IH]; simpl; [reflexivity|]. rewrite IH. reflexivity. Qed.

Lemma str_from_app (p x : string) : str_from (String.length p) (p ++ x) = x.
Proof.
  unfold str_from. rewrite str_length_app.
  replace (String.length p + String.length x - String.length p)%nat
    with (String.length x) by lia.
  induction p as [|c p IH]; simpl; [apply substring_all | exact IH].
Qed.

Lemma prefix_app (p x : string) : String.prefix p (p ++ x) = true.
Proof. apply prefix_iff. exists x. reflexivity. Qed.

Lemma strip_no_leading (p a : string) (c : ascii) :
  is_space c = false ->
  strip (String c p ++ a) = rstrip (String c p ++ a).
Proof.
  intros Hc. unfold strip.
  change (lstrip (String c p ++ a))
    with (if is_space c then lstrip (p ++ a) else String c (p ++ a)).
  rewrite Hc. reflexivity.
Qed.

(** X21.  When the process echoes the prompt and then writes an answer
    with a visible character, [_call] without stop sequences returns the
    answer, stripped, provided the prompt does not begin with
    whitespace. *)
Theorem call_echo (prompt answer : string) :
  no_leading_space prompt -> visible answer ->
  _call prompt None (prompt ++ answer) = inl (strip answer).
Proof.
  intros Hp Ha. rewrite _call_echo_removed. f_equal. unfold echo_removed.
  destruct prompt as [|c p].
  - simpl String.append. simpl String.length.
    replace (String.prefix "" (strip answer)) with true
      by (destruct (strip answer); reflexivity).
    unfold str_from. rewrite Nat.sub_0_r, substring_all.
    apply strip_idempotent.
  - rewrite (strip_no_leading p answer c (Hp c p eq_refl)).
    rewrite (rstrip_app (String c p) answer (rstrip_visible answer Ha)).
    rewrite prefix_app, str_from_app. apply strip_rstrip.
Qed.

Lemma call_echo_witness :
  _call "Answer: " None ("Answer: " ++ " a bar chart of sales ")
  = inl (strip " a bar chart of sales ").
Proof.
  apply (call_echo "Answer: " " a bar chart of sales ").
  - intros c rest [= <- _]. reflexivity.
  - exists " ", "a"%char, " bar chart of sales ". split; reflexivity.
Defined.

Lemma prefix_length (p q : string) :
  String.prefix p q = true -> (String.length p <= String.length q)%nat.
Proof.
  intros H. apply prefix_iff in H as [x ->]. rewrite str_length_app. lia.
Qed.

Lemma rstrip_shorter (p : string) (w : ascii) :
  is_space w = true ->
  (String.length (rstrip (p ++ String w "")) < String.length (p ++ String w ""))%nat.
Proof.
  intros Hw. destruct (rstrip_decompose (p ++ String w "")) as [b Hb].
  assert (Hl : String.length (p ++ String w "")
               = (String.length (rstrip (p ++ String w "")) + String.length b)%nat).
  { rewrite Hb at 1. apply str_length_app. }
  destruct b as [|x b]; [|simpl in Hl; lia].
  rewrite str_app_nil_r in Hb. symmetry in Hb.
  apply rstrip_last in Hb. congruence.
Qed.

(** X22.  When the prompt ends in whitespace and does not begin with it,
    and the process echoes the prompt and adds nothing but whitespace,
    the echo is not recognised: [_call] without stop sequences returns
    the prompt itself, stripped, in place of the empty answer. *)
Theorem call_blank_answer (p : string) (w : ascii) (answer : string) :
  no_leading_space (p ++ String w "") -> is_space w = true -> blank answer ->
  _call (p ++ String w "") None ((p ++ String w "") ++ answer)
  = inl (strip (p ++ String w "")).
Proof.
  intros Hp Hw Ha. rewrite _call_echo_removed. f_equal. unfold echo_removed.
  set (prompt := (p ++ String w "")%string) in *.
  assert (Hs : strip (prompt ++ answer) = strip prompt).
  { destruct prompt as [|c q] eqn:E; [destruct p; discriminate|].
    rewrite (strip_no_leading q answer c (Hp c q eq_refl)).
    rewrite (rstrip_app_blank _ _ Ha).
    rewrite <- (str_app_nil_r (String c q)) at 2.
    rewrite (strip_no_leading q "" c (Hp c q eq_refl)), str_app_nil_r.
    reflexivity. }
  rewrite Hs.
  destruct (String.prefix prompt (strip prompt)) eqn:Epre; [|reflexivity].
  exfalso. apply prefix_length in Epre.
  assert (Hr : strip prompt = rstrip prompt).
  { destruct prompt as [|c q] eqn:E; [reflexivity|].
    rewrite <- (str_app_nil_r (String c q)) at 1.
    rewrite (strip_no_leading q "" c (Hp c q eq_refl)), str_app_nil_r.
    reflexivity. }
  rewrite Hr in Epre. pose proof (rstrip_shorter p w Hw) as Hlt.
  fold prompt in Hlt. lia.
Qed.

Lemma call_blank_answer_witness :
  _call ("Answer:" ++ String " " "") None (("Answer:" ++ String " " "") ++ String "010" "")
  = inl (strip ("Answer:" ++ String " " "")).
Proof.
  apply (call_blank_answer "Answer:" " " (String "010" "")).
  - intros c rest [= <- _]. reflexivity.
  - reflexivity.
  - repeat constructor.
Defined.

(** ** Float labels *)

Lemma Forall_select {A} (P : A -> Prop) (m : list bool) (l : list A) :
  Forall P l -> Forall P (select m l).
Proof.
  intros H. revert m. induction H as [|x l Hx Hl IH]; intros [|b m]; simpl;
    try constructor.
  destruct b; [constructor; auto | auto].
Qed.

Lemma finite_in_frame_select (m : list bool) (c : string) (d : DataFrame) :
  finite_in d c -> finite_in (frame_select m d) c.
Proof.
  intros (fs & H & Hfin). exists (select m fs).
  rewrite assoc_frame_select, H. split; [reflexivity|].
  apply Forall_select, Hfin.
Qed.

Lemma finite_in_numeric (d : DataFrame) (c : string) :
  finite_in d c -> numeric_in d c.
Proof. intros (fs & H & _). exists (Float64 fs). auto. Qed.

(** The outlier filter of a float column leaves no NaN in it. *)
Lemma kept_for_finite (d : DataFrame) (c : string) :
  float_in d c -> finite_in (kept_for d c) c.
Proof.
  intros (fs & H). unfold kept_for.
  rewrite H, (outlier_mask_numeric (Float64 fs) eq_refl).
  exists (select (map (fun v => within (fst (iqr_bounds (Float64 fs)))
                                  (snd (iqr_bounds (Float64 fs))) (Some v))
                      (tolist (Float64 fs))) fs).
  rewrite assoc_frame_select, H. split; [reflexivity|].
  simpl tolist. rewrite map_map, select_filter.
  apply List.Forall_forall. intros f Hf. apply filter_In in Hf as [_ Hw].
  destruct f; [discriminate|]. exfalso. unfold within, fle in Hw.
  destruct (fst (iqr_bounds (Float64 fs))); discriminate Hw.
Qed.

Lemma fold_kept_for_finite (cols : list string) (d : DataFrame) (c : string) :
  Forall (numeric_in d) cols -> finite_in d c ->
  finite_in (fold_left kept_for cols d) c.
Proof.
  revert d. induction cols as [|c0 cols IH]; intros d Hall Hfin; simpl; [exact Hfin|].
  inversion Hall as [|? ? Hc Hcols]; subst.
  destruct (kept_for_numeric d c0 Hc) as (m & ->).
  apply IH.
  - eapply Forall_impl; [exact Hcols|]. intros c1. apply numeric_in_frame_select.
  - apply finite_in_frame_select, Hfin.
Qed.

Lemma select_In {A} (x : A) (m : list bool) (l : list A) :
  In x (select m l) -> In x l.
Proof.
  revert l; induction m as [|b m IH]; intros [|y l]; simpl; try tauto.
  destruct b; simpl; intros H; [destruct H as [H|H]|]; auto.
Qed.

Lemma in_fst_zip {A B} (x : A) (a : list A) (b : list B) :
  In x (map fst (zip a b)) -> In x a.
Proof.
  revert b; induction a as [|y a IH]; intros [|z b]; simpl; try tauto.
  intros [H|H]; eauto.
Qed.

(** The cells a float column has after the outlier filters are cells it
    had before. *)
Lemma kept_for_float_cells (d : DataFrame) (c l : string) (fs : list pyfloat) :
  assoc l d = Some (Float64 fs) ->
  exists fs', assoc l (kept_for d c) = Some (Float64 fs')
              /\ forall f, In f fs' -> In f fs.
Proof.
  intros H. unfold kept_for. destruct (assoc c d) as [s|]; [|eauto].
  destruct (outlier_mask s) as [m|e]; [|eauto].
  exists (select m fs). rewrite assoc_frame_select, H.
  split; [reflexivity | intros f; apply select_In].
Qed.

Lemma fold_kept_for_float_cells (cols : list string) (d : DataFrame) (l : string)
    (fs : list pyfloat) :
  assoc l d = Some (Float64 fs) ->
  exists fs', assoc l (fold_left kept_for cols d) = Some (Float64 fs')
              /\ forall f, In f fs' -> In f fs.
Proof.
  revert d fs. induction cols as [|c cols IH]; intros d fs H; simpl; [eauto|].
  destruct (kept_for_float_cells d c l fs H) as (fs1 & H1 & Hs1).
  destruct (IH _ fs1 H1) as (fs2 & H2 & Hs2).
  exists fs2. split; [exact H2 | auto].
Qed.

Section FloatLabels.

Variable numeric_of_str : string -> option num.
Variable int_of_str : string -> option Z.
Variable float_of_str : string -> option pyfloat.

Lemma label_entries_floats (l : string) (fs : list pyfloat) :
  Forall (fun f => f <> NaN) fs ->
  label_entries int_of_str l (map VFloat fs)
  = Return (map (fun z => [(l, NInt z)]) (truncated (Float64 fs))).
Proof.
  induction 1 as [|f fs Hf Hfs IH]; simpl; [reflexivity|].
  destruct f as [q|]; [|congruence]. simpl in *. rewrite IH. reflexivity.
Qed.

Lemma create_chartjs_data_float_run (r : ref) (h : heap) (d : DataFrame)
    (l v : string) (rest : list string) (chart_type : string) :
  h !! r = Some d -> List.NoDup (columns d) -> same_length d -> l <> v ->
  str_in (lower chart_type) ["pie"; "doughnut"] = false ->
  float_in (normalize_frame numeric_of_str d) l ->
  Forall (numeric_in (normalize_frame numeric_of_str d)) (v :: rest) ->
  fst (create_chartjs_data numeric_of_str int_of_str float_of_str
         r (l :: v :: rest) chart_type h)
  = finish_chart (l :: v :: rest) l
      (set_data
         (map (entry l v)
              (truncated_pairs
                 (working_frame numeric_of_str d (l :: v :: rest)) l v))
         (set_valuesKey v (set_labelsKey l (initial_chart_data chart_type)))).
Proof.
  intros Hr Hnd Hlen Hne Hty Hl Hnum. unfold create_chartjs_data.
  unfold mbind at 1, Py_bind.
  rewrite (convert_to_numeric_run _ _ r h d Hr Hnd).
  unfold working_frame. set (n := normalize_frame numeric_of_str d) in *.
  assert (Hln : numeric_in n l).
  { destruct Hl as (fs & Hfs). exists (Float64 fs). auto. }
  assert (Hall : Forall (numeric_in n) (l :: v :: rest)).
  { constructor; [exact Hln | exact Hnum]. }
  destruct (remove_outliers_all_kept (l :: v :: rest) r (<[r := n]> h) n)
    as (r' & h' & E & Hr'); [|exact Hall|].
  { apply list_lookup_insert_eq. eapply lookup_lt_Some, Hr. }
  destruct (fold_kept_for_shape (l :: v :: rest) n) as (Hw1 & Hw2 & _ & Hw4);
    [apply same_length_normalize_frame, Hlen | exact Hall |].
  assert (Hfin : finite_in (fold_left kept_for (l :: v :: rest) n) l).
  { change (fold_left kept_for (l :: v :: rest) n)
      with (fold_left kept_for (v :: rest) (kept_for n l)).
    destruct (kept_for_numeric n l Hln) as (m & Hm).
    apply fold_kept_for_finite; [|apply kept_for_finite, Hl].
    rewrite Hm. eapply Forall_impl; [exact Hnum|].
    intros c. apply numeric_in_frame_select. }
  set (w := fold_left kept_for (l :: v :: rest) n) in *.
  unfold mbind at 1, Py_bind. rewrite E.
  unfold mbind at 1, Py_bind, deref. rewrite Hr'.
  change (default ([] : DataFrame) (Some w)) with w.
  rewrite no_missing_columns.
  2:{ rewrite Hw2. eapply Forall_impl; [exact Hall|].
      intros c. apply numeric_in_columns. }
  rewrite Hty.
  destruct Hfin as (fsw & Hlw & Hfsw).
  inversion Hnum as [|? ? Hv Hrest]; subst.
  destruct (Hw4 v Hv) as (svw & Hvw & Hvn).
  assert (Hsame : length (truncated (Float64 fsw)) = length (tolist svw)).
  { simpl. rewrite length_map, length_tolist, (same_length_assoc w v svw Hw1 Hvw).
    change (length fsw) with (series_len (Float64 fsw)).
    apply (same_length_assoc w l _ Hw1 Hlw). }
  assert (Hfill : fill_values int_of_str float_of_str v svw (tolist svw) 0
                    (map (fun z => [(l, NInt z)]) (truncated (Float64 fsw)))
                  = Return (map (entry l v)
                              (zip (truncated (Float64 fsw)) (numbers svw)))).
  { apply (fill_values_entries int_of_str float_of_str l v svw (tolist svw)
             (numbers svw) Hne (coerce_numbers int_of_str float_of_str svw Hvn)
             (truncated (Float64 fsw)) [] Hsame). }
  assert (Hp : truncated_pairs w l v = zip (truncated (Float64 fsw)) (numbers svw)).
  { unfold truncated_pairs. rewrite Hlw, Hvw. reflexivity. }
  rewrite Hp.
  destruct rest as [|v2 rest]; [|simpl first_numeric_column]; py_unfold;
    rewrite !Hr'; change (default ([] : DataFrame) (Some w)) with w;
    unfold frame_get; rewrite Hlw; simpl tolist;
    rewrite (label_entries_floats l fsw Hfsw), Hvw, ?Hvn, ?Hr';
    change (default ([] : DataFrame) (Some w)) with w; rewrite ?Hvw;
    cbn [data set_data set_valuesKey set_labelsKey];
    rewrite Hfill; reflexivity.
Qed.

(** X24.  When the label column is a float column once the dataset is
    normalised (it holds a fraction or a NaN; cells of magnitude at most
    2^53), on a dataset with distinct column names and columns of one
    length, the other selected columns being numeric once normalised and
    the first two names different: [int()] never fails on a label.  The
    call either returns a payload whose labels, in strictly ascending
    order, are each the integer part (truncation toward zero) of a
    finite cell of the label column, every entry holding its label and a
    float under the name of the first value column; or, when no row
    survives the outlier filters, it raises KeyError with the name of
    the label column. *)
Theorem create_chartjs_data_float_labels (r : ref) (h : heap) (d : DataFrame)
    (l v : string) (rest : list string) (chart_type : string)
    (fs : list pyfloat) :
  h !! r = Some d -> List.NoDup (columns d) -> same_length d -> l <> v ->
  str_in (lower chart_type) ["pie"; "doughnut"] = false ->
  assoc l (normalize_frame numeric_of_str d) = Some (Float64 fs) ->
  forallb exact_number (map NFloat fs) = true ->
  Forall (numeric_in (normalize_frame numeric_of_str d)) (v :: rest) ->
  let result :=
    fst (create_chartjs_data numeric_of_str int_of_str float_of_str
           r (l :: v :: rest) chart_type h) in
  result = Raise (KeyError l)
  \/ exists (c : ChartData) (zs : list Z),
       result = Return c
       /\ StronglySorted Z.lt zs
       /\ Forall (fun z => exists q : Q, In (Fin q) fs /\ z = Qtrunc q) zs
       /\ Forall2 (fun rec z => exists f : pyfloat,
                     rec = [(l, NInt z); (v, NFloat f)]) (data c) zs
       /\ labelsKey c = l
       /\ valuesKey c = v.
Proof.
  intros Hr Hnd Hlen Hne Hty Hl _ Hnum result. subst result.
  assert (Hfl : float_in (normalize_frame numeric_of_str d) l)
    by (exists fs; exact Hl).
  rewrite (create_chartjs_data_float_run r h d l v rest chart_type
             Hr Hnd Hlen Hne Hty Hfl Hnum).
  assert (Hfin : finite_in (working_frame numeric_of_str d (l :: v :: rest)) l).
  { unfold working_frame.
    change (fold_left kept_for (l :: v :: rest) (normalize_frame numeric_of_str d))
      with (fold_left kept_for (v :: rest)
              (kept_for (normalize_frame numeric_of_str d) l)).
    assert (Hln : numeric_in (normalize_frame numeric_of_str d) l).
    { exists (Float64 fs). auto. }
    destruct (kept_for_numeric _ l Hln) as (m & Hm).
    apply fold_kept_for_finite; [|apply kept_for_finite, Hfl].
    rewrite Hm. eapply Forall_impl; [exact Hnum|].
    intros c. apply numeric_in_frame_select. }
  destruct (fold_kept_for_float_cells (l :: v :: rest)
              (normalize_frame numeric_of_str d) l fs Hl) as (fsw & Hlw & Hsub).
  fold (working_frame numeric_of_str d (l :: v :: rest)) in Hlw.
  destruct Hfin as (fsw' & Hlw' & Hfinite).
  assert (fsw' = fsw) by congruence. subst fsw'. clear Hlw'.
  destruct (truncated_pairs (working_frame numeric_of_str d (l :: v :: rest)) l v)
    as [|p ps] eqn:Ep.
  - left. reflexivity.
  - right.
    destruct (finish_chart_entries l v (v :: rest)
                (set_data (map (entry l v) (p :: ps))
                   (set_valuesKey v (set_labelsKey l (initial_chart_data chart_type))))
                (p :: ps) Hne) as (c & zs & H1 & H2 & H3 & H4 & _ & H6 & H7 & _);
      [discriminate | discriminate | reflexivity |].
    exists c, zs. split; [exact H1|]. split; [exact H2|].
    split; [|split; [|split; [exact H6 | exact H7]]].
    + apply List.Forall_forall. intros z Hz. apply H3 in Hz.
      rewrite <- Ep in Hz. unfold truncated_pairs in Hz. rewrite Hlw in Hz.
      destruct (assoc v _); [|destruct Hz].
      apply in_fst_zip in Hz. simpl in Hz.
      apply in_map_iff in Hz as (f & <- & Hf).
      rewrite List.Forall_forall in Hfinite. specialize (Hfinite f Hf).
      destruct f as [q|]; [|congruence].
      exists q. split; [apply Hsub, Hf | reflexivity].
    + rewrite H4. clear. induction zs as [|z zs IH]; simpl; constructor;
        [eexists; reflexivity | exact IH].
Qed.

End FloatLabels.

Lemma create_chartjs_data_float_labels_witness :
  let result :=
    fst (create_chartjs_data decimal_num decimal_int decimal_float
           0%nat ["score"; "sales"] "line"
           [[("score", Float64 [Fin (6 # 5); Fin (17 # 10); NaN]);
             ("sales", Int64 [10; 30; 20])]]) in
  result = Raise (KeyError "score")
  \/ exists (c : ChartData) (zs : list Z),
       result = Return c
       /\ StronglySorted Z.lt zs
       /\ Forall (fun z => exists q : Q,
                    In (Fin q) [Fin (6 # 5); Fin (17 # 10); NaN] /\ z = Qtrunc q) zs
       /\ Forall2 (fun rec z => exists f : pyfloat,
                     rec = [("score", NInt z); ("sales", NFloat f)]) (data c) zs
       /\ labelsKey c = "score"
       /\ valuesKey c = "sales".
Proof.
  apply (create_chartjs_data_float_labels decimal_num decimal_int decimal_float
           0%nat
           [[("score", Float64 [Fin (6 # 5); Fin (17 # 10); NaN]);
             ("sales", Int64 [10; 30; 20])]]
           [("score", Float64 [Fin (6 # 5); Fin (17 # 10); NaN]);
            ("sales", Int64 [10; 30; 20])]
           "score" "sales" [] "line").
  - reflexivity.
  - unfold columns; simpl. distinct_names.
  - repeat constructor.
  - discriminate.
  - reflexivity.
  - vm_compute. reflexivity.
  - reflexivity.
  - repeat constructor. eexists. split; vm_compute; reflexivity.
Defined.

Example scenario_float_labels_merge :
  fst (call_create_chartjs_data
         [("score", Float64 [Fin (6 # 5); Fin (17 # 10); NaN]);
          ("sales", Int64 [10; 30; 20])] ["score"; "sales"] "line")
  = Return
      (set_data [[("score", NInt 1); ("sales", NFloat (Fin 20))]]
         (set_valuesKey "sales"
            (set_labelsKey "score"
               (set_options
                  {| scales := Some
                       {| y_axis := {| beginAtZero := Some true;
                                       title := {| display := true; text := "Value" |} |};
                          x_axis := {| beginAtZero := None;
                                       title := {| display := true; text := "score" |} |} |} |}
                  (initial_chart_data "line"))))).
Proof. vm_compute. reflexivity. Qed.

(** * Statements on the inputs where the arithmetic is exact

    The embedding computes with exact rationals and unbounded integers.
    The statements below that fix a computed value are made for inputs
    on which binary64 and int64 compute the same value without rounding
    or overflow; the others hold whatever the rounding. *)

(** ** The bounds of the outlier filter on a numeric column *)











(** On the cells 1, 2, 3, 4, 100 the percentiles are 2 and 4, the bounds
    -1 and 7, and the row of 100 is the one left out. *)
Example scenario_one_outlier_bounds :
  Qeq (interpolated (map inject_Z [1; 2; 3; 4; 100]) (1 # 4)) (inject_Z 2)
  /\ Qeq (interpolated (map inject_Z [1; 2; 3; 4; 100]) (3 # 4)) (inject_Z 4)
  /\ call_remove_outliers_iqr one_outlier "x" = Return [("x", Int64 [1; 2; 3; 4])].
Proof. repeat split; vm_compute; reflexivity. Qed.

(** A float column with halves and a missing value: the percentiles of
    0.5, 1, 1.5, 2 and 40.5 are 1 and 2, the bounds -0.5 and 3.5; the
    rows of 40.5 and of the missing value are left out. *)
Example scenario_float_outlier_bounds :
  forallb exact_cell [1 # 2; 1 # 1; 3 # 2; 2 # 1; 81 # 2] = true
  /\ Qeq (interpolated [1 # 2; 1 # 1; 3 # 2; 2 # 1; 81 # 2] (1 # 4)) (1 # 1)
  /\ Qeq (interpolated [1 # 2; 1 # 1; 3 # 2; 2 # 1; 81 # 2] (3 # 4)) (2 # 1)
  /\ call_remove_outliers_iqr
       [("x", Float64 [Fin (3 # 2); Fin (81 # 2); NaN; Fin (1 # 2); Fin (2 # 1);
                       Fin (1 # 1)])] "x"
     = Return [("x", Float64 [Fin (3 # 2); Fin (1 # 2); Fin (2 # 1); Fin (1 # 1)])].
Proof. repeat split; vm_compute; reflexivity. Qed.

(** ** The caller's dataset after the call *)

Section CallerFrame.

Variable numeric_of_str : string -> option num.
Variable int_of_str : string -> option Z.
Variable float_of_str : string -> option pyfloat.

(** What the type normaliser leaves behind a reference. *)
Lemma convert_to_numeric_at (r : ref) (h : heap) (d : DataFrame) :
  h !! r = Some d ->
  exists d1 : DataFrame,
    snd (convert_to_numeric numeric_of_str int_of_str r h) !! r = Some d1
    /\ columns d1 = columns d
    /\ column_lengths d1 = column_lengths d
    /\ (forall i : nat, i <> r ->
          snd (convert_to_numeric numeric_of_str int_of_str r h) !! i = h !! i).
Proof.
  intros Hr.
  assert (E : convert_to_numeric numeric_of_str int_of_str r h
              = (Return tt,
                 <[r := fold_left
                          (fun d c => frame_update c
                             (converted numeric_of_str int_of_str) d)
                          (columns d) d]> h)).
  { unfold convert_to_numeric. py_unfold. rewrite Hr. simpl.
    apply for_each_convert, Hr. }
  rewrite E. simpl. eexists.
  split; [apply list_lookup_insert_eq; eapply lookup_lt_Some, Hr|].
  split; [|split].
  - apply fold_frame_update_shape. intros s.
    rewrite converted_normalize. apply nrows_normalize_series.
  - apply fold_frame_update_shape. intros s.
    rewrite converted_normalize. apply nrows_normalize_series.
  - intros i Hi. apply list_lookup_insert_ne. congruence.
Qed.

(** After the normaliser the payload builder only allocates. *)
Lemma create_chartjs_data_after_convert (r : ref) (column_names : list string)
    (chart_type : string) (h : heap) :
  snd (convert_to_numeric numeric_of_str int_of_str r h)
  `prefix_of`
  snd (create_chartjs_data numeric_of_str int_of_str float_of_str
         r column_names chart_type h).
Proof.
  destruct (create_chartjs_data_split numeric_of_str int_of_str float_of_str
              r column_names chart_type) as (rest & Hg & ->).
  unfold mbind, Py_bind.
  pose proof (convert_to_numeric_returns numeric_of_str int_of_str r h) as Hc.
  destruct (convert_to_numeric numeric_of_str int_of_str r h) as [[[]|e] h1];
    simpl in Hc; [|discriminate].
  simpl. apply Hg.
Qed.

(** C6, as the code has it.  Whatever the column selection and the chart
    type, and whether the call returns or raises, the caller's dataset is
    afterwards what [convert_to_numeric] alone makes of it: the
    normaliser has rewritten it in place, with the same column names and
    as many cells in every column; nothing else has written to it and no
    row has been filtered out of it; every other dataset is as before. *)
Theorem create_chartjs_data_caller_frame (r : ref) (h : heap) (d : DataFrame)
    (column_names : list string) (chart_type : string) :
  h !! r = Some d ->
  (exists d1 : DataFrame,
     snd (convert_to_numeric numeric_of_str int_of_str r h) !! r = Some d1
     /\ snd (create_chartjs_data numeric_of_str int_of_str float_of_str
               r column_names chart_type h) !! r = Some d1
     /\ columns d1 = columns d
     /\ column_lengths d1 = column_lengths d)
  /\ (forall (r' : ref) (d0 : DataFrame),
         r' <> r -> h !! r' = Some d0 ->
         snd (create_chartjs_data numeric_of_str int_of_str float_of_str
                r column_names chart_type h) !! r' = Some d0).
Proof.
  intros Hr.
  destruct (convert_to_numeric_at r h d Hr) as (d1 & H1 & Hc & Hl & Ho).
  pose proof (create_chartjs_data_after_convert r column_names chart_type h) as Hp.
  split.
  - exists d1. split; [exact H1|]. split; [|auto].
    eapply prefix_lookup_Some; [exact H1 | exact Hp].
  - intros r' d0 Hne H0. eapply prefix_lookup_Some; [|exact Hp].
    rewrite Ho by exact Hne. exact H0.
Qed.

(** X23.  The dataset handed to [process_data_and_plot] is changed by the
    call exactly when the answer of the model mentions a chart type: if
    "bar", "line" or "pie" occurs in the answer, the dataset is
    afterwards what [convert_to_numeric] alone makes of it, whether the
    result carries a payload or an error; if none occurs, the heap is
    unchanged.  Every other dataset is as before in both cases. *)
Theorem process_data_and_plot_stored_dataset (df : ref) (raw : string)
    (h : heap) (d : DataFrame) :
  h !! df = Some d ->
  let h' := snd (process_data_and_plot numeric_of_str int_of_str float_of_str
                   df raw h) in
  (forall (r : ref) (d0 : DataFrame),
      r <> df -> h !! r = Some d0 -> h' !! r = Some d0)
  /\ (occurs "bar" raw \/ occurs "line" raw \/ occurs "pie" raw ->
      h' !! df = snd (convert_to_numeric numeric_of_str int_of_str df h) !! df)
  /\ (~ occurs "bar" raw -> ~ occurs "line" raw -> ~ occurs "pie" raw ->
      h' = h).
Proof.
  intros Hr.
  assert (Hct : List.NoDup (map fst found_chart_types)).
  { simpl. repeat constructor; simpl; intuition discriminate. }
  destruct (ranking_ranked raw found_chart_types Hct) as (Hmem & _).
  change (map fst found_chart_types) with ["bar"; "line"; "pie"] in Hmem.
  unfold process_data_and_plot. py_unfold.
  destruct (ranking raw found_chart_types) as [|[ty o] rk] eqn:Erk; simpl.
  - split; [auto|]. split; [|auto].
    intros Hocc. exfalso.
    assert (H : exists k, In k ["bar"; "line"; "pie"] /\ occurs k raw).
    { destruct Hocc as [H|[H|H]]; eexists; (split; [|exact H]); simpl; auto. }
    destruct H as (k & Hk & Hko). destruct (proj2 (Hmem k) (conj Hk Hko)).
  - rewrite Hr. simpl default.
    destruct (convert_to_numeric_at df h d Hr) as (d1 & H1 & _ & _ & Ho).
    match goal with
    | |- context [create_chartjs_data _ _ _ df ?cols ty h] =>
        pose proof (create_chartjs_data_after_convert df cols ty h) as Hp;
        destruct (create_chartjs_data numeric_of_str int_of_str float_of_str
                    df cols ty h) as [[c|e] h1]
    end; simpl in *;
      (split; [intros r d0 Hne H0; eapply prefix_lookup_Some; [|exact Hp];
               rewrite Ho by exact Hne; exact H0|]);
      (split; [intros _; rewrite H1; eapply prefix_lookup_Some; [exact H1 | exact Hp]|]);
      intros Hb Hl Hp'; exfalso;
      destruct (proj1 (Hmem ty) (or_introl eq_refl)) as [Hin Hocc];
      simpl in Hin; destruct Hin as [<-|[<-|[<-|[]]]]; contradiction.
Qed.

End CallerFrame.

Lemma create_chartjs_data_caller_frame_witness :
  (exists d1 : DataFrame,
     snd (convert_to_numeric decimal_num decimal_int 0%nat [sales_csv]) !! 0%nat
     = Some d1
     /\ snd (create_chartjs_data decimal_num decimal_int decimal_float
               0%nat ["region"; "sales"] "bar" [sales_csv]) !! 0%nat = Some d1
     /\ columns d1 = columns sales_csv
     /\ column_lengths d1 = column_lengths sales_csv)
  /\ (forall (r' : ref) (d0 : DataFrame),
         r' <> 0%nat -> [sales_csv] !! r' = Some d0 ->
         snd (create_chartjs_data decimal_num decimal_int decimal_float
                0%nat ["region"; "sales"] "bar" [sales_csv]) !! r' = Some d0).
Proof.
  apply (create_chartjs_data_caller_frame decimal_num decimal_int decimal_float
           0%nat [sales_csv] sales_csv ["region"; "sales"] "bar").
  reflexivity.
Defined.

Lemma process_data_and_plot_stored_dataset_witness :
  let h' := snd (process_data_and_plot decimal_num decimal_int decimal_float
                   0%nat "a pie chart of region" [sales_csv]) in
  (forall (r : ref) (d0 : DataFrame),
      r <> 0%nat -> [sales_csv] !! r = Some d0 -> h' !! r = Some d0)
  /\ (occurs "bar" "a pie chart of region" \/ occurs "line" "a pie chart of region"
      \/ occurs "pie" "a pie chart of region" ->
      h' !! 0%nat
      = snd (convert_to_numeric decimal_num decimal_int 0%nat [sales_csv]) !! 0%nat)
  /\ (~ occurs "bar" "a pie chart of region" ->
      ~ occurs "line" "a pie chart of region" ->
      ~ occurs "pie" "a pie chart of region" ->
      h' = [sales_csv]).
Proof.
  apply (process_data_and_plot_stored_dataset decimal_num decimal_int decimal_float
           0%nat "a pie chart of region" [sales_csv] sales_csv).
  reflexivity.
Defined.

(** ** The labels of bar and line charts: [int()] of the filtered cells *)

Lemma bind_returns {A B} (m : Py A) (f : A -> Py B) (h h' : heap) (b : B) :
  (m ≫= f) h = (Return b, h') ->
  exists (a : A) (h1 : heap), m h = (Return a, h1) /\ f a h1 = (Return b, h').
Proof.
  unfold mbind, Py_bind. destruct (m h) as [[a|e] h1]; [eauto | discriminate].
Qed.

Lemma set_entry_Forall2 {X} (P : record -> X -> Prop) (d d' : list record)
    (xs : list X) (i : nat) (k : string) (v : num) :
  (forall rec x, P rec x -> P (dict_set k v rec) x) ->
  set_entry d i k v = Return d' -> Forall2 P d xs -> Forall2 P d' xs.
Proof.
  intros HP. unfold set_entry. destruct (d !! i) as [rec|] eqn:E; [|discriminate].
  intros [= <-] Hd.
  destruct (Forall2_lookup_l _ _ _ _ _ Hd E) as (x & Hx & Hp).
  rewrite <- (list_insert_id xs i x Hx).
  apply Forall2_insert; [exact Hd | apply HP, Hp].
Qed.

Lemma to_dict_row_assoc (l : string) (i : nat) (aggs : list (string * list num))
    (r : record) :
  Forall (fun col => fst col <> l) aggs ->
  assoc l (fold_left (fun r (col : string * list num) =>
                        match snd col !! i with
                        | Some v => dict_set (fst col) v r
                        | None => r
                        end) aggs r)
  = assoc l r.
Proof.
  intros H. revert r. induction H as [|col aggs Hcol Haggs IH]; simpl; intros r.
  - reflexivity.
  - rewrite IH. destruct (snd col !! i); [|reflexivity].
    apply assoc_dict_set_ne, Hcol.
Qed.

Lemma map_lookup_seq {A} (pre l : list A) :
  map (fun i => (pre ++ l) !! i) (seq (length pre) (length l)) = map Some l.
Proof.
  revert pre; induction l as [|x l IH]; intros pre; simpl; [reflexivity|].
  f_equal.
  - rewrite lookup_app_r, Nat.sub_diag by lia. reflexivity.
  - specialize (IH (pre ++ [x])). rewrite length_app in IH. simpl in IH.
    rewrite Nat.add_1_r in IH. rewrite <- IH.
    apply map_ext. intros i. rewrite <- app_assoc. reflexivity.
Qed.

(** The key column of the grouped frame comes out of [to_dict] as it is. *)
Lemma to_dict_records_label_column (l : string) (gs : list num)
    (aggs : list (string * list num)) :
  Forall (fun col => fst col <> l) aggs ->
  map (assoc l) (to_dict_records ((l, gs) :: aggs)) = map Some gs.
Proof.
  intros H. unfold to_dict_records. rewrite map_map.
  rewrite <- (map_lookup_seq [] gs). simpl length.
  apply map_ext_in. intros i Hi. simpl fold_left.
  rewrite (to_dict_row_assoc l i aggs _ H). simpl.
  destruct (gs !! i) as [g|]; simpl; [|reflexivity].
  rewrite String.eqb_refl. reflexivity.
Qed.

Lemma groupby_mean_label_column (df : NumFrame) (l : string) (cols : list string)
    (zs : list Z) (grouped : list (string * list num)) :
  assoc l df = Some (IntCol zs) -> ~ In l cols ->
  groupby_mean df l cols = Return grouped ->
  map (assoc l) (to_dict_records grouped) = map Some (group_keys (map NInt zs)).
Proof.
  intros Hl Hn. unfold groupby_mean. rewrite Hl.
  destruct cols as [|c0 cols0]; [discriminate|]. intros [= <-].
  apply to_dict_records_label_column.
  exact (aggregated_names
           (fun c => assoc c df)
           (fun _ xc => map (group_mean (column_nums (IntCol zs)) (column_nums xc))
                            (group_keys (column_nums (IntCol zs))))
           l (c0 :: cols0) Hn).
Qed.

Lemma frame_of_records_label (l : string) (d : list record) (zs : list Z) :
  map (assoc l) d = map (fun z => Some (NInt z)) zs ->
  assoc l (frame_of_records d)
  = if str_in l (record_keys d) then Some (IntCol zs) else None.
Proof.
  intros H. unfold frame_of_records. rewrite assoc_frame_of_keys. rewrite H.
  replace (forallb option_is_int (map (fun z => Some (NInt z)) zs)) with true
    by (symmetry; apply forallb_forall; intros o Ho;
        apply in_map_iff in Ho as (z & <- & _); reflexivity).
  rewrite map_map. simpl. rewrite map_id. reflexivity.
Qed.

(** Lines 110-128 on entries that carry the integer labels [zs]: the
    entries of the result carry the distinct labels, ascending. *)
Lemma finish_chart_labels (l : string) (vs : list string) (cd c : ChartData)
    (zs : list Z) :
  Forall2 (fun rec z => assoc l rec = Some (NInt z)) (data cd) zs ->
  finish_chart (l :: vs) l cd = Return c ->
  exists labels : list Z,
    map (assoc l) (data c) = map (fun z => Some (NInt z)) labels
    /\ StronglySorted Z.lt labels
    /\ (forall z, In z labels <-> In z zs).
Proof.
  intros Hd. unfold finish_chart, mbind, outcome_bind.
  destruct (set_x_title l cd) as [cd1|] eqn:E1; [|discriminate].
  assert (Hd1 : data cd1 = data cd).
  { unfold set_x_title in E1. destruct (scales (options cd)); [|discriminate].
    injection E1 as <-. reflexivity. }
  rewrite Hd1.
  destruct (sorted_by_first_value (data cd)) as [d'|] eqn:E2; [|discriminate].
  apply sorted_by_first_value_perm in E2.
  assert (Hm : map (assoc l) (data cd) = map (fun z => Some (NInt z)) zs).
  { clear -Hd. induction Hd as [|rec z d zs Hz Hd IH]; simpl; [reflexivity|].
    rewrite Hz, IH. reflexivity. }
  assert (Hp : Permutation (map (assoc l) d') (map (fun z => Some (NInt z)) zs)).
  { rewrite <- Hm. apply Permutation_map, E2. }
  apply Permutation_map_inv in Hp as (zs' & Hzs' & Hperm).
  pose proof (frame_of_records_label l d' zs' Hzs') as Hfl.
  simpl data.
  destruct (groupby_mean _ _ _) as [grouped|] eqn:E3; [|discriminate].
  intros [= <-]. simpl.
  destruct (str_in l (record_keys d')) eqn:Hin.
  2:{ unfold groupby_mean in E3. rewrite Hfl in E3. discriminate. }
  match type of E3 with
  | groupby_mean _ _ ?cols = _ => assert (Hn : ~ In l cols)
  end.
  { unfold numerical_columns, frame_of_records. rewrite map_map. simpl.
    rewrite map_id, Hin. apply list_remove_absent, record_keys_NoDup. }
  rewrite (groupby_mean_label_column _ l _ zs' grouped Hfl Hn E3).
  destruct (group_keys_int zs') as (labels & Eg & Hs & Hl).
  exists labels. rewrite Eg, map_map. split; [reflexivity|].
  split; [exact Hs|]. intros z. rewrite Hl. split; intros Hz.
  - eapply Permutation_in; [apply Permutation_sym, Hperm | exact Hz].
  - eapply Permutation_in; [exact Hperm | exact Hz].
Qed.

Section LabelCoercion.

Variable numeric_of_str : string -> option num.
Variable int_of_str : string -> option Z.
Variable float_of_str : string -> option pyfloat.

(** Line 71: one entry per cell, labelled with the [int()] of the cell. *)
Lemma label_entries_coerced (l : string) (vals : list value) (d : list record) :
  label_entries int_of_str l vals = Return d ->
  exists zs : list Z,
    Forall2 (fun cell z => py_int int_of_str cell = Return z) vals zs
    /\ d = map (fun z => [(l, NInt z)]) zs.
Proof.
  revert d; induction vals as [|val vals IH]; simpl; intros d.
  - intros [= <-]. exists []. split; constructor.
  - unfold mbind, outcome_bind.
    destruct (py_int int_of_str val) as [z|] eqn:Ez; [|discriminate].
    destruct (label_entries int_of_str l vals) as [rest|]; [|discriminate].
    intros [= <-]. destruct (IH rest eq_refl) as (zs & H1 & ->).
    exists (z :: zs). split; [constructor; assumption | reflexivity].
Qed.

Lemma fill_values_Forall2 {X} (P : record -> X -> Prop) (k : string)
    (col : Series) (vals : list value) (i : nat) (d d' : list record)
    (xs : list X) :
  (forall v rec x, P rec x -> P (dict_set k v rec) x) ->
  fill_values int_of_str float_of_str k col vals i d = Return d' ->
  Forall2 P d xs -> Forall2 P d' xs.
Proof.
  intros HP. revert i d; induction vals as [|val vals IH]; simpl; intros i d.
  - intros [= <-]. auto.
  - unfold mbind, outcome_bind.
    destruct (coerce_by_dtype int_of_str float_of_str col val) as [v|]; [|discriminate].
    destruct (set_entry d i k v) as [d1|] eqn:E; [|discriminate].
    intros H Hd. eapply IH; [exact H|].
    eapply set_entry_Forall2; [apply HP | exact E | exact Hd].
Qed.

(** After the fields of the value column [k] are filled in, either every
    entry still has its label, or (when [k] is the label column itself)
    every entry has the label as its only field. *)
Lemma fill_values_keeps (l k : string) (col : Series) (c : ChartData)
    (zs : list Z) :
  Forall2 (fun rec z => assoc l rec = Some (NInt z)) (data c) zs ->
  Forall (only_label l) (data c) ->
  returns_only
    (fun c' => Forall2 (fun rec z => assoc l rec = Some (NInt z)) (data c') zs
               \/ Forall (only_label l) (data c'))
    (d ← lift (fill_values int_of_str float_of_str k col (tolist col) 0 (data c));
     mret (set_data d (set_valuesKey k c))).
Proof.
  intros H1 H2. apply returns_only_bind_lift. intros d Hd.
  apply returns_only_ret. simpl. destruct (String.eqb k l) eqn:E.
  - apply String.eqb_eq in E as ->. right.
    eapply fill_values_Forall; [|exact Hd|exact H2].
    intros v rec. apply only_label_dict_set.
  - apply String.eqb_neq in E. left.
    eapply fill_values_Forall2; [|exact Hd|exact H1].
    intros v rec z Hz. rewrite assoc_dict_set_ne; assumption.
Qed.

Lemma first_numeric_column_keeps (l : string) (r : ref) (cols : list string)
    (c : ChartData) (zs : list Z) :
  Forall2 (fun rec z => assoc l rec = Some (NInt z)) (data c) zs ->
  Forall (only_label l) (data c) ->
  returns_only
    (fun c' => Forall2 (fun rec z => assoc l rec = Some (NInt z)) (data c') zs
               \/ Forall (only_label l) (data c'))
    (first_numeric_column int_of_str float_of_str r cols c).
Proof.
  intros H1 H2. induction cols as [|col cols IH]; simpl.
  - apply returns_only_raise.
  - apply returns_only_bind; intros s.
    destruct (is_numeric_dtype s); [|exact IH].
    apply returns_only_bind; intros s'.
    apply (fill_values_keeps l col s' c zs H1 H2).
Qed.

(** The labels of a returned payload: the distinct [int()]s of the cells
    of the label column of the filtered dataset, ascending. *)
Lemma returned_labels (r : ref) (labels_col : string)
    (value_columns : list string) (chart_type : string) (h h' : heap)
    (c : ChartData) :
  str_in (lower chart_type) ["pie"; "doughnut"] = false ->
  create_chartjs_data numeric_of_str int_of_str float_of_str
    r (labels_col :: value_columns) chart_type h = (Return c, h') ->
  exists (w : DataFrame) (cl : Series) (zs labels : list Z),
    fst (filtered numeric_of_str int_of_str r (labels_col :: value_columns) h)
    = Return w
    /\ assoc labels_col w = Some cl
    /\ Forall2 (fun cell z => py_int int_of_str cell = Return z) (tolist cl) zs
    /\ map (assoc labels_col) (data c) = map (fun z => Some (NInt z)) labels
    /\ StronglySorted Z.lt labels
    /\ (forall z, In z labels <-> In z zs).
Proof.
  intros Hbar E. unfold create_chartjs_data in E.
  apply bind_returns in E as ([] & h1 & Ec & E).
  apply bind_returns in E as (r' & h2 & Ef & E).
  apply bind_returns in E as (w & h3 & Ew & E).
  unfold deref in Ew. injection Ew as Ew <-.
  destruct (List.filter _ _); [|discriminate].
  apply bind_returns in E as (cd & h4 & Eb & E).
  unfold lift in E. injection E as E _.
  rewrite Hbar in Eb.
  apply bind_returns in Eb as (cl & h5 & Ecl & Eb).
  apply bind_returns in Eb as (d0 & h6 & El & Eb).
  unfold lift in El. injection El as El <-.
  assert (Hcl : assoc labels_col w = Some cl /\ h5 = h2).
  { unfold getitem, deref, lift, mbind, Py_bind in Ecl. rewrite Ew in Ecl.
    unfold frame_get in Ecl. destruct (assoc labels_col w); [|discriminate].
    injection Ecl as -> ->. auto. }
  destruct Hcl as [Hcl ->].
  destruct (label_entries_coerced labels_col (tolist cl) d0 El) as (zs & Hzs & ->).
  set (cd0 := set_data (map (fun z => [(labels_col, NInt z)]) zs)
                (set_labelsKey labels_col (initial_chart_data chart_type))) in Eb.
  assert (H1 : Forall2 (fun rec z => assoc labels_col rec = Some (NInt z))
                 (data cd0) zs).
  { simpl. clear. induction zs as [|z zs IH]; simpl; constructor; [|exact IH].
    simpl. rewrite String.eqb_refl. reflexivity. }
  assert (H2 : Forall (only_label labels_col) (data cd0)).
  { simpl. apply List.Forall_forall. intros rec Hrec.
    apply in_map_iff in Hrec as (z & <- & _). reflexivity. }
  assert (Hcd : Forall2 (fun rec z => assoc labels_col rec = Some (NInt z))
                  (data cd) zs
                \/ Forall (only_label labels_col) (data cd)).
  { destruct value_columns as [|v [|v2 vs]].
    - injection Eb as <- _. left. exact H1.
    - exact (returns_only_bind _ _ _
               (fun cv => fill_values_keeps labels_col v cv cd0 zs H1 H2)
               h2 cd h4 Eb).
    - exact (first_numeric_column_keeps labels_col r' _ cd0 zs H1 H2 h2 cd h4 Eb). }
  destruct Hcd as [Hcd|Hcd].
  2:{ destruct (finish_chart_only_label labels_col value_columns cd Hcd) as [e He].
      congruence. }
  destruct (finish_chart_labels labels_col value_columns cd c zs Hcd E)
    as (labels & Hl1 & Hl2 & Hl3).
  exists w, cl, zs, labels.
  split; [|auto].
  unfold filtered, mbind, Py_bind. rewrite Ec, Ef. unfold deref. simpl.
  rewrite Ew. reflexivity.
Qed.

(** C10, as the code has it.  With a chart type other than pie/doughnut,
    [int()] is applied to every cell of the label column (the first
    selected one) of the filtered dataset, which is the caller's dataset
    as the normaliser and the outlier filters leave it: the labels of a
    payload that is returned are the distinct results, in strictly
    ascending order.  A text cell of the caller's label column that does
    not read as a whole number never reaches [int()]: the column stays a
    text column and the outlier filter raises TypeError.  A text cell
    that reads as a whole number (such as "8.0", which [int()] refuses)
    is made an integer by the normaliser first. *)
Theorem create_chartjs_data_label_int (r : ref) (h : heap) (d : DataFrame)
    (labels_col : string) (value_columns : list string) (chart_type : string) :
  h !! r = Some d -> List.NoDup (columns d) ->
  str_in (lower chart_type) ["pie"; "doughnut"] = false ->
  let result :=
    fst (create_chartjs_data numeric_of_str int_of_str float_of_str
           r (labels_col :: value_columns) chart_type h) in
  (forall c, result = Return c ->
     exists (w : DataFrame) (cl : Series) (zs labels : list Z),
       fst (filtered numeric_of_str int_of_str r (labels_col :: value_columns) h)
       = Return w
       /\ assoc labels_col w = Some cl
       /\ Forall2 (fun cell z => py_int int_of_str cell = Return z) (tolist cl) zs
       /\ map (assoc labels_col) (data c) = map (fun z => Some (NInt z)) labels
       /\ StronglySorted Z.lt labels
       /\ (forall z, In z labels <-> In z zs))
  /\ (forall cells s,
        assoc labels_col d = Some (Object cells) ->
        In (VStr s) cells ->
        num_is_whole (coerce_cell numeric_of_str (VStr s)) = false ->
        exists msg, result = Raise (TypeError msg)).
Proof.
  intros Hr Hnd Hbar result. split.
  - intros c Hc. subst result.
    destruct (create_chartjs_data _ _ _ _ _ _ h) as [o h'] eqn:E.
    simpl in Hc. subst o.
    exact (returned_labels r labels_col value_columns chart_type h h' c Hbar E).
  - intros cells s Hl Hin Hs.
    exact (text_label_raises numeric_of_str int_of_str float_of_str
             r h d labels_col value_columns chart_type cells s Hr Hnd Hl Hin Hs).
Qed.

End LabelCoercion.

(** C10, as worded: [int()] refuses the text "8.0", the label column
    holds it, and the call returns a payload all the same: the normaliser
    has made the column an integer column before [int()] sees a cell. *)
Lemma scenario_decimal_point_labels :
  py_int decimal_int (VStr "8.0")
  = Raise (ValueError "invalid literal for int() with base 10")
  /\ In (VStr "8.0") [VStr "8.0"; VStr "8.0"; VStr "9.0"]
  /\ assoc "code" codes_csv = Some (Object [VStr "8.0"; VStr "8.0"; VStr "9.0"])
  /\ exists c : ChartData,
       fst (call_create_chartjs_data codes_csv ["code"; "sales"] "bar") = Return c
       /\ data c = [[("code", NInt 8); ("sales", NFloat (Fin 20))];
                    [("code", NInt 9); ("sales", NFloat (Fin 20))]].
Proof.
  split; [reflexivity|]. split; [simpl; auto|]. split; [reflexivity|].
  eexists. split; vm_compute; reflexivity.
Qed.

(** The dataset the payload of that call is built from, and its labels:
    the [int()]s of the cells 8, 8, 9, distinct and ascending. *)
Example scenario_filtered_codes :
  fst (filtered decimal_num decimal_int 0%nat ["code"; "sales"] [codes_csv])
  = Return [("code", Int64 [8; 8; 9]); ("sales", Int64 [10; 30; 20])]
  /\ exists c : ChartData,
       fst (call_create_chartjs_data codes_csv ["code"; "sales"] "bar") = Return c
       /\ map (assoc "code") (data c) = [Some (NInt 8); Some (NInt 9)].
Proof.
  split; [vm_compute; reflexivity|].
  eexists. split; vm_compute; reflexivity.
Qed.

Lemma create_chartjs_data_label_int_witness :
  (exists msg,
     fst (create_chartjs_data decimal_num decimal_int decimal_float
            0%nat ("region" :: ["sales"]) "bar" [sales_by_region])
     = Raise (TypeError msg))
  /\ (forall c,
        fst (create_chartjs_data decimal_num decimal_int decimal_float
               0%nat ("code" :: ["sales"]) "bar" [codes_csv])
        = Return c ->
        exists (w : DataFrame) (cl : Series) (zs labels : list Z),
          fst (filtered decimal_num decimal_int 0%nat ("code" :: ["sales"]) [codes_csv])
          = Return w
          /\ assoc "code" w = Some cl
          /\ Forall2 (fun cell z => py_int decimal_int cell = Return z) (tolist cl) zs
          /\ map (assoc "code") (data c) = map (fun z => Some (NInt z)) labels
          /\ StronglySorted Z.lt labels
          /\ (forall z, In z labels <-> In z zs)).
Proof.
  split.
  - refine (proj2 (create_chartjs_data_label_int decimal_num decimal_int decimal_float
                     0%nat [sales_by_region] sales_by_region "region" ["sales"] "bar"
                     eq_refl _ eq_refl)
                  [VStr "A"; VStr "A"; VStr "B"] "A" eq_refl _ eq_refl).
    + unfold sales_by_region, columns; simpl. distinct_names.
    + simpl. auto.
  - refine (proj1 (create_chartjs_data_label_int decimal_num decimal_int decimal_float
                     0%nat [codes_csv] codes_csv
                     "code" ["sales"] "bar" eq_refl _ eq_refl)).
    unfold codes_csv, columns; simpl. distinct_names.
Defined.
